(** * python-fakturoid: models, transport, resource adapters and paged lists

    A shallow embedding of [fakturoid/models.py], [fakturoid/api.py] and
    [fakturoid/paging.py] (Python 3), and the properties of the
    specification proved, or refuted, on it.

    Conventions of the embedding:
    - a Python [dict] with string keys is an association list in insertion
      order, each key occurring once;
    - a call that can raise returns a [result]; the exception classes are
      those of the interpreter, of [requests], of [dateutil] and of
      [decimal]. When a method of a model raises, the embedding gives the
      exception only, not what the call had changed before it; a call of
      the client keeps the requests sent before the exception;
    - the standard and third-party libraries the code calls
      ([dateutil.parser.parse], [datetime], [decimal.Decimal]) are an
      interface, [PyLib]; the HTTP server is a function from the requests
      seen so far and the current request to a response, and always
      answers;
    - floating-point numbers are outside the embedding (the service sends
      amounts as strings). *)

From Stdlib Require Import ZArith String Ascii List Bool Lia DecimalString.
From stdpp Require Import base option list gmap.
Import ListNotations.

Local Set Warnings "-register-all".
Local Open Scope Z_scope.
Local Open Scope string_scope.
Local Open Scope list_scope.

(** ** The library interface *)

(** What the code uses of [datetime], [dateutil] and [decimal]. A parser
    returns [None] where the Python function raises. *)
Class PyLib : Type := {
  datetime : Type;
  date : Type;
  decimal : Type;
  (** [dateutil.parser.parse(s)] *)
  parse : string -> option datetime;
  (** [datetime.date()] *)
  datetime_date : datetime -> date;
  (** [datetime.isoformat()] and [date.isoformat()] *)
  datetime_isoformat : datetime -> string;
  date_isoformat : date -> string;
  (** [Decimal(s)] for a string [s], [Decimal(1)] and [str(d)] *)
  Decimal : string -> option decimal;
  Decimal_one : decimal;
  decimal_str : decimal -> string;
  (** [bool(d)] is [not d.is_zero()] *)
  decimal_is_zero : decimal -> bool;
  (** [==] on these types, and between a [Decimal] and an [int] *)
  decimal_eqb : decimal -> decimal -> bool;
  decimal_eqb_int : decimal -> Z -> bool;
  date_eqb : date -> date -> bool;
  datetime_eqb : datetime -> datetime -> bool;
  (** the order in which a [set] of strings, given by its members,
      iterates: it follows the hashes of the strings, which change from
      one run of the interpreter to the next *)
  set_order : list string -> list string
}.

(** The printers read back: what [parse] and [Decimal] produced is what
    they produce again from its printed form. *)
Class PyLibLaws (L : PyLib) : Prop := {
  parse_isoformat :
    forall s t, parse s = Some t -> parse (datetime_isoformat t) = Some t;
  parse_date_isoformat :
    forall s t, parse s = Some t ->
      exists t', parse (date_isoformat (datetime_date t)) = Some t'
                 /\ datetime_date t' = datetime_date t;
  Decimal_str :
    forall s d, Decimal s = Some d -> Decimal (decimal_str d) = Some d;
  Decimal_one_str :
    Decimal (decimal_str Decimal_one) = Some Decimal_one
}.

(** ** Model classes *)

(** The three behaviours in [models.py]: [Model] itself, [InvoiceLine]
    (its constructor sets [quantity]) and [AbstractInvoice] (it overrides
    [update], [serialize_field_value] and [is_field_writable]). *)
Inductive model_kind : Type := PlainModel | LineModel | InvoiceModel.

(** A model class: its name and its [Meta]. [Meta_readonly] is [None]
    when [Meta] has no [readonly] attribute. *)
Record model_class : Type := {
  cls_name : string;
  cls_kind : model_kind;
  Meta_readonly : option (list string);
  Meta_decimal : list string
}.

Definition Account : model_class :=
  {| cls_name := "Account"; cls_kind := PlainModel;
     Meta_readonly := None; Meta_decimal := [] |}.

Definition BankAccount : model_class :=
  {| cls_name := "BankAccount"; cls_kind := PlainModel;
     Meta_readonly := None; Meta_decimal := [] |}.

Definition Subject : model_class :=
  {| cls_name := "Subject"; cls_kind := PlainModel;
     Meta_readonly := Some ["id"; "user_id"; "unreliable"; "unreliable_checked_at";
                            "html_url"; "url"; "created_at"; "updated_at"];
     Meta_decimal := [] |}.

Definition InvoiceLine : model_class :=
  {| cls_name := "InvoiceLine"; cls_kind := LineModel;
     Meta_readonly := Some ["id"; "unit_price_without_vat"; "unit_price_with_vat";
                            "total_price_without_vat"; "total_vat";
                            "native_total_price_without_vat"; "native_total_vat";
                            "inventory"];
     Meta_decimal := ["quantity"; "unit_price"] |}.

Definition Invoice : model_class :=
  {| cls_name := "Invoice"; cls_kind := InvoiceModel;
     Meta_readonly := Some [
       "id"; "your_name"; "your_street"; "your_city"; "your_zip"; "your_country";
       "your_registration_no"; "your_vat_no"; "your_local_vat_no"; "generator_id";
       "token"; "status"; "due_on"; "sent_at"; "paid_at"; "reminder_sent_at";
       "canceled_at"; "uncollectible_at"; "locked_at"; "webinvoice_seen_on";
       "subtotal"; "total"; "native_subtotal"; "native_total";
       "remaining_amount"; "remaining_native_amount"; "eet_records"; "vat_rates_summary";
       "paid_advances"; "payments"; "html_url"; "public_html_url"; "url"; "pdf_url";
       "updated_at"; "subject_url"; "created_at"; "updated_at"];
     Meta_decimal := ["exchange_rate"; "subtotal"; "total";
                      "native_subtotal"; "native_total"; "remaining_amount";
                      "remaining_native_amount"] |}.

Definition Expense : model_class :=
  {| cls_name := "Expense"; cls_kind := InvoiceModel;
     Meta_readonly := Some [
       "id"; "supplier_name"; "supplier_street"; "supplier_city";
       "supplier_zip"; "supplier_country"; "supplier_registration_no";
       "supplier_vat_no"; "supplier_local_vat_no"; "status"; "paid_on"; "locked_at";
       "subtotal"; "total"; "native_subtotal"; "native_total"; "vat_rates_summary";
       "payments"; "html_url"; "url"; "subject_url"; "created_at"; "updated_at"];
     Meta_decimal := ["exchange_rate"; "subtotal"; "total";
                      "native_subtotal"; "native_total"] |}.

Definition Generator : model_class :=
  {| cls_name := "Generator"; cls_kind := InvoiceModel;
     Meta_readonly := Some [
       "id"; "legacy_bank_details"; "subtotal"; "total"; "native_subtotal";
       "native_total"; "html_url"; "url"; "subject_url"; "created_at"; "updated_at"];
     Meta_decimal := ["exchange_rate"; "subtotal"; "total"; "native_subtotal";
                      "native_total"] |}.

Definition InvoiceMessage : model_class :=
  {| cls_name := "InvoiceMessage"; cls_kind := PlainModel;
     Meta_readonly := None; Meta_decimal := [] |}.

Definition is_invoice_like (c : model_class) : bool :=
  match cls_kind c with InvoiceModel => true | _ => false end.

Definition is_line (c : model_class) : bool :=
  match cls_kind c with LineModel => true | _ => false end.

(** ** Values, exceptions, dictionaries *)

Section Values.
Context {L : PyLib}.

(** Python values as the code meets them: JSON data, the coerced types
    and model objects ([VModel c attrs] is an instance of [c] whose
    [__dict__] is [attrs]). *)
Inductive value : Type :=
| VNone
| VBool (b : bool)
| VInt (z : Z)
| VStr (s : string)
| VDecimal (d : decimal)
| VDate (d : date)
| VDateTime (t : datetime)
| VList (items : list value)
| VDict (entries : list (string * value))
| VModel (c : model_class) (attrs : list (string * value)).

Definition pydict : Type := list (string * value).

Inductive exn : Type :=
| TypeError (msg : string)
| ValueError (arg : value)
| AttributeError (msg : string)
| KeyError (key : string)
| IndexError (msg : string)
| ParserError (text : string)
| InvalidOperation (text : string)
| HTTPError (status : Z).

Inductive result (A : Type) : Type :=
| Ok (a : A)
| Raise (e : exn).
Arguments Ok {A} a.
Arguments Raise {A} e.

Definition bind {A B} (r : result A) (k : A -> result B) : result B :=
  match r with
  | Ok a => k a
  | Raise e => Raise e
  end.

(** [d.get(k)], [k in d], [d[k] = v], [d.pop(k)] and [d.update(e)] *)
Fixpoint dict_get (k : string) (d : pydict) : option value :=
  match d with
  | [] => None
  | (k', v) :: rest => if String.eqb k k' then Some v else dict_get k rest
  end.

Definition dict_mem (k : string) (d : pydict) : bool :=
  match dict_get k d with Some _ => true | None => false end.

Fixpoint dict_set (k : string) (v : value) (d : pydict) : pydict :=
  match d with
  | [] => [(k, v)]
  | (k', v') :: rest =>
      if String.eqb k k' then (k', v) :: rest else (k', v') :: dict_set k v rest
  end.

Fixpoint dict_pop (k : string) (d : pydict) : pydict :=
  match d with
  | [] => []
  | (k', v') :: rest =>
      if String.eqb k k' then rest else (k', v') :: dict_pop k rest
  end.

Definition dict_update (d e : pydict) : pydict :=
  fold_left (fun acc kv => dict_set (fst kv) (snd kv) acc) e d.

Definition dict_keys (d : pydict) : list string := map fst d.

End Values.

Arguments Ok {L A} a.
Arguments Raise {L A} e.

Notation "'let*' p ':=' r 'in' k" := (bind r (fun p => k))
  (at level 10, p pattern, r at level 100, k at level 200).

(** ** Strings *)

(** [s.startswith(p)], [s.endswith(p)], [p in s] and the characters of
    [s] as iteration yields them. *)
Definition startswith (s p : string) : bool := String.prefix p s.

Definition endswith (s p : string) : bool :=
  let n := String.length s in
  let m := String.length p in
  (m <=? n)%nat && String.eqb (String.substring (n - m) m s) p.

Definition str_contains (p s : string) : bool :=
  match String.index 0 p s with Some _ => true | None => false end.

Definition str_of_nat (n : nat) : string :=
  NilEmpty.string_of_uint (Nat.to_uint n).

Definition str_of_Z (z : Z) : string :=
  NilZero.string_of_int (Z.to_int z).

Definition str_in (s : string) (l : list string) : bool :=
  existsb (String.eqb s) l.

Section Models.
Context {L : PyLib}.

Definition str_chars (s : string) : list value :=
  map (fun a => VStr (String a EmptyString)) (list_ascii_of_string s).

(** ** Truth and equality of values *)

(** [bool(v)] *)
Definition py_truthy (v : value) : bool :=
  match v with
  | VNone => false
  | VBool b => b
  | VInt z => negb (Z.eqb z 0)
  | VStr s => negb (String.eqb s "")
  | VDecimal d => negb (decimal_is_zero d)
  | VDate _ | VDateTime _ => true
  | VList items => match items with [] => false | _ => true end
  | VDict entries => match entries with [] => false | _ => true end
  | VModel _ _ => true
  end.

(** [a == b]. [bool] is a subclass of [int]; dictionaries compare without
    regard to order. Model classes define no [__eq__]: objects compare by
    identity, which a tree of values does not have, and an object met as
    an operand is taken to be a different object. *)
Fixpoint py_eq (a b : value) {struct a} : bool :=
  match a, b with
  | VNone, VNone => true
  | VBool x, VBool y => Bool.eqb x y
  | VBool x, VInt y => Z.eqb (Z.b2z x) y
  | VInt x, VBool y => Z.eqb x (Z.b2z y)
  | VInt x, VInt y => Z.eqb x y
  | VStr x, VStr y => String.eqb x y
  | VDecimal x, VDecimal y => decimal_eqb x y
  | VDecimal x, VInt y => decimal_eqb_int x y
  | VInt x, VDecimal y => decimal_eqb_int y x
  | VDecimal x, VBool y => decimal_eqb_int x (Z.b2z y)
  | VBool x, VDecimal y => decimal_eqb_int y (Z.b2z x)
  | VDate x, VDate y => date_eqb x y
  | VDateTime x, VDateTime y => datetime_eqb x y
  | VList xs, VList ys =>
      (fix all2 (xs ys : list value) : bool :=
         match xs, ys with
         | [], [] => true
         | x :: xs', y :: ys' => py_eq x y && all2 xs' ys'
         | _, _ => false
         end) xs ys
  | VDict xs, VDict ys =>
      Nat.eqb (length xs) (length ys) &&
      (fix each (xs : list (string * value)) : bool :=
         match xs with
         | [] => true
         | (k, x) :: xs' =>
             match dict_get k ys with
             | Some y => py_eq x y
             | None => false
             end && each xs'
         end) xs
  | _, _ => false
  end.

(** [iter(v)]: the elements a [for] loop or [map] goes through. *)
Definition py_iter (v : value) : result (list value) :=
  match v with
  | VList items => Ok items
  | VStr s => Ok (str_chars s)
  | VDict entries => Ok (map (fun kv => VStr (fst kv)) entries)
  | _ => Raise (TypeError "object is not iterable")
  end.

(** [key in v] for a string [key] *)
Definition py_contains_str (key : string) (v : value) : result bool :=
  match v with
  | VDict entries => Ok (dict_mem key entries)
  | VList items => Ok (existsb (fun x => py_eq x (VStr key)) items)
  | VStr s => Ok (str_contains key s)
  | _ => Raise (TypeError "argument is not iterable")
  end.

(** [v[key]] for a string [key] *)
Definition py_subscript (v : value) (key : string) : result value :=
  match v with
  | VDict entries =>
      match dict_get key entries with
      | Some x => Ok x
      | None => Raise (KeyError key)
      end
  | _ => Raise (TypeError "object is not subscriptable by a string")
  end.

(** [getattr(obj, name)] for the attributes the code reads: the instance
    [__dict__] first, then the class attribute ([id = None] on [Model],
    [lines = []] and [_loaded_lines = []] on [AbstractInvoice]). *)
Definition getattr_default (attrs : pydict) (name : string) (dflt : value) : value :=
  match dict_get name attrs with Some v => v | None => dflt end.

(** ** Names looked up on the object *)

(** [obj.name(...)] for a method [name] of the class: Python looks the
    name up in the [__dict__] of the object first, and none of the values
    an attribute can hold here is callable. *)
Definition bound_method (attrs : pydict) (name : string) : result unit :=
  if dict_mem name attrs then Raise (TypeError "object is not callable")
  else Ok tt.

(** [self.Meta]: the [Meta] of the class, unless the object has an
    attribute of that name, which is then what [self.Meta] finds. *)
Inductive meta : Type :=
| ClassMeta (c : model_class)
| OwnMeta (m : value).

Coercion ClassMeta : model_class >-> meta.

Definition self_Meta (c : model_class) (attrs : pydict) : meta :=
  match dict_get "Meta" attrs with
  | Some m => OwnMeta m
  | None => ClassMeta c
  end.

(** [getattr(m, name)] for [name] one of [readonly] and [decimal], which
    no class or built-in type defines: only a model object can have such
    an attribute, in its [__dict__]. *)
Definition own_attr (m : value) (name : string) : option value :=
  match m with
  | VModel _ attrs => dict_get name attrs
  | _ => None
  end.

(** [field in self.Meta.decimal] *)
Definition in_Meta_decimal (m : meta) (field : string) : result bool :=
  match m with
  | ClassMeta c => Ok (str_in field (Meta_decimal c))
  | OwnMeta v =>
      match own_attr v "decimal" with
      | Some r => py_contains_str field r
      | None => Raise (AttributeError "object has no attribute 'decimal'")
      end
  end.

(** ** [Model.update] *)

(** The body of the loop of [Model.update] for one item; [m] is
    [self.Meta]. *)
Definition coerce_field (m : meta) (field : string) (v : value) : result value :=
  match v with
  | VStr s =>
      if String.eqb s "" then Ok v
      else if endswith field "_at" then
        match parse s with
        | Some t => Ok (VDateTime t)
        | None => Raise (ParserError s)
        end
      else if endswith field "_on" || endswith field "_due" || endswith field "_date" then
        match parse s with
        | Some t => Ok (VDate (datetime_date t))
        | None => Raise (ParserError s)
        end
      else
        let* dec := in_Meta_decimal m field in
        if dec : bool then
          match Decimal s with
          | Some d => Ok (VDecimal d)
          | None => Raise (InvalidOperation s)
          end
        else Ok v
  | _ => Ok v
  end.

(** The loop of [Model.update]: [fields[field] = ...] replaces the value
    of the item under the cursor. *)
Fixpoint coerce_items (m : meta) (fields : pydict) : result pydict :=
  match fields with
  | [] => Ok []
  | (field, v) :: rest =>
      let* v' := coerce_field m field v in
      let* rest' := coerce_items m rest in
      Ok ((field, v') :: rest')
  end.

(** [Model.update(self, fields)] on an object of class [c] whose
    [__dict__] is [attrs]: the new [__dict__] and the caller's dictionary
    as the call leaves it. The loop reads [self.Meta] before
    [__dict__.update] runs. *)
Definition Model_update (c : model_class) (attrs fields : pydict)
  : result (pydict * pydict) :=
  let* fields' := coerce_items (self_Meta c attrs) fields in
  Ok (dict_update attrs fields', fields').

(** Keyword arguments [fields] passed to a constructor
    ([__init__(self, **fields)]): a key [self] collides with the first
    parameter. *)
Definition keyword_arguments (fields : pydict) : result unit :=
  if dict_mem "self" fields
  then Raise (TypeError "__init__() got multiple values for argument 'self'")
  else Ok tt.

(** The constructor of [InvoiceLine] on keyword arguments [fields]:
    [__init__] sets [quantity] and calls
    [Model.__init__]; the keyword dictionary is a copy of the caller's. *)
Definition InvoiceLine_new (fields : pydict) : result value :=
  let* _ := keyword_arguments fields in
  let* (attrs, _) := Model_update InvoiceLine [("quantity", VDecimal Decimal_one)] fields in
  Ok (VModel InvoiceLine attrs).

(** The loop of [AbstractInvoice.update] over the popped lines. *)
Fixpoint build_lines (items : list value) (lines loaded : list value)
  : result (list value * list value) :=
  match items with
  | [] => Ok (lines, loaded)
  | line :: rest =>
      match line with
      | VModel c' _ =>
          if is_line c' then build_lines rest (lines ++ [line]) loaded
          else Raise (TypeError "argument of type model is not iterable")
      | _ =>
          let* has_id := py_contains_str "id" line in
          let loaded' := if has_id : bool then loaded ++ [line] else loaded in
          match line with
          | VDict entries =>
              let* obj := InvoiceLine_new entries in
              build_lines rest (lines ++ [obj]) loaded'
          | _ => Raise (TypeError "argument after ** must be a mapping")
          end
      end
  end.

(** [AbstractInvoice.update(self, fields)] *)
Definition AbstractInvoice_update (c : model_class) (attrs fields : pydict)
  : result (pydict * pydict) :=
  match dict_get "lines" fields with
  | Some popped =>
      let attrs1 := dict_set "_loaded_lines" (VList [])
                      (dict_set "lines" (VList []) attrs) in
      let fields1 := dict_pop "lines" fields in
      let* items := py_iter popped in
      let* (lines, loaded) := build_lines items [] [] in
      let attrs2 := dict_set "_loaded_lines" (VList loaded)
                      (dict_set "lines" (VList lines) attrs1) in
      Model_update c attrs2 fields1
  | None => Model_update c attrs fields
  end.

(** [obj.update(fields)]: the name is looked up on the object, and the
    method is that of the class of [obj]. *)
Definition update (c : model_class) (attrs fields : pydict)
  : result (pydict * pydict) :=
  let* _ := bound_method attrs "update" in
  match cls_kind c with
  | InvoiceModel => AbstractInvoice_update c attrs fields
  | _ => Model_update c attrs fields
  end.

(** The constructor of [c] on keyword arguments [fields]: the [__dict__]
    of the new object. *)
Definition new (c : model_class) (fields : pydict) : result pydict :=
  let* _ := keyword_arguments fields in
  let attrs0 := match cls_kind c with
                | LineModel => [("quantity", VDecimal Decimal_one)]
                | _ => []
                end in
  let* (attrs, _) := update c attrs0 fields in
  Ok attrs.


End Models.

(** ** Serialization: [is_field_writable], [serialize_field_value], [get_fields] *)

Section Serialization.
Context {L : PyLib}.

(** [Model.is_field_writable]: [hasattr(self.Meta, 'readonly')], then
    [field not in self.Meta.readonly]; [m] is [self.Meta]. *)
Definition Model_is_field_writable (m : meta) (field : string) : result bool :=
  match m with
  | ClassMeta c =>
      Ok (match Meta_readonly c with
          | Some readonly => negb (str_in field readonly)
          | None => true
          end)
  | OwnMeta v =>
      match own_attr v "readonly" with
      | Some readonly =>
          let* found := py_contains_str field readonly in Ok (negb found)
      | None => Ok true
      end
  end.

Definition AbstractInvoice_is_field_writable (m : meta) (field : string) : result bool :=
  if startswith field "your_" || startswith field "client_" then Ok false
  else Model_is_field_writable m field.

(** [self.is_field_writable(field, value)] on an object of class [c]
    whose [__dict__] is [attrs]: the name is looked up on the object, and
    the method is that of the class. *)
Definition is_field_writable (c : model_class) (attrs : pydict) (field : string)
  : result bool :=
  let* _ := bound_method attrs "is_field_writable" in
  match cls_kind c with
  | InvoiceModel => AbstractInvoice_is_field_writable (self_Meta c attrs) field
  | _ => Model_is_field_writable (self_Meta c attrs) field
  end.

(** What [is_field_writable] answers on an object of class [c] that has
    no attribute named [Meta] or [is_field_writable] of its own: the
    answer the class gives. *)
Definition class_writable (c : model_class) (field : string) : bool :=
  let listed := match Meta_readonly c with
                | Some readonly => str_in field readonly
                | None => false
                end in
  match cls_kind c with
  | InvoiceModel =>
      if startswith field "your_" || startswith field "client_" then false
      else negb listed
  | _ => negb listed
  end.

(** The name [Model.serialize_field_value] gives to the [i]-th item of a
    list: the field name, a dot, the index. *)
Definition item_field (field : string) (i : nat) : string :=
  String.append field (String.append "." (str_of_nat i)).

(** [l.get('id')], the function mapped over the serialized lines. *)
Definition line_id (l : value) : result value :=
  match l with
  | VDict entries => Ok (getattr_default entries "id" VNone)
  | _ => Raise (AttributeError "object has no attribute 'get'")
  end.

(** [x in ids] where [ids] is the [map] object of Python 3, an iterator:
    the test consumes it up to the first match, or entirely. [pending] is
    what the iterator has not yielded yet. *)
Fixpoint ids_contains (x : value) (pending : list value)
  : result (bool * list value) :=
  match pending with
  | [] => Ok (false, [])
  | l :: rest =>
      let* i := line_id l in
      if py_eq i x then Ok (true, rest) else ids_contains x rest
  end.

(** [result.append(x)] *)
Definition py_append (res x : value) : result value :=
  match res with
  | VList items => Ok (VList (items ++ [x]))
  | _ => Raise (AttributeError "object has no attribute 'append'")
  end.

(** The loop of [AbstractInvoice.serialize_field_value] over
    [self._loaded_lines]. [seen] collects the remote lines as the loop
    leaves them: a flagged line is the same dictionary in
    [_loaded_lines] and in the result. *)
Fixpoint flag_removed (remotes pending : list value) (res : value) (seen : list value)
  : result (list value * value) :=
  match remotes with
  | [] => Ok (seen, res)
  | remote :: rest =>
      let* rid := py_subscript remote "id" in
      let* (found, pending') := ids_contains rid pending in
      if found : bool then flag_removed rest pending' res (seen ++ [remote])
      else
        match remote with
        | VDict entries =>
            let remote' := VDict (dict_set "_destroy" (VBool true) entries) in
            let* res' := py_append res remote' in
            flag_removed rest pending' res' (seen ++ [remote'])
        | _ => Raise (TypeError "object does not support item assignment")
        end
  end.

(** The part of [AbstractInvoice.serialize_field_value] under
    [if field == 'lines']: [loaded] is [self._loaded_lines], [res] the
    result of the base method. It returns both as the code leaves them. *)
Definition destroy_removed_lines (loaded res : value) : result (value * value) :=
  let* pending := py_iter res in
  let* remotes := py_iter loaded in
  let* (seen, res') := flag_removed remotes pending res [] in
  Ok (match loaded with VList _ => VList seen | _ => loaded end, res').

(** The state of [self] that serialization reads and writes: the current
    [_loaded_lines] and whether the loop above has run on it. *)
Definition self_state : Type := (value * bool)%type.

Section GetFieldsLoop.
Variable c : model_class.
(** The [__dict__] of [self] as the call finds it: the loop changes
    neither its keys nor what [self.Meta] reads. *)
Variable self_attrs : pydict.
(** [Model.serialize_field_value] or its override, the method of the
    object's own class *)
Variable ser : self_state -> string -> value -> result (self_state * value * value).

(** A remote line that has been flagged is one dictionary, held by
    [_loaded_lines] and by every list it was copied to: wherever [d] has
    [_loaded_lines], it shows the remote lines as the loop left them. *)
Definition share_loaded (st : self_state) (d : pydict) : pydict :=
  if snd st && dict_mem "_loaded_lines" d
  then dict_set "_loaded_lines" (fst st) d else d.

(** The loop of [Model.get_fields] over [self.__dict__.items()]. [cur] is
    the [__dict__] with what the calls changed inside attribute values,
    [data] the dictionary being built. Both methods are called through
    [self], so that their names are looked up on the object. *)
Fixpoint get_fields_loop (items cur : pydict) (st : self_state) (data : pydict)
  : result (pydict * pydict) :=
  match items with
  | [] => Ok (share_loaded st cur, share_loaded st data)
  | (field, v) :: rest =>
      let* w := is_field_writable c self_attrs field in
      if w : bool then
        let* _ := bound_method self_attrs "serialize_field_value" in
        let* (st', v', out) := ser st field v in
        let st'' := if String.eqb field "_loaded_lines" && negb (snd st')
                    then (v', false) else st' in
        get_fields_loop rest (dict_set field v' cur) st'' (dict_set field out data)
      else get_fields_loop rest cur st data
  end.

End GetFieldsLoop.

(** [self.serialize_field_value(field, v)] for [self] of class [self_cls]:
    [Model.serialize_field_value], then for an invoice-like [self] the
    override of [AbstractInvoice]. It returns the state of [self], the
    value [v] as the call leaves it (a nested object may have flagged its
    own remote lines) and the serialized result. The caller has looked
    the method up on [self]; inside, the items of a list are serialized
    through [self] again, which finds the same method. *)
Fixpoint serialize_field_value (self_cls : model_class) (st : self_state)
    (field : string) (v : value) {struct v}
  : result (self_state * value * value) :=
  let* (st1, v1, res) :=
    match v with
    | VModel c attrs =>
        let* _ := bound_method attrs "get_fields" in
        let* (attrs', data) :=
          get_fields_loop c attrs (fun st' k x => serialize_field_value c st' k x)
            attrs attrs (getattr_default attrs "_loaded_lines" (VList []), false) [] in
        Ok (st, VModel c attrs', VDict data)
    | VList items =>
        let* (st', items', outs) :=
          (fix each (items : list value) (i : nat) (st : self_state)
             : result (self_state * list value * list value) :=
             match items with
             | [] => Ok (st, [], [])
             | item :: rest =>
                 let* (st1, item', out) :=
                   serialize_field_value self_cls st (item_field field i) item in
                 let* (st2, rest', outs) := each rest (S i) st1 in
                 Ok (st2, item' :: rest', out :: outs)
             end) items 0%nat st in
        Ok (st', VList items', VList outs)
    | VDecimal d => Ok (st, v, VStr (decimal_str d))
    | VDate d => Ok (st, v, VStr (date_isoformat d))
    | VDateTime t => Ok (st, v, VStr (datetime_isoformat t))
    | _ => Ok (st, v, v)
    end in
  if is_invoice_like self_cls && String.eqb field "lines" then
    let* (loaded', res') := destroy_removed_lines (fst st1) res in
    Ok ((loaded', true), v1, res')
  else Ok (st1, v1, res).

(** [obj.get_fields()] for an object of class [c] whose [__dict__] is
    [attrs]: the [__dict__] after the call and the dictionary returned.
    The name is looked up on the object. *)
Definition get_fields (c : model_class) (attrs : pydict) : result (pydict * pydict) :=
  let* _ := bound_method attrs "get_fields" in
  get_fields_loop c attrs (serialize_field_value c)
    attrs attrs (getattr_default attrs "_loaded_lines" (VList []), false) [].

End Serialization.

(** ** A small instance of the library interface

    Dates, times and decimals kept as their canonical text: enough of
    [dateutil] and [decimal] to run the embedding on concrete inputs.
    [parse] reads [YYYY-MM-DD] and [YYYY-MM-DDTHH:MM:SS]; [Decimal] reads
    an optional sign, digits and an optional fraction. *)
Module TextLib.

Definition is_digit (a : ascii) : bool :=
  (48 <=? nat_of_ascii a)%nat && (nat_of_ascii a <=? 57)%nat.

(** [matches pat s]: [s] has the shape [pat], where a ["0"] of the
    pattern stands for any digit. *)
Fixpoint matches (pat s : string) : bool :=
  match pat, s with
  | EmptyString, EmptyString => true
  | String p pat', String a s' =>
      (if Ascii.eqb p "0" then is_digit a else Ascii.eqb p a) && matches pat' s'
  | _, _ => false
  end.

Definition date_pattern : string := "0000-00-00".
Definition time_pattern : string := "T00:00:00".

Definition parse_text (s : string) : option string :=
  if matches date_pattern s then Some (String.append s "T00:00:00")
  else if matches (String.append date_pattern time_pattern) s then Some s
  else None.

Fixpoint all_digits (s : string) : bool :=
  match s with
  | EmptyString => true
  | String a s' => is_digit a && all_digits s'
  end.

Definition is_number (s : string) : bool :=
  negb (String.eqb s "") && all_digits s.

(** The text before and after the first dot. *)
Fixpoint split_dot (s : string) : string * option string :=
  match s with
  | EmptyString => (EmptyString, None)
  | String a s' =>
      if Ascii.eqb a "." then (EmptyString, Some s')
      else let '(i, f) := split_dot s' in (String a i, f)
  end.

Definition is_numeral (s : string) : bool :=
  let body := match s with
              | String a s' => if Ascii.eqb a "-" then s' else s
              | EmptyString => s
              end in
  match split_dot body with
  | (i, None) => is_number i
  | (i, Some f) => is_number i && is_number f
  end.

Definition Decimal_text (s : string) : option string :=
  if is_numeral s then Some s else None.

Fixpoint is_zero (s : string) : bool :=
  match s with
  | EmptyString => true
  | String a s' =>
      (Ascii.eqb a "0" || Ascii.eqb a "." || Ascii.eqb a "-") && is_zero s'
  end.

#[export] Instance lib : PyLib := {|
  datetime := string;
  date := string;
  decimal := string;
  parse := parse_text;
  datetime_date := String.substring 0 10;
  datetime_isoformat := fun t => t;
  date_isoformat := fun d => d;
  Decimal := Decimal_text;
  Decimal_one := "1";
  decimal_str := fun d => d;
  decimal_is_zero := is_zero;
  decimal_eqb := String.eqb;
  decimal_eqb_int := fun d z => String.eqb d (str_of_Z z);
  date_eqb := String.eqb;
  datetime_eqb := String.eqb;
  set_order := fun members => members
|}.

End TextLib.

(** ** The transport: [Fakturoid._make_request] and the verb helpers *)

Section Transport.
Context {L : PyLib}.

Inductive http_method : Type := GET | POST | PUT | DELETE.

(** An endpoint is the format string of the source with its arguments
    kept apart: [[Lit "invoices"; Arg (VInt 7); Lit "fire"]] stands for
    ['invoices/{0}/fire'.format(7)]. *)
Inductive segment : Type :=
| Lit (s : string)
| Arg (v : value).

Definition endpoint_path : Type := list segment.

(** A request as [requests] receives it: the verb, the endpoint under the
    account URL, the body handed to [json.dumps] and the query
    parameters. Headers (user agent, bearer token, content type) are not
    represented. *)
Record request : Type := {
  req_method : http_method;
  req_endpoint : endpoint_path;
  req_data : option value;
  req_params : option pydict
}.

(** What the code reads of a [requests] response: [status_code], [json()]
    ([None] when it raises) and the [link] header, as what
    [_extract_page_link] finds in it ([None]: no such header; [Some None]:
    a header the pattern does not match). *)
Record response : Type := {
  status_code : Z;
  resp_json : option value;
  resp_link : option (option Z)
}.

(** The dictionary [_make_request] returns on success: [json] and, when
    present, [page_count]. *)
Record api_response : Type := {
  json : value;
  page_count : option Z
}.

(** A computation of the client: it sees the requests sent so far and
    returns its outcome with the requests sent after it. *)
Definition api (A : Type) : Type := list request -> result A * list request.

Definition ret {A} (a : A) : api A := fun log => (Ok a, log).

Definition raise {A} (e : exn) : api A := fun log => (Raise e, log).

Definition lift {A} (r : result A) : api A := fun log => (r, log).

Definition abind {A B} (m : api A) (k : A -> api B) : api B :=
  fun log =>
    match m log with
    | (Ok a, log') => k a log'
    | (Raise e, log') => (Raise e, log')
    end.

Notation "'do*' p ':=' m 'in' k" := (abind m (fun p => k))
  (at level 10, p pattern, m at level 100, k at level 200).

(** [json.dumps] accepts plain data only. *)
Fixpoint is_json (v : value) : bool :=
  match v with
  | VNone | VBool _ | VInt _ | VStr _ => true
  | VDecimal _ | VDate _ | VDateTime _ | VModel _ _ => false
  | VList items => forallb is_json items
  | VDict entries =>
      (fix all (entries : list (string * value)) : bool :=
         match entries with
         | [] => true
         | (_, x) :: rest => is_json x && all rest
         end) entries
  end.

Definition json_dumps (v : value) : result value :=
  if is_json v then Ok v else Raise (TypeError "object is not JSON serializable").

(** [Response.raise_for_status()]: an [HTTPError] for a status from 400
    to 599, nothing otherwise. *)
Definition raise_for_status (r : response) : result unit :=
  if (400 <=? status_code r)%Z && (status_code r <? 600)%Z
  then Raise (HTTPError (status_code r)) else Ok tt.

Variable server : list request -> request -> response.

(** [Fakturoid._make_request]. The result is [None] when the function
    falls off its end. *)
Definition _make_request (method : http_method) (success_status : Z)
    (endpoint : endpoint_path) (data : option value) (params : option pydict)
  : api (option api_response) :=
  fun log =>
    let req := {| req_method := method; req_endpoint := endpoint;
                  req_data := data; req_params := params |} in
    let r := server log req in
    let log' := log ++ [req] in
    let json_result := match resp_json r with Some j => j | None => VNone end in
    if (status_code r =? success_status)%Z then
      let pc := match resp_link r with
                | Some (Some n) => if (n =? 0)%Z then None else Some n
                | _ => None
                end in
      (Ok (Some {| json := json_result; page_count := pc |}), log')
    else
      let rest :=
        match raise_for_status r with
        | Raise e => Raise e
        | Ok _ => Ok None
        end in
      if py_truthy json_result then
        match py_contains_str "errors" json_result with
        | Raise e => (Raise e, log')
        | Ok true =>
            match py_subscript json_result "errors" with
            | Ok errors => (Raise (ValueError errors), log')
            | Raise e => (Raise e, log')
            end
        | Ok false => (rest, log')
        end
      else (rest, log').

Definition _get (endpoint : endpoint_path) (params : option pydict)
  : api (option api_response) :=
  _make_request GET 200 endpoint None params.

Definition _post (endpoint : endpoint_path) (data : value) (params : option pydict)
  : api (option api_response) :=
  do* body := lift (json_dumps data) in
  _make_request POST 201 endpoint (Some body) params.

Definition _put (endpoint : endpoint_path) (data : value)
  : api (option api_response) :=
  do* body := lift (json_dumps data) in
  _make_request PUT 200 endpoint (Some body) None.

Definition _delete (endpoint : endpoint_path) : api (option api_response) :=
  _make_request DELETE 204 endpoint None None.

(** [response['json']] *)
Definition response_json (r : option api_response) : result value :=
  match r with
  | Some resp => Ok (json resp)
  | None => Raise (TypeError "'NoneType' object is not subscriptable")
  end.

(** ** Resource adapters *)

(** [isinstance(v, int)] and [isinstance(v, (datetime, date))] *)
Definition is_int (v : value) : bool :=
  match v with VInt _ | VBool _ => true | _ => false end.

Definition is_date (v : value) : bool :=
  match v with VDate _ | VDateTime _ => true | _ => false end.

(** [v.isoformat()] on a date or a datetime *)
Definition isoformat (v : value) : result value :=
  match v with
  | VDate d => Ok (VStr (date_isoformat d))
  | VDateTime t => Ok (VStr (datetime_isoformat t))
  | _ => Raise (AttributeError "object has no attribute 'isoformat'")
  end.

(** [v in names] for a list of strings *)
Definition value_in (v : value) (names : list string) : bool :=
  existsb (fun n => py_eq (VStr n) v) names.

(** [', '.join(names)] *)
Fixpoint join_comma (names : list string) : string :=
  match names with
  | [] => ""
  | [n] => n
  | n :: rest => String.append n (String.append ", " (join_comma rest))
  end.

(** [model.update(v)] where [v] is whatever the response held: only a
    dictionary has [items]; [AbstractInvoice.update] first evaluates
    ['lines' in v]. *)
Definition update_from (c : model_class) (attrs : pydict) (v : value) : result pydict :=
  match v with
  | VDict fields =>
      let* (attrs', _) := update c attrs fields in Ok attrs'
  | _ =>
      let* _ := bound_method attrs "update" in
      if is_invoice_like c then
        let* has_lines := py_contains_str "lines" v in
        if has_lines : bool then
          match v with
          | VList _ => Raise (TypeError "'str' object cannot be interpreted as an integer")
          | _ => Raise (AttributeError "object has no attribute 'pop'")
          end
        else Raise (AttributeError "object has no attribute 'items'")
      else Raise (AttributeError "object has no attribute 'items'")
  end.

(** [ModelApi.unpack]: a list of objects or a single object. *)
Definition unpack_one (c : model_class) (raw : value) : result value :=
  match raw with
  | VDict fields => let* attrs := new c fields in Ok (VModel c attrs)
  | _ => Raise (TypeError "argument after ** must be a mapping")
  end.

Fixpoint unpack_list (c : model_class) (raw : list value) : result (list value) :=
  match raw with
  | [] => Ok []
  | fields :: rest =>
      let* obj := unpack_one c fields in
      let* objs := unpack_list c rest in
      Ok (obj :: objs)
  end.

Definition unpack (c : model_class) (r : option api_response) : result value :=
  let* raw := response_json r in
  match raw with
  | VList items => let* objs := unpack_list c items in Ok (VList objs)
  | _ => unpack_one c raw
  end.

(** [CrudModelApi.save(model)]: the [__dict__] of the model after the
    call. The arguments of [_put] or [_post] are evaluated first, so
    [get_fields] runs before anything is sent. *)
Definition CrudModelApi_save (endpoint : string) (c : model_class) (attrs : pydict)
  : api pydict :=
  let id := getattr_default attrs "id" VNone in
  do* result :=
    (if py_truthy id then
       do* (attrs1, data) := lift (get_fields c attrs) in
       do* r := _put [Lit endpoint; Arg id] (VDict data) in
       ret (attrs1, r)
     else
       do* (attrs1, data) := lift (get_fields c attrs) in
       do* r := _post [Lit endpoint] (VDict data) None in
       ret (attrs1, r)) in
  let '(attrs1, r) := result in
  do* body := lift (response_json r) in
  lift (update_from c attrs1 body).

(** [MessagesApi.save(model, **kwargs)] *)
Definition MessagesApi_save (c : model_class) (attrs : pydict) (kwargs : pydict)
  : api pydict :=
  let invoice_id := getattr_default kwargs "invoice_id" VNone in
  if negb (is_int invoice_id) then raise (TypeError "invoice_id must be int")
  else
    do* (attrs1, data) := lift (get_fields c attrs) in
    do* _ := _post [Lit "invoices"; Arg invoice_id; Lit "message"] (VDict data) None in
    ret attrs1.

(** [PaymentsApi.save(model, **kwargs)] *)
Definition PaymentsApi_save (c : model_class) (attrs : pydict) (kwargs : pydict)
  : api pydict :=
  let invoice_id := getattr_default kwargs "invoice_id" VNone in
  if negb (is_int invoice_id) then raise (TypeError "invoice_id must be int")
  else
    do* (attrs1, data) := lift (get_fields c attrs) in
    do* r := _post [Lit "invoices"; Arg invoice_id; Lit "payments"] (VDict data) None in
    do* body := lift (response_json r) in
    lift (update_from c attrs1 body).

End Transport.

Notation "'do*' p ':=' m 'in' k" := (abind m (fun p => k))
  (at level 10, p pattern, m at level 100, k at level 200).

Section Adapters.
Context {L : PyLib}.
Variable server : list request -> request -> response.

(** *** Events *)

Definition InvoicesApi_EVENTS : list string :=
  ["mark_as_sent"; "deliver"; "pay"; "pay_proforma"; "pay_partial_proforma";
   "remove_payment"; "deliver_reminder"; "cancel"; "undo_cancel"].

(** [EVENT_ARGS.get(event, set())] for [InvoicesApi] *)
Definition InvoicesApi_EVENT_ARGS (event : value) : list string :=
  if py_eq (VStr "pay") event then ["paid_at"; "paid_amount"] else [].

Definition ExpensesApi_EVENTS : list string :=
  ["remove_payment"; "deliver"; "pay"; "lock"; "unlock"].

Definition ExpensesApi_EVENT_ARGS (event : value) : list string :=
  if py_eq (VStr "pay") event
  then ["paid_on"; "paid_amount"; "variable_symbol"; "bank_account_id"] else [].

(** [set(kwargs.keys()).issubset(allowed_args)] *)
Definition keys_subset (kwargs : pydict) (allowed : list string) : bool :=
  forallb (fun k => str_in k allowed) (dict_keys kwargs).

(** The two messages of [fire]. [EVENTS] is a list, joined in its order;
    the allowed names are a set, joined in the order the set iterates. *)
Definition invalid_event_msg (events : list string) : value :=
  VStr (String.append "invalid event, expected one of " (join_comma events)).

Definition invalid_args_msg (allowed : list string) (event : value) : value :=
  VStr (String.append "invalid event arguments, only "
         (String.append (join_comma (set_order allowed))
           (String.append " can be used with "
              (match event with VStr name => name | _ => "" end)))).

(** The body shared by [InvoicesApi.fire] and [ExpensesApi.fire]: they
    differ in the name of the id, the event tables, the date argument
    and the endpoint. *)
Definition fire_with (id_name : string) (events : list string)
    (event_args : value -> list string) (date_arg : string) (resource : string)
    (id event : value) (kwargs : pydict) : api unit :=
  if negb (is_int id) then
    raise (TypeError (String.append id_name " must be int"))
  else if negb (value_in event events) then
    raise (ValueError (invalid_event_msg events))
  else
    let allowed_args := event_args event in
    if negb (keys_subset kwargs allowed_args) then
      raise (ValueError (invalid_args_msg allowed_args event))
    else
      let params := dict_update [("event", event)] kwargs in
      do* params' :=
        (match dict_get date_arg params with
         | Some d =>
             if negb (is_date d) then
               raise (TypeError (String.append "'" (String.append date_arg "' argument must be date")))
             else
               do* iso := lift (isoformat d) in
               ret (dict_set date_arg iso params)
         | None => ret params
         end) in
      do* _ := _post server [Lit resource; Arg id; Lit "fire"] (VDict []) (Some params') in
      ret tt.

Definition InvoicesApi_fire (invoice_id event : value) (kwargs : pydict) : api unit :=
  fire_with "invoice_id" InvoicesApi_EVENTS InvoicesApi_EVENT_ARGS "paid_at" "invoices"
    invoice_id event kwargs.

Definition ExpensesApi_fire (expense_id event : value) (kwargs : pydict) : api unit :=
  fire_with "expense_id" ExpensesApi_EVENTS ExpensesApi_EVENT_ARGS "paid_on" "expenses"
    expense_id event kwargs.

(** *** Filters *)

(** [ModelList(self, endpoint, params)]: built, not loaded. *)
Record ModelList : Type := {
  ml_model : model_class;
  ml_endpoint : string;
  ml_params : pydict
}.

(** [if v: if not isinstance(v, int): raise ...; params[name] = v] *)
Definition int_filter (name : string) (v : value) (params : pydict) : result pydict :=
  if py_truthy v then
    if negb (is_int v) then
      Raise (TypeError (String.append "'" (String.append name "' parameter must be int")))
    else Ok (dict_set name v params)
  else Ok params.

(** [if v: if not isinstance(v, (datetime, date)): raise ...;
    params[name] = v.isoformat()] *)
Definition date_filter (name : string) (v : value) (params : pydict) : result pydict :=
  if py_truthy v then
    if negb (is_date v) then
      Raise (TypeError (String.append "'" (String.append name "' parameter must be date or datetime")))
    else let* iso := isoformat v in Ok (dict_set name iso params)
  else Ok params.

(** [if v: params[name] = v] *)
Definition plain_filter (name : string) (v : value) (params : pydict) : pydict :=
  if py_truthy v then dict_set name v params else params.

(** [if status: if status not in STATUSES: raise ...; params['status'] = status] *)
Definition status_filter (statuses : list string) (v : value) (params : pydict)
  : result pydict :=
  if py_truthy v then
    if negb (value_in v statuses) then
      Raise (ValueError (VStr (String.append "invalid invoice status, expected one of "
                                 (join_comma statuses))))
    else Ok (dict_set "status" v params)
  else Ok params.

Record subjects_filter : Type := {
  sf_since : value; sf_updated_since : value; sf_custom_id : value
}.

Definition SubjectsApi_find (a : subjects_filter) : api ModelList :=
  lift (
    let* p := date_filter "since" (sf_since a) [] in
    let* p := date_filter "updated_since" (sf_updated_since a) p in
    let p := plain_filter "custom_id" (sf_custom_id a) p in
    Ok {| ml_model := Subject; ml_endpoint := "subjects"; ml_params := p |}).

Definition InvoicesApi_STATUSES : list string :=
  ["open"; "sent"; "overdue"; "paid"; "cancelled"].

Record invoices_filter : Type := {
  if_proforma : value; if_subject_id : value; if_since : value; if_until : value;
  if_updated_since : value; if_updated_until : value; if_number : value;
  if_status : value; if_custom_id : value
}.

Definition InvoicesApi_find (a : invoices_filter) : api ModelList :=
  lift (
    let* p := int_filter "subject_id" (if_subject_id a) [] in
    let* p := date_filter "since" (if_since a) p in
    let* p := date_filter "until" (if_until a) p in
    let* p := date_filter "updated_since" (if_updated_since a) p in
    let* p := date_filter "updated_until" (if_updated_until a) p in
    let p := plain_filter "number" (if_number a) p in
    let p := plain_filter "custom_id" (if_custom_id a) p in
    let* p := status_filter InvoicesApi_STATUSES (if_status a) p in
    let p := match if_proforma a with
             | VNone => p
             | v => dict_set "document_type"
                      (VStr (if py_truthy v then "proforma" else "regular")) p
             end in
    Ok {| ml_model := Invoice; ml_endpoint := "invoices"; ml_params := p |}).

Definition ExpensesApi_STATUSES : list string := ["open"; "overdue"; "paid"].

Record expenses_filter : Type := {
  ef_subject_id : value; ef_since : value; ef_updated_since : value;
  ef_number : value; ef_status : value; ef_custom_id : value;
  ef_variable_symbol : value
}.

Definition ExpensesApi_find (a : expenses_filter) : api ModelList :=
  lift (
    let* p := int_filter "subject_id" (ef_subject_id a) [] in
    let* p := date_filter "since" (ef_since a) p in
    let* p := date_filter "updated_since" (ef_updated_since a) p in
    let p := plain_filter "number" (ef_number a) p in
    let p := plain_filter "custom_id" (ef_custom_id a) p in
    let* p := status_filter ExpensesApi_STATUSES (ef_status a) p in
    let p := plain_filter "variable_symbol" (ef_variable_symbol a) p in
    Ok {| ml_model := Expense; ml_endpoint := "expenses"; ml_params := p |}).

Record generators_filter : Type := {
  gf_recurring : value; gf_subject_id : value; gf_since : value
}.

(** [GeneratorsApi.find] ends in [CrudModelApi.find], which sends the
    request at once and unpacks the response. *)
Definition GeneratorsApi_find (a : generators_filter) : api value :=
  do* p := lift (let* p := int_filter "subject_id" (gf_subject_id a) [] in
                 date_filter "since" (gf_since a) p) in
  let endpoint := match gf_recurring a with
                  | VNone => [Lit "generators"]
                  | v => if py_truthy v then [Lit "generators"; Lit "recurring"]
                         else [Lit "generators"; Lit "template"]
                  end in
  do* response := _get server endpoint (Some p) in
  lift (unpack Generator response).

End Adapters.

(** ** Paged lists: [PagedResource] *)

Section Paging.
Context {A : Type}.
(** [load_page], the method a subclass implements: the items of page [n]
    of the collection, none beyond the last page. *)
Variable load_page : nat -> list A.

(** The attributes of a [PagedResource] and, for the proofs, the page
    numbers [load_page] was called with, oldest first. *)
Record paged : Type := {
  objects : option (list A);
  pages : gmap nat (list A);
  item_count : option nat;
  fetched : list nat
}.

(** [PagedResource.__init__] *)
Definition paged_init : paged :=
  {| objects := None; pages := ∅; item_count := None; fetched := [] |}.

(** [get_page(n)]: [None] stands for [IndexError]. *)
Definition get_page (n : nat) (st : paged) : option (list A) * paged :=
  match pages st !! n with
  | Some page => (Some page, st)
  | None =>
      let page := load_page n in
      let st' := {| objects := objects st; pages := pages st;
                    item_count := item_count st; fetched := fetched st ++ [n] |} in
      match page with
      | [] => (None, st')
      | _ => (Some page,
              {| objects := objects st'; pages := <[n := page]> (pages st');
                 item_count := item_count st'; fetched := fetched st' |})
      end
  end.

(** The loop of [load_all_pages] from page [n] on; [fuel] bounds the
    number of pages it may go through. *)
Fixpoint load_pages_from (fuel n : nat) (st : paged) : option paged :=
  match fuel with
  | O => None
  | S fuel' =>
      match get_page n st with
      | (Some page, st') =>
          load_pages_from fuel' (S n)
            {| objects := Some (default [] (objects st') ++ page);
               pages := pages st';
               item_count := Some (default 0%nat (item_count st') + length page)%nat;
               fetched := fetched st' |}
      | (None, st') => Some st'
      end
  end.

Definition load_all_pages (fuel : nat) (st : paged) : option paged :=
  load_pages_from fuel 0%nat
    {| objects := Some []; pages := pages st; item_count := Some 0%nat;
       fetched := fetched st |}.

(** [ensure_all_pages]: [not self.objects] holds for [None] and for the
    empty list. *)
Definition ensure_all_pages (fuel : nat) (st : paged) : option paged :=
  match objects st with
  | None | Some [] => load_all_pages fuel st
  | Some _ => Some st
  end.

(** [__len__] *)
Definition paged_len (fuel : nat) (st : paged) : option (nat * paged) :=
  st' ← ensure_all_pages fuel st;
  Some (default 0%nat (item_count st'), st').

Inductive key : Type :=
| KInt (i : Z)
| KSlice (start stop step : option Z)
| KOther.

(** [slice.indices(len)] *)
Definition slice_indices (start stop step : option Z) (len : Z)
  : option (Z * Z * Z) :=
  let st := default 1 step in
  if (st =? 0)%Z then None
  else
    let neg := (st <? 0)%Z in
    let lower := if neg then (-1) else 0 in
    let upper := if neg then len - 1 else len in
    let clamp (x : Z) :=
      if (x <? 0)%Z then Z.max (x + len) lower else Z.min x upper in
    let start' := match start with
                  | None => if neg then upper else lower
                  | Some x => clamp x
                  end in
    let stop' := match stop with
                 | None => if neg then lower else upper
                 | Some x => clamp x
                 end in
    Some (start', stop', st).

(** An [itertools.islice] object over [iter(self)]: [isl_pos] is the index
    the sequence iterator asks [__getitem__] for next ([None] once it is
    exhausted), [isl_cnt] the number of items drawn, [isl_next] the
    position of the next item to yield. *)
Record islice : Type := {
  isl_pos : option nat;
  isl_cnt : nat;
  isl_next : nat;
  isl_stop : nat;
  isl_step : nat
}.

Inductive paged_exn : Type :=
| PIndexError
| PTypeError
| PValueError.

Inductive item_or_slice : Type :=
| Item (a : A)
| Slice (it : islice).

(** [__getitem__(key)] *)
Definition paged_getitem (fuel : nat) (k : key) (st : paged)
  : option ((paged_exn + item_or_slice) * paged) :=
  st1 ← ensure_all_pages fuel st;
  match k with
  | KInt i =>
      if (i <? 0)%Z then
        '(n, st2) ← paged_len fuel st1;
        let i' := (Z.of_nat n + i)%Z in
        if (i' <? 0)%Z then Some (inl PIndexError, st2)
        else
          match default [] (objects st2) !! Z.to_nat i' with
          | Some a => Some (inr (Item a), st2)
          | None => Some (inl PIndexError, st2)
          end
      else
        match default [] (objects st1) !! Z.to_nat i with
        | Some a => Some (inr (Item a), st1)
        | None => Some (inl PIndexError, st1)
        end
  | KSlice start stop step =>
      '(n, st2) ← paged_len fuel st1;
      match slice_indices start stop step (Z.of_nat n) with
      | None => Some (inl PValueError, st2)
      | Some (start', stop', step') =>
          if (start' <? 0)%Z || (stop' <? 0)%Z || (step' <? 1)%Z
          then Some (inl PValueError, st2)
          else Some (inr (Slice {| isl_pos := Some 0%nat; isl_cnt := 0;
                                   isl_next := Z.to_nat start';
                                   isl_stop := Z.to_nat stop';
                                   isl_step := Z.to_nat step' |}), st2)
      end
  | KOther => Some (inl PTypeError, st1)
  end.

End Paging.

Section PagingIteration.
Context {A : Type}.
Variable load_page : nat -> list A.

(** [next] on [iter(self)]: the class has no [__iter__], so the iterator
    calls [__getitem__] with 0, 1, 2, ... and stops at [IndexError]. *)
Definition seq_next (fuel : nat) (pos : option nat) (st : paged)
  : option (option A * option nat * paged) :=
  match pos with
  | None => Some (None, None, st)
  | Some i =>
      '(r, st') ← paged_getitem load_page fuel (KInt (Z.of_nat i)) st;
      match r with
      | inr (Item a) => Some (Some a, Some (S i), st')
      | _ => Some (None, None, st')
      end
  end.

(** The first loop of [islice.__next__]: draw and drop [n] items. *)
Fixpoint islice_skip (fuel n : nat) (it : islice) (st : paged)
  : option (bool * islice * paged) :=
  match n with
  | O => Some (true, it, st)
  | S n' =>
      '(a, pos', st') ← seq_next fuel (isl_pos it) st;
      let it' := {| isl_pos := pos'; isl_cnt := S (isl_cnt it);
                    isl_next := isl_next it; isl_stop := isl_stop it;
                    isl_step := isl_step it |} in
      match a with
      | None => Some (false, it', st')
      | Some _ => islice_skip fuel n' it' st'
      end
  end.

Definition islice_exhausted (it : islice) : islice :=
  {| isl_pos := None; isl_cnt := isl_cnt it; isl_next := isl_next it;
     isl_stop := isl_stop it; isl_step := isl_step it |}.

(** [islice.__next__]: [None] stands for [StopIteration]. *)
Definition islice_next (fuel : nat) (it : islice) (st : paged)
  : option (option A * islice * paged) :=
  match isl_pos it with
  | None => Some (None, it, st)
  | Some _ =>
      '(ok, it1, st1) ← islice_skip fuel (isl_next it - isl_cnt it) it st;
      if negb ok then Some (None, islice_exhausted it1, st1)
      else if (isl_stop it1 <=? isl_cnt it1)%nat
      then Some (None, islice_exhausted it1, st1)
      else
        '(a, pos', st2) ← seq_next fuel (isl_pos it1) st1;
        match a with
        | None => Some (None, islice_exhausted it1, st2)
        | Some x =>
            let next' := (isl_next it1 + isl_step it1)%nat in
            Some (Some x,
                  {| isl_pos := pos'; isl_cnt := S (isl_cnt it1);
                     isl_next := if (isl_stop it1 <? next')%nat
                                 then isl_stop it1 else next';
                     isl_stop := isl_stop it1; isl_step := isl_step it1 |},
                  st2)
        end
  end.

(** [list(it)], drawing at most [n] items. *)
Fixpoint islice_drain (n fuel : nat) (it : islice) (st : paged)
  : option (list A * islice * paged) :=
  match n with
  | O => Some ([], it, st)
  | S n' =>
      '(a, it', st') ← islice_next fuel it st;
      match a with
      | None => Some ([], it', st')
      | Some x =>
          '(xs, it'', st'') ← islice_drain n' fuel it' st';
          Some (x :: xs, it'', st'')
      end
  end.

(** What holds of an [islice] over a list of [len] items between two
    calls of [next]. *)
Definition islice_ok (len : nat) (it : islice) : Prop :=
  isl_pos it = Some (isl_cnt it)
  /\ (isl_cnt it <= isl_next it <= len)%nat
  /\ (isl_stop it <= len)%nat
  /\ (1 <= isl_step it)%nat.

(** The items of [l] at [start], [start + step], ... below [stop]: what
    [l[start:stop:step]] is for a positive step. [n] bounds the number of
    items. *)
Fixpoint list_slice (n : nat) (l : list A) (start stop step : nat) : list A :=
  match n with
  | O => []
  | S n' =>
      if (start <? stop)%nat then
        match l !! start with
        | Some a => a :: list_slice n' l (start + step) stop step
        | None => []
        end
      else []
  end.

End PagingIteration.

(** ** The statements under examination *)

Section Statements.
Context {L : PyLib}.

(** What [Model.serialize_field_value] makes of a coerced value. *)
Definition serialized (v : value) : value :=
  match v with
  | VDecimal d => VStr (decimal_str d)
  | VDate d => VStr (date_isoformat d)
  | VDateTime t => VStr (datetime_isoformat t)
  | _ => v
  end.

Definition is_coerced (v : value) : bool :=
  match v with VDecimal _ | VDate _ | VDateTime _ => true | _ => false end.

(** Plain data, or a value [Model.update] coerced to. *)
Definition simple (v : value) : bool := is_coerced v || is_json v.

(** The dictionary [get_fields] is to return for attributes that hold
    simple values: the writable ones, serialized, in order. *)
Definition serialized_fields (c : model_class) (attrs : pydict) : pydict :=
  List.map (fun kv => (fst kv, serialized (snd kv)))
    (List.filter (fun kv => class_writable c (fst kv)) attrs).

(** The names an attribute must not have for the object to be serialized
    as its class says: [Meta], which [self.Meta] would find, and the
    methods [get_fields] calls through the object. *)
Definition reserved_names : list string :=
  ["Meta"; "get_fields"; "is_field_writable"; "serialize_field_value"].

(** An object none of whose attributes has a reserved name. *)
Definition plain (attrs : pydict) : bool :=
  forallb (fun name => negb (dict_mem name attrs)) reserved_names.



(** A value that a round trip gives back: it is simple, and its
    serialized form is coerced, under the same field name, to a simple
    value with the same serialized form. *)
Definition settled (c : model_class) (field : string) (v : value) : Prop :=
  simple v = true
  /\ exists v', coerce_field c field (serialized v) = Ok v'
               /\ simple v' = true /\ serialized v' = serialized v.

(** The [__dict__] of a new object of class [c], given the coerced
    fields: an [InvoiceLine] starts with its [quantity]. *)
Definition built (c : model_class) (fields : pydict) : pydict :=
  match cls_kind c with
  | LineModel =>
      ("quantity", getattr_default fields "quantity" (VDecimal Decimal_one))
      :: dict_pop "quantity" fields
  | _ => fields
  end.

(** The fields [get_fields] returns for an object built from [fields]. *)
Definition round_trip (c : model_class) (fields : pydict) : result pydict :=
  let* attrs := new c fields in
  let* (_, data) := get_fields c attrs in
  Ok data.

(** The ['lines'] a round trip gives back as the round trips of its
    items: on an invoice-like model of class [c], which serializes
    ['lines'], a list of dictionaries none of which has an ['id'], a
    repeated key, or a key that hides [Meta] or a method of
    [get_fields]; and with them no remembered line. *)
Definition lines_without_id (c : model_class) (fields : pydict) : Prop :=
  forall v, dict_get "lines" fields = Some v ->
    class_writable c "lines" = true
    /\ getattr_default fields "_loaded_lines" (VList []) = VList []
    /\ exists ds, v = VList (List.map VDict ds)
         /\ Forall (fun d => List.NoDup (dict_keys d)
                             /\ plain d = true
                             /\ dict_get "id" d = None) ds.

(** The round trip as the specification words it: every writable field
    comes back with its value, coerced and serialized, and a second round
    trip returns the same dictionary. *)
Definition round_trip_preserves (c : model_class) (fields : pydict) : Prop :=
  forall data, round_trip c fields = Ok data ->
    (forall f v, dict_get f fields = Some v -> class_writable c f = true ->
       exists v', coerce_field c f v = Ok v' /\ dict_get f data = Some (serialized v'))
    /\ round_trip c data = Ok data.

(** A field name subject to the coercion of [Model.update], on an object
    whose [self.Meta] is [m]. *)
Definition coercible (m : meta) (field : string) : bool :=
  endswith field "_at" || endswith field "_on" || endswith field "_due"
  || endswith field "_date"
  || match in_Meta_decimal m field with Ok listed => listed | Raise _ => false end.

(** The coercion in the caller's dictionary as the specification words
    it: every string under a field name subject to coercion is replaced
    by what it coerces to, so that the dictionary is not left as it
    was. *)
Definition update_coerces_strings (c : model_class) (attrs fields : pydict) : Prop :=
  forall attrs' fields' f s,
    update c attrs fields = Ok (attrs', fields') ->
    dict_get f fields = Some (VStr s) ->
    coercible (self_Meta c attrs) f = true ->
    exists v', is_coerced v' = true
               /\ dict_get f fields' = Some v'
               /\ fields' <> fields.

(** A remote line after [remote['_destroy'] = True]. *)
Definition flagged (remote : pydict) : value :=
  VDict (dict_set "_destroy" (VBool true) remote).

(** The ids of the live lines of an invoice: [line.id] for each object of
    [self.lines]. *)
Definition live_line_ids (lines : list value) : list value :=
  map (fun line => match line with
                   | VModel _ attrs => getattr_default attrs "id" VNone
                   | _ => VNone
                   end) lines.

Variable server : list request -> request -> response.

(** The adapters that have a [save]. *)
Inductive saving_adapter : Type :=
| SubjectsApi | InvoicesApi | ExpensesApi | GeneratorsApi
| MessagesApi | PaymentsApi.

Definition adapter_endpoint (a : saving_adapter) : string :=
  match a with
  | SubjectsApi => "subjects"
  | InvoicesApi => "invoices"
  | ExpensesApi => "expenses"
  | GeneratorsApi => "generators"
  | MessagesApi => "message"
  | PaymentsApi => "payments"
  end.

(** [mapi.save(model, **kwargs)]. [CrudModelApi.save] takes no keyword
    argument. *)
Definition save (a : saving_adapter) (c : model_class) (attrs kwargs : pydict)
  : api pydict :=
  match a with
  | MessagesApi => MessagesApi_save server c attrs kwargs
  | PaymentsApi => PaymentsApi_save server c attrs kwargs
  | _ =>
      match kwargs with
      | [] => CrudModelApi_save server (adapter_endpoint a) c attrs
      | _ => raise (TypeError "save() got an unexpected keyword argument")
      end
  end.

(** [save] as the specification words it, for one adapter and one model:
    one request, a PUT to the item endpoint if the model has an id and a
    POST to the collection endpoint otherwise, and a model that holds the
    response afterwards. *)
Definition save_puts_or_posts (a : saving_adapter) (c : model_class)
    (attrs kwargs : pydict) (log : list request) : Prop :=
  let id := getattr_default attrs "id" VNone in
  forall attrs' log', save a c attrs kwargs log = (Ok attrs', log') ->
    exists req attrs1 data body,
      log' = log ++ [req] /\
      get_fields c attrs = Ok (attrs1, data) /\
      req_data req = Some (VDict data) /\
      (py_truthy id = true ->
         req_method req = PUT /\ req_endpoint req = [Lit (adapter_endpoint a); Arg id]) /\
      (py_truthy id = false ->
         req_method req = POST /\ req_endpoint req = [Lit (adapter_endpoint a)]) /\
      resp_json (server log req) = Some body /\
      update_from c attrs1 body = Ok attrs'.

(** The error handling of [_make_request] as the specification words it. *)
Definition request_errors_claim (method : http_method) (success_status : Z)
    (endpoint : endpoint_path) (data : option value) (params : option pydict)
    (log : list request) : Prop :=
  let req := {| req_method := method; req_endpoint := endpoint;
                req_data := data; req_params := params |} in
  let r := server log req in
  let out := fst (_make_request server method success_status endpoint data params log) in
  (status_code r = success_status -> exists resp, out = Ok resp)
  /\ (status_code r <> success_status ->
      match resp_json r with
      | Some (VDict entries) =>
          match dict_get "errors" entries with
          | Some errors => out = Raise (ValueError errors)
          | None => out = Raise (HTTPError (status_code r))
          end
      | _ => out = Raise (HTTPError (status_code r))
      end).

(** The two adapters that fire events. *)
Inductive event_adapter : Type := InvoiceEvents | ExpenseEvents.

Definition EVENT_ARGS (a : event_adapter) (event : value) : list string :=
  match a with
  | InvoiceEvents => InvoicesApi_EVENT_ARGS event
  | ExpenseEvents => ExpensesApi_EVENT_ARGS event
  end.

Definition fire (a : event_adapter) (id event : value) (kwargs : pydict) : api unit :=
  match a with
  | InvoiceEvents => InvoicesApi_fire server id event kwargs
  | ExpenseEvents => ExpensesApi_fire server id event kwargs
  end.

(** The whitelist check as the specification words it: a keyword argument
    outside the whitelist of the event gives a value error and no
    request. *)
Definition fire_rejects_unlisted (a : event_adapter) (id event : value)
    (kwargs : pydict) (log : list request) : Prop :=
  keys_subset kwargs (EVENT_ARGS a event) = false ->
  exists arg, fire a id event kwargs log = (Raise (ValueError arg), log).

(** A call of one of the [find] methods that take date filters. *)
Inductive find_call : Type :=
| FindSubjects (a : subjects_filter)
| FindInvoices (a : invoices_filter)
| FindExpenses (a : expenses_filter)
| FindGenerators (a : generators_filter).

Inductive find_result : Type :=
| Listed (l : ModelList)
| Loaded (objects : value).

Definition find (call : find_call) : api find_result :=
  match call with
  | FindSubjects a => do* l := SubjectsApi_find a in ret (Listed l)
  | FindInvoices a => do* l := InvoicesApi_find a in ret (Listed l)
  | FindExpenses a => do* l := ExpensesApi_find a in ret (Listed l)
  | FindGenerators a => do* v := GeneratorsApi_find server a in ret (Loaded v)
  end.

(** The values passed for the date-typed parameters of a call. *)
Definition date_filters (call : find_call) : list value :=
  match call with
  | FindSubjects a => [sf_since a; sf_updated_since a]
  | FindInvoices a => [if_since a; if_until a; if_updated_since a; if_updated_until a]
  | FindExpenses a => [ef_since a; ef_updated_since a]
  | FindGenerators a => [gf_since a]
  end.

(** The type check of the date filters as the specification words it. *)
Definition find_rejects_non_dates (call : find_call) (log : list request) : Prop :=
  forall v, In v (date_filters call) -> is_date v = false ->
    exists msg, find call log = (Raise (TypeError msg), log).

(** A response body in which [_make_request] finds no error report: one
    that is no JSON, the JSON [null], or an object without an ["errors"]
    key. *)
Definition lacks_errors (body : option value) : bool :=
  match body with
  | None | Some VNone => true
  | Some (VDict entries) => negb (dict_mem "errors" entries)
  | Some _ => false
  end.

(** The request each [save] sends, and the status it expects. *)
Definition save_method (a : saving_adapter) (id : value) : http_method :=
  match a with
  | MessagesApi | PaymentsApi => POST
  | _ => if py_truthy id then PUT else POST
  end.

Definition save_endpoint (a : saving_adapter) (id : value) (kwargs : pydict)
  : endpoint_path :=
  match a with
  | MessagesApi | PaymentsApi =>
      [Lit "invoices"; Arg (getattr_default kwargs "invoice_id" VNone);
       Lit (adapter_endpoint a)]
  | _ => if py_truthy id then [Lit (adapter_endpoint a); Arg id]
         else [Lit (adapter_endpoint a)]
  end.

Definition save_status (a : saving_adapter) (id : value) : Z :=
  match save_method a id with PUT => 200 | _ => 201 end.

(** The keyword arguments each [save] accepts. *)
Definition save_kwargs_ok (a : saving_adapter) (kwargs : pydict) : bool :=
  match a with
  | MessagesApi | PaymentsApi => is_int (getattr_default kwargs "invoice_id" VNone)
  | _ => match kwargs with [] => true | _ => false end
  end.

End Statements.

Section PagingStatements.
Context {A : Type}.
Variable load_page : nat -> list A.

(** Page-aware skipping as the specification words it: a slice that stops
    at index [stop] of a list in pages of [page_size] items needs the
    pages that hold an index below [stop], and no other. *)
Definition page_needed (page_size stop page : nat) : bool :=
  (page * page_size <? stop)%nat.

(** The items of the pages [n], ..., [n + k - 1], in order. *)
Definition items_of_pages (n k : nat) : list A :=
  flat_map load_page (seq n k).

(** A list to which every page has been added: it holds the items of the
    [last] pages of the collection, and [load_page] has been called for
    each of them and for the empty page that follows. *)
Definition materialized (last : nat) (st : paged) : Prop :=
  objects st = Some (items_of_pages 0 last)
  /\ item_count st = Some (length (items_of_pages 0 last))
  /\ (forall p, (p <= last)%nat -> In p (fetched st))
  /\ (last = 0%nat -> forall m, pages st !! m = None).

Definition slice_fetches_needed_pages (fuel page_size : nat)
    (start stop : nat) (st : paged) : Prop :=
  forall r st',
    paged_getitem load_page fuel
      (KSlice (Some (Z.of_nat start)) (Some (Z.of_nat stop)) None) st = Some (r, st') ->
    Forall (fun p => page_needed page_size stop p = true) (fetched st').

End PagingStatements.

(** ** Sample servers and inputs, on the sample library *)
Module Samples.
Import TextLib.

(** A server that answers every request with [200] and an empty JSON
    object. *)
Definition server_200 : list request -> request -> response :=
  fun _ _ => {| status_code := 200; resp_json := Some (VDict []); resp_link := None |}.

(** A server that answers every request with [201] and a JSON object
    giving the id 7. *)
Definition server_201 : list request -> request -> response :=
  fun _ _ => {| status_code := 201; resp_json := Some (VDict [("id", VInt 7)]);
                resp_link := None |}.

(** A server that refuses every request with [422] and an error report. *)
Definition server_422 : list request -> request -> response :=
  fun _ _ => {| status_code := 422;
                resp_json := Some (VDict [("errors", VDict [("name", VStr "is required")])]);
                resp_link := None |}.

(** A collection of four items in two pages of two. *)
Definition two_pages (n : nat) : list nat :=
  match n with
  | 0%nat => [1; 2]%nat
  | 1%nat => [3; 4]%nat
  | _ => []
  end.

End Samples.

(** ** Loading, deleting and searching; the pages of a [ModelList] *)

Section Resources.
Context {L : PyLib}.
Variable server : list request -> request -> response.

(** [isinstance(v, str)] *)
Definition is_str (v : value) : bool :=
  match v with VStr _ => true | _ => false end.

(** [isinstance(v, c)] for the model type [c] of an adapter. The classes
    are told apart by name; none of the model types has a subclass. *)
Definition isinstance_model (v : value) (c : model_class) : bool :=
  match v with
  | VModel c' _ => String.eqb (cls_name c') (cls_name c)
  | _ => false
  end.

(** [name.lower()] on the letters of a class name *)
Definition lower_ascii (a : ascii) : ascii :=
  let n := nat_of_ascii a in
  if (65 <=? n)%nat && (n <=? 90)%nat then ascii_of_nat (n + 32) else a.

Fixpoint lower (s : string) : string :=
  match s with
  | EmptyString => EmptyString
  | String a rest => String (lower_ascii a) (lower rest)
  end.

(** [ModelApi.extract_id(value)] for an adapter of model type
    [model_type] *)
Definition extract_id (model_type : model_class) (v : value) : result value :=
  if is_int v then Ok v
  else if negb (isinstance_model v model_type) then
    Raise (TypeError (String.append "int or "
                        (String.append (lower (cls_name model_type)) " expected")))
  else
    match v with
    | VModel _ attrs =>
        let id := getattr_default attrs "id" VNone in
        if negb (py_truthy id) then Raise (ValueError (VStr "object wit unassigned id"))
        else Ok id
    | _ => Raise (AttributeError "object has no attribute 'id'")
    end.

(** [CrudModelApi.load(id)] *)
Definition CrudModelApi_load (endpoint : string) (c : model_class) (id : value)
  : api value :=
  if negb (is_int id) then raise (TypeError "id must be int")
  else
    do* response := _get server [Lit endpoint; Arg id] None in
    lift (unpack c response).

(** [CrudModelApi.delete(model, **kwargs)]: the keyword arguments are
    accepted and not used. *)
Definition CrudModelApi_delete (endpoint : string) (c : model_class)
    (model : value) (kwargs : pydict) : api unit :=
  do* id := lift (extract_id c model) in
  do* _ := _delete server [Lit endpoint; Arg id] in
  ret tt.

(** [SubjectsApi.search(query)]: the format string has no placeholder. *)
Definition SubjectsApi_search (query : value) : api value :=
  if negb (is_str query) then raise (TypeError "'query' parameter must be str")
  else
    do* response := _get server [Lit "subjects/search"] (Some [("query", query)]) in
    lift (unpack Subject response).

(** [ModelList.load_page(n)]: [list(...)] goes through what [unpack]
    returned. *)
Definition ModelList_load_page (ml : ModelList) (n : nat) : api (list value) :=
  let params := dict_update [("page", VInt (Z.of_nat n + 1))] (ml_params ml) in
  do* response := _get server [Lit (ml_endpoint ml)] (Some params) in
  do* objects := lift (unpack (ml_model ml) response) in
  lift (py_iter objects).

(** The three adapters whose [find] builds a [ModelList], each with the
    arguments of its [find]. *)
Inductive listing : Type :=
| ListSubjects (a : subjects_filter)
| ListInvoices (a : invoices_filter)
| ListExpenses (a : expenses_filter).

Definition listing_find (q : listing) : api ModelList :=
  match q with
  | ListSubjects a => SubjectsApi_find a
  | ListInvoices a => InvoicesApi_find a
  | ListExpenses a => ExpensesApi_find a
  end.

End Resources.

(** ** What the properties of updating and serializing speak of *)

Section ModelStatements.
Context {L : PyLib}.

(** A line as the service sends it: a dictionary with an ['id'] key. *)
Definition is_remote_line (line : value) : bool :=
  match line with
  | VDict entries => dict_mem "id" entries
  | _ => false
  end.

(** A line object, of class [InvoiceLine] *)
Definition is_line_object (line : value) : bool :=
  match line with
  | VModel c _ => is_line c
  | _ => false
  end.

(** What [AbstractInvoice.update] makes of one item of ['lines']: a line
    object is kept, a dictionary gives a new line object. *)
Definition line_built (item obj : value) : Prop :=
  (is_line_object item = true /\ obj = item)
  \/ exists entries, item = VDict entries /\ InvoiceLine_new entries = Ok obj.

(** What [get_fields] returns for a line object whose attributes hold
    simple values. *)
Definition serialized_line (attrs : pydict) : value :=
  VDict (serialized_fields InvoiceLine attrs).

(** The attributes of an invoice-like object that holds the line objects
    [lines] and remembers the remote lines [remotes]: every other
    attribute holds a simple value, and neither the object nor a line
    has an attribute that hides [Meta] or a method of [get_fields]. *)
Definition holds_lines (attrs : pydict) (lines remotes : list pydict) : Prop :=
  List.NoDup (dict_keys attrs)
  /\ plain attrs = true
  /\ dict_get "lines" attrs = Some (VList (List.map (VModel InvoiceLine) lines))
  /\ dict_get "_loaded_lines" attrs = Some (VList (List.map VDict remotes))
  /\ (forall k v, dict_get k attrs = Some v ->
        k <> "lines" -> k <> "_loaded_lines" -> simple v = true)
  /\ Forall (fun la => Forall (fun kv => simple (snd kv) = true) la
                       /\ List.NoDup (dict_keys la)
                       /\ plain la = true) lines
  /\ Forall (fun r => is_json (VDict r) = true
                      /\ exists z, dict_get "id" r = Some (VInt z)) remotes.

(** The writable attributes in order, serialized, with [lines_out] for
    ['lines']. *)
Definition fields_with_lines (c : model_class) (lines_out : value) (attrs : pydict)
  : pydict :=
  List.map (fun kv => (fst kv, if String.eqb (fst kv) "lines" then lines_out
                               else serialized (snd kv)))
    (List.filter (fun kv => class_writable c (fst kv)) attrs).

(** The dictionary [get_fields] is to return for such an object: the
    writable attributes in order, ['lines'] holding the serialized line
    objects followed by every remembered line, flagged. *)
Definition serialized_invoice (c : model_class) (attrs : pydict)
    (lines remotes : list pydict) : pydict :=
  List.map (fun kv =>
              (fst kv,
               if String.eqb (fst kv) "lines"
               then VList (List.map serialized_line lines ++ List.map flagged remotes)
               else if String.eqb (fst kv) "_loaded_lines"
               then VList (List.map flagged remotes)
               else serialized (snd kv)))
    (List.filter (fun kv => class_writable c (fst kv)) attrs).

End ModelStatements.

(** ** What the properties of the adapters speak of *)

Section AdapterStatements.
Context {L : PyLib}.

(** The tables of the two adapters that fire events. *)
Definition EVENTS (a : event_adapter) : list string :=
  match a with
  | InvoiceEvents => InvoicesApi_EVENTS
  | ExpenseEvents => ExpensesApi_EVENTS
  end.

Definition event_date_arg (a : event_adapter) : string :=
  match a with
  | InvoiceEvents => "paid_at"
  | ExpenseEvents => "paid_on"
  end.

Definition event_resource (a : event_adapter) : string :=
  match a with
  | InvoiceEvents => "invoices"
  | ExpenseEvents => "expenses"
  end.

(** The request [fire] sends, given the keyword arguments as sent. *)
Definition fire_request (a : event_adapter) (id event : value) (kwargs : pydict)
  : request :=
  {| req_method := POST;
     req_endpoint := [Lit (event_resource a); Arg id; Lit "fire"];
     req_data := Some (VDict []);
     req_params := Some (("event", event) :: kwargs) |}.

(** A value an int filter, or a date filter, lets through: one that is
    false in a condition, or one of the type asked for. *)
Definition passes_int_filter (v : value) : bool := negb (py_truthy v) || is_int v.

Definition passes_date_filter (v : value) : bool := negb (py_truthy v) || is_date v.

(** The arguments of a listing [find] by kind: the int filter, the date
    filters, and the status with the statuses the adapter knows. *)
Definition listing_int_filters (q : listing) : list value :=
  match q with
  | ListSubjects _ => []
  | ListInvoices a => [if_subject_id a]
  | ListExpenses a => [ef_subject_id a]
  end.

Definition listing_date_filters (q : listing) : list value :=
  match q with
  | ListSubjects a => [sf_since a; sf_updated_since a]
  | ListInvoices a => [if_since a; if_until a; if_updated_since a; if_updated_until a]
  | ListExpenses a => [ef_since a; ef_updated_since a]
  end.

Definition listing_status (q : listing) : option (value * list string) :=
  match q with
  | ListSubjects _ => None
  | ListInvoices a => Some (if_status a, InvoicesApi_STATUSES)
  | ListExpenses a => Some (ef_status a, ExpensesApi_STATUSES)
  end.

(** The request [ModelList.load_page(n)] sends for a list whose
    parameters do not name ['page']. *)
Definition page_request (ml : ModelList) (n : nat) : request :=
  {| req_method := GET;
     req_endpoint := [Lit (ml_endpoint ml)];
     req_data := None;
     req_params := Some (("page", VInt (Z.of_nat n + 1)) :: ml_params ml) |}.

(** What [unpack] makes of one item of a JSON array: the item is an
    object, and the model is built from its fields. *)
Definition unpacked (c : model_class) (item obj : value) : Prop :=
  exists fields attrs,
    item = VDict fields /\ new c fields = Ok attrs /\ obj = VModel c attrs.

(** The parameters of a list are well formed: no key twice, and no
    ['page']. *)
Definition params_ok (p : pydict) : Prop :=
  List.NoDup (dict_keys p) /\ dict_get "page" p = None.

End AdapterStatements.

(** An invoice as [update] builds it from what the service sends: one
    line, which the service knows under id 1. *)
Module InvoiceSamples.

Definition line : @pydict TextLib.lib :=
  [("quantity", @VDecimal TextLib.lib "1"); ("id", VInt 1); ("name", VStr "a")].

Definition remote : @pydict TextLib.lib :=
  [("id", VInt 1); ("name", VStr "a")].

Definition invoice : @pydict TextLib.lib :=
  [("lines", VList [VModel InvoiceLine line]);
   ("_loaded_lines", VList [VDict remote]);
   ("number", VStr "2024-0001")].

End InvoiceSamples.

(** * Properties *)

Section DictFacts.
Context {L : PyLib}.

Lemma dict_get_set (k k' : string) (v : value) (d : pydict) :
  dict_get k (dict_set k' v d) = if String.eqb k k' then Some v else dict_get k d.
Proof.
  induction d as [|[k0 v0] d IH]; simpl.
  - destruct (String.eqb k k'); reflexivity.
  - destruct (String.eqb k' k0) eqn:E0; simpl.
    + apply String.eqb_eq in E0. subst k0.
      destruct (String.eqb k k'); reflexivity.
    + destruct (String.eqb k k0) eqn:E1.
      * apply String.eqb_eq in E1. subst k0.
        rewrite String.eqb_sym in E0. rewrite E0. reflexivity.
      * exact IH.
Qed.

Lemma dict_get_set_same (k : string) (v : value) (d : pydict) :
  dict_get k (dict_set k v d) = Some v.
Proof. rewrite dict_get_set, String.eqb_refl. reflexivity. Qed.

Lemma dict_get_pop_other (k k' : string) (d : pydict) :
  k <> k' -> dict_get k (dict_pop k' d) = dict_get k d.
Proof.
  intros Hne. induction d as [|[k0 v0] d IH]; simpl; [reflexivity|].
  destruct (String.eqb k' k0) eqn:E0; simpl.
  - apply String.eqb_eq in E0. subst k0.
    apply String.eqb_neq in Hne. rewrite Hne. reflexivity.
  - rewrite IH. reflexivity.
Qed.

Lemma dict_get_In (k : string) (v : value) (d : pydict) :
  dict_get k d = Some v -> In (k, v) d.
Proof.
  induction d as [|[k0 v0] d IH]; simpl; [discriminate|].
  destruct (String.eqb k k0) eqn:E.
  - apply String.eqb_eq in E. intros [= ->]. subst. left. reflexivity.
  - intros H. right. apply IH, H.
Qed.

Lemma dict_get_None_keys_aux (k : string) (d : pydict) :
  dict_get k d = None -> ~ In k (dict_keys d).
Proof.
  induction d as [|[k0 v0] d IH]; simpl; [tauto|].
  destruct (String.eqb_spec k k0) as [->|Hne]; [discriminate|].
  intros H [E|Hin]; [congruence | exact (IH H Hin)].
Qed.

End DictFacts.

Section SerializationFacts.
Context {L : PyLib}.

(** A key of the dictionary [get_fields] builds was there before the loop
    or passed [is_field_writable]. *)
Lemma get_fields_loop_keys (c : model_class) (self_attrs : pydict) ser (items : pydict) :
  forall cur st data cur' data',
    get_fields_loop c self_attrs ser items cur st data = Ok (cur', data') ->
    forall k, dict_get k data' <> None ->
      dict_get k data <> None \/ is_field_writable c self_attrs k = Ok true.
Proof.
  induction items as [|[field v] items IH]; cbn [get_fields_loop];
    intros cur st data cur' data' H k Hk.
  - injection H as _ <-. left. unfold share_loaded in Hk.
    destruct (snd st && dict_mem "_loaded_lines" data) eqn:E; [|exact Hk].
    apply andb_true_iff in E as [_ E]. unfold dict_mem in E.
    rewrite dict_get_set in Hk.
    destruct (String.eqb k "_loaded_lines") eqn:Ek; [|exact Hk].
    apply String.eqb_eq in Ek. subst k.
    destruct (dict_get "_loaded_lines" data); [discriminate | discriminate E].
  - destruct (is_field_writable c self_attrs field) as [[|]|e] eqn:W;
      cbn [bind] in H; [| |discriminate H].
    + destruct (bound_method self_attrs "serialize_field_value");
        cbn [bind] in H; [|discriminate H].
      destruct (ser st field v) as [[[st' v'] out]|e]; cbn [bind] in H; [|discriminate].
      destruct (IH _ _ _ _ _ H k Hk) as [Hin|Hw]; [|right; exact Hw].
      rewrite dict_get_set in Hin.
      destruct (String.eqb k field) eqn:E.
      * apply String.eqb_eq in E. subst. right. exact W.
      * left. exact Hin.
    + eapply IH; eassumption.
Qed.

Lemma get_fields_writable (c : model_class) (attrs attrs' data : pydict) (k : string) :
  get_fields c attrs = Ok (attrs', data) ->
  is_field_writable c attrs k <> Ok true ->
  dict_get k data = None.
Proof.
  intros H W. destruct (dict_get k data) eqn:E; [|reflexivity].
  unfold get_fields in H.
  destruct (bound_method attrs "get_fields"); cbn [bind] in H; [|discriminate H].
  destruct (get_fields_loop_keys _ _ _ _ _ _ _ _ _ H k) as [Hin|Hw].
  - rewrite E. discriminate.
  - simpl in Hin. congruence.
  - contradiction.
Qed.

(** On an object without attributes named [Meta] or [is_field_writable],
    [is_field_writable] gives the answer of the class. *)
Lemma is_field_writable_class (c : model_class) (attrs : pydict) (f : string) :
  dict_get "Meta" attrs = None ->
  dict_mem "is_field_writable" attrs = false ->
  is_field_writable c attrs f = Ok (class_writable c f).
Proof.
  intros HM Hm. unfold is_field_writable, bound_method, self_Meta, class_writable.
  rewrite HM, Hm. cbn [bind].
  unfold AbstractInvoice_is_field_writable, Model_is_field_writable.
  destruct (cls_kind c); try (destruct (Meta_readonly c); reflexivity).
  destruct (startswith f "your_" || startswith f "client_"); [reflexivity|].
  destruct (Meta_readonly c); reflexivity.
Qed.

Lemma plain_not_mem (attrs : pydict) (name : string) :
  plain attrs = true -> In name reserved_names -> dict_mem name attrs = false.
Proof.
  unfold plain. intros H Hin. rewrite forallb_forall in H.
  apply negb_true_iff, H, Hin.
Qed.

Lemma plain_Meta (attrs : pydict) : plain attrs = true -> dict_get "Meta" attrs = None.
Proof.
  intros H. pose proof (plain_not_mem attrs "Meta" H) as Hm. unfold dict_mem in Hm.
  destruct (dict_get "Meta" attrs); [|reflexivity].
  discriminate Hm. left. reflexivity.
Qed.

Lemma plain_bound_method (attrs : pydict) (name : string) :
  plain attrs = true -> In name reserved_names -> bound_method attrs name = Ok tt.
Proof.
  intros H Hin. unfold bound_method. rewrite (plain_not_mem attrs name H Hin).
  reflexivity.
Qed.

Lemma plain_writable (c : model_class) (attrs : pydict) (f : string) :
  plain attrs = true -> is_field_writable c attrs f = Ok (class_writable c f).
Proof.
  intros H. apply is_field_writable_class; [apply plain_Meta, H|].
  apply plain_not_mem; [exact H | simpl; tauto].
Qed.

Lemma dict_mem_existsb (k : string) (d : pydict) :
  dict_mem k d = existsb (String.eqb k) (dict_keys d).
Proof.
  unfold dict_mem. induction d as [|[k0 v0] d IH]; simpl; [reflexivity|].
  destruct (String.eqb k k0); [reflexivity | exact IH].
Qed.

Lemma plain_keys (attrs attrs' : pydict) :
  dict_keys attrs' = dict_keys attrs -> plain attrs' = plain attrs.
Proof.
  intros Hk. unfold plain, reserved_names. cbn [forallb].
  rewrite !dict_mem_existsb, Hk. reflexivity.
Qed.

Lemma readonly_not_writable (c : model_class) (readonly : list string)
    (attrs : pydict) (f : string) :
  Meta_readonly c = Some readonly -> In f readonly ->
  dict_get "Meta" attrs = None ->
  is_field_writable c attrs f <> Ok true.
Proof.
  intros HM Hin Hmeta.
  assert (HW : Model_is_field_writable (ClassMeta c) f = Ok false).
  { unfold Model_is_field_writable. rewrite HM. f_equal.
    apply negb_false_iff. unfold str_in. apply existsb_exists.
    exists f. split; [exact Hin | apply String.eqb_refl]. }
  unfold is_field_writable, self_Meta. rewrite Hmeta.
  destruct (bound_method attrs "is_field_writable"); cbn [bind]; [|discriminate].
  unfold AbstractInvoice_is_field_writable.
  destruct (cls_kind c); try (rewrite HW; discriminate).
  destruct (startswith f "your_" || startswith f "client_");
    [discriminate | rewrite HW; discriminate].
Qed.


(** C9. On an invoice-like model, [get_fields] returns no entry for a
    field whose name starts with [your_] or [client_], whatever the
    read-only list of the class. *)
Theorem prefixed_fields_never_serialized
    (c : model_class) (attrs attrs' data : pydict) (f : string) :
  is_invoice_like c = true ->
  startswith f "your_" || startswith f "client_" = true ->
  get_fields c attrs = Ok (attrs', data) ->
  dict_get f data = None.
Proof.
  intros Hc Hp Hget.
  eapply get_fields_writable; [exact Hget|].
  unfold is_invoice_like in Hc.
  unfold is_field_writable, AbstractInvoice_is_field_writable.
  destruct (bound_method attrs "is_field_writable"); cbn [bind]; [|discriminate].
  destruct (cls_kind c); try discriminate Hc.
  rewrite Hp. discriminate.
Qed.

End SerializationFacts.



(** C9 on the sample library: an invoice holding the client's name. *)
Lemma prefixed_fields_never_serialized_witness :
  dict_get "client_name" [("number", @VStr TextLib.lib "2024-0001")] = None.
Proof.
  apply (prefixed_fields_never_serialized (L := TextLib.lib) Invoice
           [("number", VStr "2024-0001"); ("client_name", VStr "ACME")]
           [("number", VStr "2024-0001"); ("client_name", VStr "ACME")]
           [("number", VStr "2024-0001")] "client_name").
  - reflexivity.
  - reflexivity.
  - reflexivity.
Defined.

Section DeletedLines.
Context {L : PyLib}.

(** A serialized [InvoiceLine] has no [id]: the class lists it as
    read-only. *)
Lemma InvoiceLine_get_fields_no_id (attrs attrs' data : pydict) :
  dict_get "Meta" attrs = None ->
  get_fields InvoiceLine attrs = Ok (attrs', data) -> dict_get "id" data = None.
Proof.
  intros HM H. eapply get_fields_writable; [exact H|].
  eapply readonly_not_writable; [reflexivity | left; reflexivity | exact HM].
Qed.

(** Against a line serialized without [id], no server id is found. *)
Lemma ids_contains_no_id (z : Z) (pending : list value) :
  Forall (fun l => exists d, l = VDict d /\ dict_get "id" d = None) pending ->
  ids_contains (VInt z) pending = Ok (false, []).
Proof.
  induction 1 as [|l pending [d [-> Hd]] _ IH]; simpl; [reflexivity|].
  unfold getattr_default. rewrite Hd. simpl. exact IH.
Qed.

(** C1. An invoice is built from server JSON with one line, of id 1, and
    left as it is: the line is still among the live lines, yet
    [get_fields] appends it to ['lines'] flagged with [_destroy]. *)
Theorem live_line_flagged_for_deletion :
  let remote := [("id", VInt 1); ("name", VStr "a")] in
  exists attrs attrs' data,
    new Invoice [("lines", VList [VDict remote])] = Ok attrs
    /\ live_line_ids
         (match getattr_default attrs "lines" VNone with
          | VList lines => lines
          | _ => []
          end) = [VInt 1]
    /\ get_fields Invoice attrs = Ok (attrs', data)
    /\ dict_get "lines" data
       = Some (VList [VDict [("quantity", VStr (decimal_str Decimal_one));
                             ("name", VStr "a")];
                      VDict (remote ++ [("_destroy", VBool true)])]).
Proof.
  cbv zeta. do 3 eexists. repeat split; reflexivity.
Qed.

End DeletedLines.

Section UpdateFacts.
Context {L : PyLib}.

Lemma bind_Ok {A B} (r : result A) (k : A -> result B) (b : B) :
  bind r k = Ok b -> exists a, r = Ok a /\ k a = Ok b.
Proof. destruct r as [a|e]; simpl; [eauto | discriminate]. Qed.

Lemma coerce_items_get (m : meta) (f : string) (v : value) :
  forall d d', coerce_items m d = Ok d' -> dict_get f d = Some v ->
    exists v', coerce_field m f v = Ok v' /\ dict_get f d' = Some v'.
Proof.
  induction d as [|[k x] d IH]; simpl; intros d' H Hget; [discriminate|].
  apply bind_Ok in H as [x' [Hx H]].
  apply bind_Ok in H as [rest' [Hrest H]].
  injection H as <-. simpl.
  destruct (String.eqb f k) eqn:E.
  - apply String.eqb_eq in E. subst k. injection Hget as ->. eauto.
  - eapply IH; eassumption.
Qed.

Lemma coerce_field_coerced (m : meta) (f s : string) (v' : value) :
  coerce_field m f (VStr s) = Ok v' -> s <> "" -> coercible m f = true ->
  is_coerced v' = true.
Proof.
  unfold coerce_field, coercible. intros H Hs Hc.
  apply String.eqb_neq in Hs. rewrite Hs in H.
  destruct (endswith f "_at"), (endswith f "_on"), (endswith f "_due"),
    (endswith f "_date"); simpl in *;
    try (destruct (parse s); [injection H as <-; reflexivity | discriminate]).
  destruct (in_Meta_decimal m f) as [[|]|e]; try discriminate Hc. cbn [bind] in H.
  destruct (Decimal s); [injection H as <-; reflexivity | discriminate].
Qed.

(** The lines of an invoice-like object are not its [Meta]. *)
Lemma self_Meta_set (c : model_class) (k : string) (v : value) (attrs : pydict) :
  k <> "Meta" -> self_Meta c (dict_set k v attrs) = self_Meta c attrs.
Proof.
  intros Hk. unfold self_Meta. rewrite dict_get_set.
  apply not_eq_sym, String.eqb_neq in Hk. rewrite Hk. reflexivity.
Qed.

Lemma str_chars_nonempty (s : string) :
  s <> "" -> exists a rest, str_chars s = VStr a :: rest.
Proof.
  destruct s as [|a s]; [congruence|]. intros _.
  unfold str_chars. simpl. eauto.
Qed.

(** A string is no list of lines: the loop of [AbstractInvoice.update]
    stops at its first character. *)
Lemma build_lines_str (a : string) (rest lines loaded : list value) :
  build_lines (VStr a :: rest) lines loaded
  = Raise (TypeError "argument after ** must be a mapping").
Proof. reflexivity. Qed.

Lemma update_fields_get (c : model_class) (attrs fields attrs' fields' : pydict)
    (f s : string) :
  update c attrs fields = Ok (attrs', fields') ->
  dict_get f fields = Some (VStr s) -> s <> "" ->
  exists v', coerce_field (self_Meta c attrs) f (VStr s) = Ok v'
             /\ dict_get f fields' = Some v'.
Proof.
  intros H Hget Hs.
  assert (HM : forall a d, Model_update c a d = Ok (attrs', fields') ->
               self_Meta c a = self_Meta c attrs ->
               dict_get f d = Some (VStr s) ->
               exists v', coerce_field (self_Meta c attrs) f (VStr s) = Ok v'
                          /\ dict_get f fields' = Some v').
  { intros a d HU <- Hd. unfold Model_update in HU.
    apply bind_Ok in HU as [d' [Hd' HU]]. injection HU as _ <-.
    eapply coerce_items_get; eassumption. }
  unfold update in H. apply bind_Ok in H as [_ [_ H]].
  destruct (cls_kind c); try (eapply HM; [eassumption | reflexivity | assumption]).
  unfold AbstractInvoice_update in H.
  destruct (dict_get "lines" fields) as [popped|] eqn:Hl;
    [|eapply HM; [eassumption | reflexivity | assumption]].
  apply bind_Ok in H as [items [Hit H]].
  apply bind_Ok in H as [[lines loaded] [Hb H]].
  destruct (String.eqb f "lines") eqn:E.
  - apply String.eqb_eq in E. subst f. rewrite Hl in Hget. injection Hget as ->.
    simpl in Hit. injection Hit as <-.
    destruct (str_chars_nonempty s Hs) as [a [rest Hc]].
    rewrite Hc, build_lines_str in Hb. discriminate.
  - apply String.eqb_neq in E. eapply HM; [exact H | |].
    + rewrite !self_Meta_set by discriminate. reflexivity.
    + rewrite dict_get_pop_other; assumption.
Qed.

(** C10, amended. When [update(fields)] returns, every non-empty string
    of the caller's dictionary under a field name subject to coercion
    has been replaced, in that dictionary, by the datetime, date or
    decimal it coerces to: the dictionary is not the one that was
    passed. *)
Theorem update_coerces_callers_dict
    (c : model_class) (attrs fields attrs' fields' : pydict) (f s : string) :
  update c attrs fields = Ok (attrs', fields') ->
  dict_get f fields = Some (VStr s) ->
  s <> "" ->
  coercible (self_Meta c attrs) f = true ->
  exists v', coerce_field (self_Meta c attrs) f (VStr s) = Ok v'
             /\ is_coerced v' = true
             /\ dict_get f fields' = Some v'
             /\ fields' <> fields.
Proof.
  intros H Hget Hs Hc.
  destruct (update_fields_get _ _ _ _ _ _ _ H Hget Hs) as [v' [Hv Hg]].
  pose proof (coerce_field_coerced _ _ _ _ Hv Hs Hc) as Hco.
  exists v'. repeat split; try assumption.
  intros ->. rewrite Hget in Hg. injection Hg as <-. discriminate.
Qed.

End UpdateFacts.

(** C10 on the sample library: a subject is updated from a dictionary
    holding a creation time. *)
Lemma update_coerces_callers_dict_witness :
  exists v', coerce_field Subject "created_at" (VStr "2024-01-02T10:00:00") = Ok v'
             /\ is_coerced v' = true
             /\ dict_get "created_at" [("created_at", @VDateTime TextLib.lib "2024-01-02T10:00:00")]
                = Some v'
             /\ [("created_at", @VDateTime TextLib.lib "2024-01-02T10:00:00")]
                <> [("created_at", VStr "2024-01-02T10:00:00")].
Proof.
  apply (update_coerces_callers_dict (L := TextLib.lib) Subject []
           [("created_at", VStr "2024-01-02T10:00:00")]
           [("created_at", @VDateTime TextLib.lib "2024-01-02T10:00:00")]
           [("created_at", @VDateTime TextLib.lib "2024-01-02T10:00:00")]
           "created_at" "2024-01-02T10:00:00").
  - reflexivity.
  - reflexivity.
  - discriminate.
  - reflexivity.
Defined.

(** C10 as stated fails: the loop skips a string that is false in a
    condition, so that an empty string under a date name stays, and the
    dictionary with it. *)
Lemma update_coerces_strings_counterexample :
  ~ update_coerces_strings (L := TextLib.lib) Subject [] [("created_at", VStr "")].
Proof.
  intros H.
  destruct (H [("created_at", VStr "")] [("created_at", VStr "")] "created_at" ""
              eq_refl eq_refl eq_refl) as (v' & _ & _ & Hne).
  apply Hne. reflexivity.
Qed.
Section EventFacts.
Context {L : PyLib}.
Variable server : list request -> request -> response.

Lemma fire_with_unlisted (id_name : string) (events : list string)
    (event_args : value -> list string) (date_arg resource : string)
    (id event : value) (kwargs : pydict) (log : list request) :
  keys_subset kwargs (event_args event) = false ->
  fire_with server id_name events event_args date_arg resource id event kwargs log
  = if is_int id then
      (Raise (ValueError (if value_in event events
                          then invalid_args_msg (event_args event) event
                          else invalid_event_msg events)), log)
    else (Raise (TypeError (String.append id_name " must be int")), log).
Proof.
  intros H. unfold fire_with.
  destruct (is_int id); simpl; [|reflexivity].
  destruct (value_in event events); simpl; [|reflexivity].
  rewrite H. reflexivity.
Qed.

Lemma keys_subset_nil (kwargs : pydict) :
  kwargs <> [] -> keys_subset kwargs [] = false.
Proof. destruct kwargs as [|[k v] kwargs]; [congruence | reflexivity]. Qed.

(** C2, amended. A keyword argument outside the whitelist of the event
    stops [fire] before any request: with a value error when the id is an
    int, with the type error of the id check, which comes first, when it
    is not. An event other than [pay] has the empty whitelist, so that
    any keyword argument is outside it. *)
Theorem fire_checks_whitelist
    (a : event_adapter) (id event : value) (kwargs : pydict) (log : list request) :
  keys_subset kwargs (EVENT_ARGS a event) = false ->
  (if is_int id
   then exists arg, fire server a id event kwargs log = (Raise (ValueError arg), log)
   else exists msg, fire server a id event kwargs log = (Raise (TypeError msg), log))
  /\ (py_eq (VStr "pay") event = false ->
      EVENT_ARGS a event = []
      /\ forall kw, kw <> [] -> keys_subset kw (EVENT_ARGS a event) = false).
Proof.
  intros H. split.
  - destruct a; simpl in *; unfold InvoicesApi_fire, ExpensesApi_fire;
      rewrite (fire_with_unlisted _ _ _ _ _ _ _ _ _ H);
      destruct (is_int id); eauto.
  - intros Hp.
    assert (HE : EVENT_ARGS a event = []).
    { destruct a; simpl; unfold InvoicesApi_EVENT_ARGS, ExpensesApi_EVENT_ARGS;
        rewrite Hp; reflexivity. }
    split; [exact HE|]. intros kw Hkw. rewrite HE. apply keys_subset_nil, Hkw.
Qed.

End EventFacts.

(** C2 on a sample: [mark_as_sent] has no whitelist and is fired with a
    keyword argument. *)
Lemma fire_checks_whitelist_witness :
  (exists arg, fire Samples.server_200 InvoiceEvents (VInt 7) (VStr "mark_as_sent")
                 [("note", @VStr TextLib.lib "x")] [] = (Raise (ValueError arg), []))
  /\ (py_eq (VStr "pay") (@VStr TextLib.lib "mark_as_sent") = false ->
      EVENT_ARGS InvoiceEvents (@VStr TextLib.lib "mark_as_sent") = []
      /\ forall kw : @pydict TextLib.lib, kw <> [] ->
           keys_subset kw (EVENT_ARGS InvoiceEvents (@VStr TextLib.lib "mark_as_sent")) = false).
Proof.
  apply (fire_checks_whitelist (L := TextLib.lib) Samples.server_200 InvoiceEvents
           (VInt 7) (VStr "mark_as_sent") [("note", VStr "x")] []).
  reflexivity.
Defined.

(** C2 as stated fails: the id check comes first, and a call with an id
    that is no int ends in a type error. *)
Lemma fire_rejects_unlisted_counterexample :
  ~ fire_rejects_unlisted Samples.server_200 InvoiceEvents
      (@VStr TextLib.lib "7") (VStr "pay") [("note", VStr "x")] [].
Proof.
  intros H. destruct H as [arg H]; [reflexivity | discriminate H].
Qed.

Section FilterFacts.
Context {L : PyLib}.
Variable server : list request -> request -> response.

Lemma date_filter_rejects (name : string) (v : value) (p : pydict) :
  py_truthy v = true -> is_date v = false ->
  exists msg, date_filter name v p = Raise (TypeError msg).
Proof. intros Ht Hd. unfold date_filter. rewrite Ht, Hd. simpl. eauto. Qed.

Lemma date_filter_cases (name : string) (v : value) (p : pydict) :
  (exists p', date_filter name v p = Ok p')
  \/ (exists msg, date_filter name v p = Raise (TypeError msg)).
Proof.
  unfold date_filter. destruct (py_truthy v); [|eauto].
  destruct v; simpl; eauto.
Qed.

Lemma int_filter_cases (name : string) (v : value) (p : pydict) :
  (exists p', int_filter name v p = Ok p')
  \/ (exists msg, int_filter name v p = Raise (TypeError msg)).
Proof.
  unfold int_filter. destruct (py_truthy v); [|eauto].
  destruct (is_int v); simpl; eauto.
Qed.

(** A date filter given a value of no use to it is passed over: [if v:]
    guards the type check. *)
Lemma date_filter_falsy (name : string) (v : value) (p : pydict) :
  py_truthy v = false -> date_filter name v p = Ok p.
Proof. intros H. unfold date_filter. rewrite H. reflexivity. Qed.

Ltac step_filter :=
  match goal with
  | |- context [int_filter ?n ?v ?p] =>
      destruct (int_filter_cases n v p) as [[? ->]|[? ->]]; simpl; eauto
  | |- context [date_filter ?n ?v ?p] =>
      destruct (date_filter_cases n v p) as [[? ->]|[? ->]]; simpl; eauto
  end.

Ltac reject_filter Ht Hd :=
  match goal with
  | |- context [date_filter ?n ?v ?p] =>
      destruct (date_filter_rejects n v p Ht Hd) as [? ->]; simpl; eauto
  end.

(** C8, amended. In every [find], a date-typed filter given a value that
    is true in a condition and is neither a date nor a datetime ends the
    call in a type error, before any request. *)
Theorem find_rejects_true_non_dates
    (call : find_call) (log : list request) (v : value) :
  In v (date_filters call) ->
  py_truthy v = true ->
  is_date v = false ->
  exists msg, find server call log = (Raise (TypeError msg), log).
Proof.
  intros Hin Ht Hd.
  destruct call as [a|a|a|a]; simpl in Hin;
    repeat (destruct Hin as [<-|Hin]); try contradiction;
    unfold find, SubjectsApi_find, InvoicesApi_find, ExpensesApi_find,
      GeneratorsApi_find, abind, lift; simpl.
  all: try (reject_filter Ht Hd; fail).
  all: repeat (first [reject_filter Ht Hd; fail | step_filter]).
Qed.

End FilterFacts.

(** C8 on a sample: invoices are searched since the string [yesterday]. *)
Lemma find_rejects_true_non_dates_witness :
  exists msg,
    find Samples.server_200
      (FindInvoices {| if_proforma := VNone; if_subject_id := VNone;
                       if_since := @VStr TextLib.lib "yesterday";
                       if_until := VNone; if_updated_since := VNone;
                       if_updated_until := VNone; if_number := VNone;
                       if_status := VNone; if_custom_id := VNone |}) []
    = (Raise (TypeError msg), []).
Proof.
  apply (find_rejects_true_non_dates (L := TextLib.lib) Samples.server_200 _ []
           (VStr "yesterday")).
  - simpl. auto.
  - reflexivity.
  - reflexivity.
Defined.

(** C8 as stated fails: the number 0 is no date, and [find] passes it
    over without an error. *)
Lemma find_rejects_non_dates_counterexample :
  ~ find_rejects_non_dates Samples.server_200
      (FindInvoices {| if_proforma := VNone; if_subject_id := VNone;
                       if_since := @VInt TextLib.lib 0;
                       if_until := VNone; if_updated_since := VNone;
                       if_updated_until := VNone; if_number := VNone;
                       if_status := VNone; if_custom_id := VNone |}) [].
Proof.
  intros H. destruct (H (VInt 0)) as [msg Hm].
  - simpl. auto.
  - reflexivity.
  - discriminate Hm.
Qed.

Section TransportFacts.
Context {L : PyLib}.
Variable server : list request -> request -> response.

Lemma make_request_log (method : http_method) (success_status : Z)
    (endpoint : endpoint_path) (data : option value) (params : option pydict)
    (log : list request) :
  snd (_make_request server method success_status endpoint data params log)
  = log ++ [{| req_method := method; req_endpoint := endpoint;
               req_data := data; req_params := params |}].
Proof.
  unfold _make_request.
  repeat match goal with
         | |- context [if ?b then _ else _] => destruct b
         | |- context [match ?x with _ => _ end] => destruct x
         end; reflexivity.
Qed.

Lemma make_request_success (method : http_method) (success_status : Z)
    (endpoint : endpoint_path) (data : option value) (params : option pydict)
    (log : list request) :
  let r := server log {| req_method := method; req_endpoint := endpoint;
                         req_data := data; req_params := params |} in
  status_code r = success_status ->
  exists resp,
    fst (_make_request server method success_status endpoint data params log)
    = Ok (Some resp)
    /\ json resp = match resp_json r with Some j => j | None => VNone end.
Proof.
  intros r Hs. unfold _make_request. fold r.
  rewrite Hs, Z.eqb_refl. simpl. eauto.
Qed.

(** C4, amended. [_make_request] sends its request and then: on the
    success status it returns the response; on another status, a JSON
    object with an ["errors"] key gives a value error carrying the value
    under that key; and a body without error report (no JSON, [null], an
    object without the key) gives the HTTP error of [raise_for_status]
    when the status is from 400 to 599. *)
Theorem make_request_errors
    (method : http_method) (success_status : Z) (endpoint : endpoint_path)
    (data : option value) (params : option pydict) (log : list request) :
  let req := {| req_method := method; req_endpoint := endpoint;
                req_data := data; req_params := params |} in
  let r := server log req in
  let out := _make_request server method success_status endpoint data params log in
  snd out = log ++ [req]
  /\ (status_code r = success_status -> exists resp, fst out = Ok (Some resp))
  /\ (status_code r <> success_status ->
      forall entries errors,
        resp_json r = Some (VDict entries) ->
        dict_get "errors" entries = Some errors ->
        fst out = Raise (ValueError errors))
  /\ (status_code r <> success_status ->
      lacks_errors (resp_json r) = true ->
      (400 <= status_code r < 600)%Z ->
      fst out = Raise (HTTPError (status_code r))).
Proof.
  intros req r out. split; [apply make_request_log|]. split; [|split].
  - intros Hs. destruct (make_request_success method success_status endpoint
                            data params log Hs) as [resp [H _]]. eauto.
  - intros Hs entries errors Hj He. unfold out, _make_request. fold req r.
    assert (Ht : py_truthy (VDict entries) = true)
      by (destruct entries; [discriminate He | reflexivity]).
    apply Z.eqb_neq in Hs. rewrite Hs, Hj. cbv beta iota zeta. rewrite Ht.
    cbn [py_contains_str py_subscript]. unfold dict_mem. rewrite He. reflexivity.
  - intros Hs Hl [Hlo Hhi]. unfold out, _make_request. fold req r.
    apply Z.eqb_neq in Hs. rewrite Hs.
    assert (Hr : raise_for_status r = Raise (HTTPError (status_code r))).
    { unfold raise_for_status.
      apply Z.leb_le in Hlo. apply Z.ltb_lt in Hhi. rewrite Hlo, Hhi. reflexivity. }
    rewrite Hr.
    destruct (resp_json r) as [[]|]; try discriminate; try reflexivity.
    destruct entries as [|kv entries]; [reflexivity|].
    simpl in Hl. apply negb_true_iff in Hl.
    cbn [py_truthy py_contains_str]. rewrite Hl. reflexivity.
Qed.

End TransportFacts.

(** C4 on a sample: a POST refused with 422 and an error report. *)
Lemma make_request_errors_witness :
  fst (_make_request Samples.server_422 POST 201 [Lit "subjects"]
         (Some (@VDict TextLib.lib [])) None [])
  = Raise (ValueError (VDict [("name", VStr "is required")])).
Proof.
  destruct (make_request_errors (L := TextLib.lib) Samples.server_422 POST 201
              [Lit "subjects"] (Some (VDict [])) None []) as (_ & _ & H & _).
  apply (H ltac:(discriminate) [("errors", VDict [("name", VStr "is required")])]).
  - reflexivity.
  - reflexivity.
Defined.

(** C4 as stated fails: a POST answered with 200, where 201 is expected,
    and a body without error report raises nothing, since
    [raise_for_status] passes a status below 400; [_make_request] falls
    off its end. *)
Lemma request_errors_claim_counterexample :
  ~ request_errors_claim Samples.server_200 POST 201 [Lit "subjects"]
      (Some (@VDict TextLib.lib [])) None [].
Proof.
  intros [_ H]. specialize (H ltac:(discriminate)). discriminate H.
Qed.

Section SaveFacts.
Context {L : PyLib}.
Variable server : list request -> request -> response.

Lemma make_request_run (method : http_method) (success_status : Z)
    (endpoint : endpoint_path) (data : option value) (params : option pydict)
    (log : list request) :
  let req := {| req_method := method; req_endpoint := endpoint;
                req_data := data; req_params := params |} in
  exists out,
    _make_request server method success_status endpoint data params log
    = (out, log ++ [req])
    /\ (status_code (server log req) = success_status ->
        exists resp, out = Ok (Some resp)
          /\ json resp = match resp_json (server log req) with
                         | Some j => j
                         | None => VNone
                         end).
Proof.
  intros req. subst req.
  exists (fst (_make_request server method success_status endpoint data params log)).
  split.
  - rewrite <- (make_request_log server method success_status endpoint data params log).
    apply surjective_pairing.
  - apply make_request_success.
Qed.

Lemma post_json (endpoint : endpoint_path) (data : value) (params : option pydict)
    (log : list request) :
  is_json data = true ->
  _post server endpoint data params log
  = _make_request server POST 201 endpoint (Some data) params log.
Proof.
  intros H. unfold _post, abind, lift, json_dumps. rewrite H.
  destruct (_make_request server POST 201 endpoint (Some data) params log) as [[a|e] l];
    reflexivity.
Qed.

Lemma put_json (endpoint : endpoint_path) (data : value) (log : list request) :
  is_json data = true ->
  _put server endpoint data log
  = _make_request server PUT 200 endpoint (Some data) None log.
Proof.
  intros H. unfold _put, abind, lift, json_dumps. rewrite H.
  destruct (_make_request server PUT 200 endpoint (Some data) None log) as [[a|e] l];
    reflexivity.
Qed.

(** C5, amended. Every [save] serializes the model, then sends one
    request holding the serialized fields. The adapters of subjects,
    invoices, expenses and generators send a PUT to the item endpoint
    when [model.id] is true in a condition and a POST to the collection
    endpoint otherwise; those of messages and payments always send a POST
    to the endpoint nested under the invoice. When the server answers
    with the expected status and a JSON object, the object is merged into
    the model by [update], except for messages, whose [save] leaves the
    model as [get_fields] left it. *)
Theorem save_sends_and_merges
    (a : saving_adapter) (c : model_class) (attrs kwargs : pydict)
    (log : list request) (attrs1 data : pydict) :
  get_fields c attrs = Ok (attrs1, data) ->
  is_json (VDict data) = true ->
  save_kwargs_ok a kwargs = true ->
  let id := getattr_default attrs "id" VNone in
  let req := {| req_method := save_method a id;
                req_endpoint := save_endpoint a id kwargs;
                req_data := Some (VDict data); req_params := None |} in
  let out := save server a c attrs kwargs log in
  snd out = log ++ [req]
  /\ (forall fields attrs' fields',
        status_code (server log req) = save_status a id ->
        resp_json (server log req) = Some (VDict fields) ->
        update c attrs1 fields = Ok (attrs', fields') ->
        fst out = Ok (match a with MessagesApi => attrs1 | _ => attrs' end)).
Proof.
  intros Hg Hj Hk id req out.
  assert (Hcrud : forall ep,
    save_method a id = (if py_truthy id then PUT else POST) ->
    save_endpoint a id kwargs = (if py_truthy id then [Lit ep; Arg id] else [Lit ep]) ->
    let out := CrudModelApi_save server ep c attrs log in
    snd out = log ++ [req]
    /\ (forall fields attrs' fields',
          status_code (server log req) = save_status a id ->
          resp_json (server log req) = Some (VDict fields) ->
          update c attrs1 fields = Ok (attrs', fields') ->
          fst out = Ok attrs')).
  { intros ep Hm He. unfold CrudModelApi_save. fold id.
    unfold save_status in *. subst req. rewrite Hm, He.
    destruct (py_truthy id).
    - rewrite Hg. unfold abind, lift, ret. cbv beta iota zeta. rewrite put_json by exact Hj.
      destruct (make_request_run PUT 200 [Lit ep; Arg id] (Some (VDict data)) None log)
        as [o [-> Ho]].
      destruct o as [r|e]; simpl.
      + split.
        * destruct (response_json r); simpl; [|reflexivity].
          destruct (update_from c attrs1 a0); reflexivity.
        * intros fields attrs' fields' Hs Hr Hu.
          destruct (Ho Hs) as [resp [[= ->] Hjs]]. rewrite Hr in Hjs.
          cbn [response_json]. rewrite Hjs. cbn [update_from]. rewrite Hu. reflexivity.
      + split; [reflexivity|].
        intros fields attrs' fields' Hs. destruct (Ho Hs) as [resp [[=] _]].
    - rewrite Hg. unfold abind, lift, ret. cbv beta iota zeta. rewrite post_json by exact Hj.
      destruct (make_request_run POST 201 [Lit ep] (Some (VDict data)) None log)
        as [o [-> Ho]].
      destruct o as [r|e]; simpl.
      + split.
        * destruct (response_json r); simpl; [|reflexivity].
          destruct (update_from c attrs1 a0); reflexivity.
        * intros fields attrs' fields' Hs Hr Hu.
          destruct (Ho Hs) as [resp [[= ->] Hjs]]. rewrite Hr in Hjs.
          cbn [response_json]. rewrite Hjs. cbn [update_from]. rewrite Hu. reflexivity.
      + split; [reflexivity|].
        intros fields attrs' fields' Hs. destruct (Ho Hs) as [resp [[=] _]]. }
  assert (Hnested : forall name,
    save_method a id = POST ->
    save_endpoint a id kwargs
      = [Lit "invoices"; Arg (getattr_default kwargs "invoice_id" VNone); Lit name] ->
    is_int (getattr_default kwargs "invoice_id" VNone) = true ->
    (name = "payments" ->
     snd (PaymentsApi_save server c attrs kwargs log) = log ++ [req]
     /\ (forall fields attrs' fields',
           status_code (server log req) = save_status a id ->
           resp_json (server log req) = Some (VDict fields) ->
           update c attrs1 fields = Ok (attrs', fields') ->
           fst (PaymentsApi_save server c attrs kwargs log) = Ok attrs'))
    /\ (name = "message" ->
        snd (MessagesApi_save server c attrs kwargs log) = log ++ [req]
        /\ (status_code (server log req) = save_status a id ->
            fst (MessagesApi_save server c attrs kwargs log) = Ok attrs1))).
  { intros name Hm He Hi. unfold PaymentsApi_save, MessagesApi_save.
    unfold save_status in *. subst req. rewrite Hm, He. cbv zeta. rewrite Hi.
    cbn [negb]. cbv beta iota.
    split; intros ->.
    - rewrite Hg. unfold abind, lift, ret. cbv beta iota zeta. rewrite post_json by exact Hj.
      match goal with
      | |- context [_make_request server POST 201 ?e ?d ?p log] =>
          destruct (make_request_run POST 201 e d p log) as [o [-> Ho]]
      end.
      destruct o as [r|e]; simpl.
      + split.
        * destruct (response_json r); simpl; [|reflexivity].
          destruct (update_from c attrs1 a0); reflexivity.
        * intros fields attrs' fields' Hs Hr Hu.
          destruct (Ho Hs) as [resp [[= ->] Hjs]]. rewrite Hr in Hjs.
          cbn [response_json]. rewrite Hjs. cbn [update_from]. rewrite Hu. reflexivity.
      + split; [reflexivity|].
        intros fields attrs' fields' Hs. destruct (Ho Hs) as [resp [[=] _]].
    - rewrite Hg. unfold abind, lift, ret. cbv beta iota zeta. rewrite post_json by exact Hj.
      match goal with
      | |- context [_make_request server POST 201 ?e ?d ?p log] =>
          destruct (make_request_run POST 201 e d p log) as [o [-> Ho]]
      end.
      destruct o as [r|e]; simpl.
      + split; reflexivity.
      + split; [reflexivity|]. intros Hs. destruct (Ho Hs) as [resp [[=] _]]. }
  unfold out, save. destruct a; simpl in Hk.
  1-4: destruct kwargs; [|discriminate]; apply Hcrud; reflexivity.
  - destruct (Hnested "message" eq_refl eq_refl Hk) as [_ H].
    destruct (H eq_refl) as [H1 H2]. split; [exact H1|].
    intros fields attrs' fields' Hs _ _. apply H2, Hs.
  - destruct (Hnested "payments" eq_refl eq_refl Hk) as [H _].
    apply (H eq_refl).
Qed.

End SaveFacts.

(** C5 on a sample: a new subject is saved and the server gives it the
    id 7. *)
Lemma save_sends_and_merges_witness :
  snd (save Samples.server_201 SubjectsApi Subject
         [("name", @VStr TextLib.lib "ACME")] [] [])
  = [{| req_method := POST; req_endpoint := [Lit "subjects"];
        req_data := Some (VDict [("name", VStr "ACME")]); req_params := None |}]
  /\ fst (save Samples.server_201 SubjectsApi Subject
            [("name", @VStr TextLib.lib "ACME")] [] [])
     = Ok [("name", VStr "ACME"); ("id", VInt 7)].
Proof.
  destruct (save_sends_and_merges (L := TextLib.lib) Samples.server_201 SubjectsApi
              Subject [("name", VStr "ACME")] [] []
              [("name", VStr "ACME")] [("name", VStr "ACME")]
              eq_refl eq_refl eq_refl) as [H1 H2].
  split; [exact H1|].
  apply (H2 [("id", VInt 7)] [("name", VStr "ACME"); ("id", VInt 7)] [("id", VInt 7)]);
    reflexivity.
Defined.

(** C5 as stated fails: the adapter of messages sends a POST for a model
    that has an id, to the endpoint nested under the invoice, and does
    not merge the response into the model. *)
Lemma save_puts_or_posts_counterexample :
  ~ save_puts_or_posts Samples.server_201 MessagesApi InvoiceMessage
      [("id", @VInt TextLib.lib 5); ("subject", VStr "Hello")]
      [("invoice_id", VInt 3)] [].
Proof.
  intros H.
  destruct (H [("id", VInt 5); ("subject", VStr "Hello")]
              [{| req_method := POST;
                  req_endpoint := [Lit "invoices"; Arg (VInt 3); Lit "message"];
                  req_data := Some (VDict [("id", VInt 5); ("subject", VStr "Hello")]);
                  req_params := None |}] eq_refl)
    as (req & attrs1 & data & body & Hlog & _ & _ & Hput & _).
  injection Hlog as <-.
  destruct (Hput eq_refl) as [Hm _]. discriminate Hm.
Qed.

Section PagingFacts.
Context {A : Type}.
Variable load_page : nat -> list A.
(** The collection has [last] pages, none of them empty, and nothing
    after them. *)
Variable last : nat.
Hypothesis pages_full : forall n, (n < last)%nat -> load_page n <> [].
Hypothesis pages_end : load_page last = [].

Lemma load_pages_from_full (k : nat) :
  forall n fuel st objs cnt,
    (n + k = last)%nat ->
    (forall m, (n <= m)%nat -> pages st !! m = None) ->
    (k < fuel)%nat ->
    objects st = Some objs ->
    item_count st = Some cnt ->
    exists st',
      load_pages_from load_page fuel n st = Some st'
      /\ objects st' = Some (objs ++ items_of_pages load_page n k)
      /\ item_count st' = Some (cnt + length (items_of_pages load_page n k))%nat
      /\ fetched st' = fetched st ++ seq n (S k)
      /\ (k = 0%nat -> pages st' = pages st).
Proof using pages_full pages_end.
  induction k as [|k IH]; intros n fuel st objs cnt Hn Hp Hf Ho Hc;
    (destruct fuel as [|fuel]; [lia|]); simpl; unfold get_page.
  - rewrite (Hp n) by lia. replace n with last by lia. rewrite pages_end.
    eexists. split; [reflexivity|]. simpl. unfold items_of_pages. simpl.
    rewrite app_nil_r, Nat.add_0_r. auto.
  - rewrite (Hp n) by lia.
    destruct (load_page n) as [|a page] eqn:Hl; [exfalso; apply (pages_full n); [lia|exact Hl]|].
    simpl. rewrite Ho, Hc. simpl.
    edestruct (IH (S n) fuel) as (st' & H1 & H2 & H3 & H4 & _);
      [| | | | | exists st'; split; [exact H1|]].
    + lia.
    + simpl. intros m Hm. rewrite lookup_insert_ne by lia. apply Hp. lia.
    + lia.
    + reflexivity.
    + reflexivity.
    + rewrite H2, H3, H4. simpl. unfold items_of_pages. simpl. rewrite Hl.
      rewrite <- !app_assoc. simpl. repeat split.
      * f_equal. rewrite !length_app. simpl. lia.
      * discriminate.
Qed.

Lemma ensure_all_pages_loads (fuel : nat) (st : paged) :
  (last < fuel)%nat ->
  objects st = None \/ objects st = Some [] ->
  (forall m, pages st !! m = None) ->
  exists st',
    ensure_all_pages load_page fuel st = Some st'
    /\ fetched st' = fetched st ++ seq 0 (S last)
    /\ materialized load_page last st'.
Proof using pages_full pages_end.
  intros Hf Ho Hp.
  assert (H : exists st', load_all_pages load_page fuel st = Some st'
                 /\ fetched st' = fetched st ++ seq 0 (S last)
                 /\ materialized load_page last st').
  { unfold load_all_pages.
    edestruct (load_pages_from_full last 0 fuel) as (st' & H1 & H2 & H3 & H4 & H5);
      [| | | | | exists st'; split; [exact H1|]].
    - lia.
    - simpl. intros m _. apply Hp.
    - exact Hf.
    - reflexivity.
    - reflexivity.
    - cbn [fetched objects item_count pages app] in *.
      rewrite Nat.add_0_l in H3.
      split; [exact H4|]. repeat split; try assumption.
      + intros p Hle. rewrite H4. apply in_or_app. right. apply in_seq. lia.
      + intros H0 m. rewrite (H5 H0). apply Hp. }
  unfold ensure_all_pages. destruct Ho as [-> | ->]; exact H.
Qed.

(** Once every page has been added, [ensure_all_pages] keeps it so: it
    does nothing on a list that holds items and starts over on an empty
    one. *)
Lemma ensure_all_pages_materialized (fuel : nat) (st : paged) :
  (last < fuel)%nat ->
  materialized load_page last st ->
  exists st',
    ensure_all_pages load_page fuel st = Some st'
    /\ materialized load_page last st'
    /\ (last <> 0%nat -> st' = st).
Proof using pages_full pages_end.
  intros Hf (Ho & Hc & Hfe & Hp).
  destruct (items_of_pages load_page 0 last) as [|a items] eqn:Hi.
  - assert (last = 0%nat) as H0.
    { destruct last as [|l] eqn:E; [reflexivity|]. exfalso.
      unfold items_of_pages in Hi. simpl in Hi.
      apply app_eq_nil in Hi as [Hi _]. apply (pages_full 0%nat); [lia | exact Hi]. }
    destruct (ensure_all_pages_loads fuel st Hf (or_intror Ho) (Hp H0))
      as (st' & H1 & H2 & H3).
    exists st'. split; [exact H1|]. split; [exact H3|]. congruence.
  - exists st. unfold ensure_all_pages. rewrite Ho.
    split; [reflexivity|]. split; [|reflexivity].
    repeat split; try assumption; rewrite Hi; assumption.
Qed.

Lemma paged_len_materialized (fuel : nat) (st : paged) :
  (last < fuel)%nat ->
  materialized load_page last st ->
  exists st',
    paged_len load_page fuel st
    = Some (length (items_of_pages load_page 0 last), st')
    /\ materialized load_page last st'
    /\ (last <> 0%nat -> st' = st).
Proof using pages_full pages_end.
  intros Hf Hm.
  destruct (ensure_all_pages_materialized fuel st Hf Hm) as (st' & H1 & H2 & H3).
  exists st'. unfold paged_len. rewrite H1. simpl.
  pose proof H2 as (_ & Hc & _). rewrite Hc. simpl.
  split; [reflexivity|]. split; assumption.
Qed.

Lemma slice_indices_forward (start stop step : option Z) (len : nat) :
  (1 <= default 1 step)%Z ->
  exists start' stop',
    slice_indices start stop step (Z.of_nat len)
    = Some (Z.of_nat start', Z.of_nat stop', default 1 step)
    /\ (start' <= len)%nat /\ (stop' <= len)%nat.
Proof.
  intros Hs. unfold slice_indices.
  destruct (Z.eqb_spec (default 1 step) 0) as [E|_]; [lia|].
  destruct (Z.ltb_spec (default 1 step) 0) as [E|_]; [lia|].
  set (clamp := fun x : Z =>
    if (x <? 0)%Z then Z.max (x + Z.of_nat len) 0 else Z.min x (Z.of_nat len)).
  assert (Hc : forall x, (0 <= clamp x <= Z.of_nat len)%Z).
  { intros x. unfold clamp. destruct (Z.ltb_spec x 0); lia. }
  exists (Z.to_nat (match start with Some x => clamp x | None => 0%Z end)),
         (Z.to_nat (match stop with Some x => clamp x | None => Z.of_nat len end)).
  split.
  - rewrite !Z2Nat.id; [reflexivity | |].
    + destruct stop as [x|]; [apply Hc | lia].
    + destruct start as [x|]; [apply Hc | lia].
  - split.
    + destruct start as [x|]; [specialize (Hc x)|]; lia.
    + destruct stop as [x|]; [specialize (Hc x)|]; lia.
Qed.

(** *** Iterating over a list that holds its items *)

Section Loaded.
Variable st : @paged A.
Variable objs : list A.
Hypothesis loaded : objects st = Some objs.
Hypothesis nonempty : objs <> [].

Lemma ensure_all_pages_loaded (fuel : nat) :
  ensure_all_pages load_page fuel st = Some st.
Proof using loaded nonempty.
  unfold ensure_all_pages. rewrite loaded.
  destruct objs; [congruence | reflexivity].
Qed.

Lemma seq_next_loaded (fuel i : nat) :
  seq_next load_page fuel (Some i) st
  = Some (objs !! i, match objs !! i with Some _ => Some (S i) | None => None end, st).
Proof using loaded nonempty.
  unfold seq_next, paged_getitem. rewrite ensure_all_pages_loaded. simpl.
  destruct (Z.ltb_spec (Z.of_nat i) 0) as [E|_]; [lia|].
  rewrite loaded, Nat2Z.id. simpl.
  destruct (objs !! i); reflexivity.
Qed.

Lemma islice_skip_loaded (fuel n : nat) :
  forall it,
    isl_pos it = Some (isl_cnt it) ->
    (isl_cnt it + n <= length objs)%nat ->
    islice_skip load_page fuel n it st
    = Some (true,
            {| isl_pos := Some (isl_cnt it + n)%nat; isl_cnt := (isl_cnt it + n)%nat;
               isl_next := isl_next it; isl_stop := isl_stop it;
               isl_step := isl_step it |}, st).
Proof using loaded nonempty.
  induction n as [|n IH]; intros it Hp Hn; simpl.
  - rewrite Nat.add_0_r. destruct it; simpl in *. rewrite Hp. reflexivity.
  - rewrite Hp, seq_next_loaded. simpl.
    destruct (lookup_lt_is_Some_2 objs (isl_cnt it)) as [a Ha]; [lia|].
    rewrite Ha. rewrite IH; simpl; [|reflexivity|lia].
    repeat f_equal; lia.
Qed.

Lemma list_slice_done (n start stop step : nat) :
  (stop <= start)%nat -> list_slice n objs start stop step = [].
Proof.
  intros H. destruct n; simpl; [reflexivity|].
  destruct (Nat.ltb_spec start stop); [lia | reflexivity].
Qed.

Lemma list_slice_step (n start stop step : nat) (a : A) :
  (start < stop)%nat -> objs !! start = Some a ->
  list_slice (S n) objs start stop step
  = a :: list_slice n objs (start + step) stop step.
Proof.
  intros H Ha. simpl. rewrite Ha.
  destruct (Nat.ltb_spec start stop); [reflexivity | lia].
Qed.

Lemma islice_drain_loaded (fuel n : nat) :
  forall it,
    islice_ok (length objs) it ->
    exists it',
      islice_drain load_page n fuel it st
      = Some (list_slice n objs (isl_next it) (isl_stop it) (isl_step it), it', st).
Proof using loaded nonempty.
  induction n as [|n IH]; intros it (Hp & Hc & Hs & Hstep); [simpl; eauto|].
  cbn [islice_drain]. unfold islice_next. rewrite Hp.
  rewrite islice_skip_loaded by (try assumption; lia).
  cbn -[seq_next list_slice Nat.ltb Nat.leb].
  replace (isl_cnt it + (isl_next it - isl_cnt it))%nat with (isl_next it) by lia.
  destruct (Nat.leb_spec (isl_stop it) (isl_next it)) as [Hle|Hlt].
  - rewrite list_slice_done by lia. eauto.
  - rewrite seq_next_loaded.
    destruct (lookup_lt_is_Some_2 objs (isl_next it)) as [a Ha]; [lia|].
    rewrite Ha, (list_slice_step _ _ _ _ a Hlt Ha). cbn -[seq_next list_slice Nat.ltb].
    match goal with
    | |- context [islice_drain load_page n fuel ?it1 st] =>
        destruct (IH it1) as [it' Hit]
    end.
    { unfold islice_ok. cbn -[Nat.ltb].
      destruct (Nat.ltb_spec (isl_stop it) (isl_next it + isl_step it));
        repeat split; try reflexivity; lia. }
    rewrite Hit. cbn -[list_slice Nat.ltb]. exists it'. do 3 f_equal.
    destruct (Nat.ltb_spec (isl_stop it) (isl_next it + isl_step it)) as [Hover|_];
      [|reflexivity].
    rewrite !list_slice_done by lia. reflexivity.
Qed.

End Loaded.

Lemma materialized_fresh_loading (fuel : nat) :
  (last < fuel)%nat ->
  exists st',
    ensure_all_pages load_page fuel paged_init = Some st'
    /\ materialized load_page last st'.
Proof using pages_full pages_end.
  intros Hf.
  destruct (ensure_all_pages_loads fuel paged_init Hf) as (st' & H1 & _ & H3).
  - left. reflexivity.
  - intros m. apply lookup_empty.
  - eauto.
Qed.

(** C3, amended. On a fresh paged list, [len], indexing and slicing all
    begin by adding every page to the list: each of them returns, and
    leaves a list that holds all the items, every page having been
    requested. A slice with a positive step is then an [islice] iterator
    over the items at the indices of the slice, and drawing from it
    requests no page. *)
Theorem slicing_loads_all_pages (fuel : nat) :
  (last < fuel)%nat ->
  let items := items_of_pages load_page 0 last in
  (exists st', paged_len load_page fuel paged_init = Some (length items, st')
               /\ materialized load_page last st')
  /\ (forall k, exists r st',
        paged_getitem load_page fuel k paged_init = Some (r, st')
        /\ materialized load_page last st')
  /\ (forall start stop step,
        (1 <= default 1 step)%Z ->
        exists first bound it st',
          slice_indices start stop step (Z.of_nat (length items))
          = Some (Z.of_nat first, Z.of_nat bound, default 1 step)
          /\ paged_getitem load_page fuel (KSlice start stop step) paged_init
             = Some (inr (Slice it), st')
          /\ materialized load_page last st'
          /\ (last <> 0%nat ->
              forall n, exists it',
                islice_drain load_page n fuel it st'
                = Some (list_slice n items first bound (Z.to_nat (default 1 step)),
                        it', st'))).
Proof using pages_full pages_end.
  intros Hf items.
  destruct (materialized_fresh_loading fuel Hf) as (st1 & He & Hm1).
  destruct (paged_len_materialized fuel st1 Hf Hm1) as (st2 & Hl & Hm2 & Hsame).
  split; [|split].
  - exists st1. unfold paged_len. rewrite He. simpl.
    pose proof Hm1 as (_ & Hc & _). rewrite Hc. simpl.
    split; [reflexivity | exact Hm1].
  - intros k. unfold paged_getitem. rewrite He. simpl.
    destruct k as [i|start stop step|].
    + destruct (Z.ltb_spec i 0).
      * rewrite Hl. simpl.
        destruct (Z.ltb_spec (Z.of_nat (length (items_of_pages load_page 0 last)) + i) 0);
          [eauto|].
        destruct (default [] (objects st2) !! _); eauto.
      * destruct (default [] (objects st1) !! _); eauto.
    + rewrite Hl. simpl.
      destruct (slice_indices start stop step _) as [[[a b] c]|]; [|eauto].
      destruct ((a <? 0)%Z || (b <? 0)%Z || (c <? 1)%Z); eauto.
    + eauto.
  - intros start stop step Hstep.
    destruct (slice_indices_forward start stop step (length items) Hstep)
      as (first & bound & Hi & Hfirst & Hbound).
    exists first, bound. unfold paged_getitem. rewrite He. simpl. rewrite Hl. simpl.
    fold items. rewrite Hi.
    destruct (Z.ltb_spec (Z.of_nat first) 0); [lia|].
    destruct (Z.ltb_spec (Z.of_nat bound) 0); [lia|].
    destruct (Z.ltb_spec (default 1 step) 1); [lia|]. simpl.
    eexists _, st2. split; [reflexivity|]. split; [reflexivity|]. split; [exact Hm2|].
    intros Hlast n.
    destruct Hm2 as (Ho & _).
    assert (Hne : items <> []).
    { unfold items, items_of_pages. destruct last as [|l]; [congruence|].
      simpl. intros Hnil. apply app_eq_nil in Hnil as [Hnil _].
      apply (pages_full 0%nat); [lia | exact Hnil]. }
    destruct (islice_drain_loaded st2 items Ho Hne fuel n
                {| isl_pos := Some 0%nat; isl_cnt := 0; isl_next := Z.to_nat (Z.of_nat first);
                   isl_stop := Z.to_nat (Z.of_nat bound);
                   isl_step := Z.to_nat (default 1 step) |}) as [it' Hit].
    { unfold islice_ok. simpl. rewrite !Nat2Z.id. repeat split; lia. }
    simpl in Hit. rewrite !Nat2Z.id in Hit. rewrite !Nat2Z.id. eauto.
Qed.

End PagingFacts.

(** C3 on a sample: a collection in two pages of two items, and the
    length of a fresh list over it. *)
Lemma slicing_loads_all_pages_witness :
  exists st', paged_len Samples.two_pages 3 paged_init = Some (4%nat, st')
              /\ materialized Samples.two_pages 2 st'.
Proof.
  assert (Hfull : forall n, (n < 2)%nat -> Samples.two_pages n <> []).
  { intros [|[|n]] Hn; [discriminate | discriminate | lia]. }
  destruct (slicing_loads_all_pages Samples.two_pages 2 Hfull eq_refl 3 ltac:(lia))
    as [H _].
  exact H.
Defined.

(** C3 as stated fails: on that collection, the slice [[0:1]] needs the
    first page only, and taking it requests the second page and the empty
    third one as well. *)
Lemma slice_fetches_needed_pages_counterexample :
  ~ slice_fetches_needed_pages Samples.two_pages 3 2 0 1 paged_init.
Proof.
  intros H.
  assert (E : exists r st',
             paged_getitem Samples.two_pages 3
               (KSlice (Some 0%Z) (Some 1%Z) None) paged_init = Some (r, st')
             /\ fetched st' = [0; 1; 2]%nat).
  { eexists _, _. split; reflexivity. }
  destruct E as (r & st' & E & F).
  specialize (H r st' E). rewrite F in H.
  inversion H as [|? ? _ H1]. inversion H1 as [|? ? Hp _]. discriminate Hp.
Qed.

Section RoundTripFacts.
Context {L : PyLib}.

(** Induction on values that goes through the items of a list. *)
Lemma value_list_ind (P : value -> Prop) :
  P VNone -> (forall b, P (VBool b)) -> (forall z, P (VInt z)) ->
  (forall s, P (VStr s)) -> (forall d, P (VDecimal d)) -> (forall d, P (VDate d)) ->
  (forall t, P (VDateTime t)) ->
  (forall items, Forall P items -> P (VList items)) ->
  (forall entries, P (VDict entries)) ->
  (forall c attrs, P (VModel c attrs)) ->
  forall v, P v.
Proof.
  intros HN HB HI HS HD HDa HDt HL HDi HM.
  fix IH 1. intros [ | b | z | s | d | d | t | items | entries | c attrs];
    [ apply HN | apply HB | apply HI | apply HS | apply HD | apply HDa | apply HDt
    | | apply HDi | apply HM ].
  apply HL. induction items as [|x items IHitems]; constructor; [apply IH | exact IHitems].
Qed.

(** The name of a list item holds a dot: it is never ['lines']. *)
Lemma item_field_not_lines (field : string) (i : nat) :
  String.eqb (item_field field i) "lines" = false.
Proof.
  apply String.eqb_neq. unfold item_field.
  generalize (str_of_nat i). intros rest.
  destruct field as [|a1 [|a2 [|a3 [|a4 [|a5 [|a6 field]]]]]]; simpl; intros H;
    try discriminate H;
    injection H; intros; subst; discriminate.
Qed.

(** Plain data serializes to itself and leaves everything as it is, save
    under the name ['lines'] on an invoice-like model. *)
Lemma serialize_json (v : value) :
  is_json v = true ->
  forall c st field,
    is_invoice_like c && String.eqb field "lines" = false ->
    serialize_field_value c st field v = Ok (st, v, v).
Proof.
  induction v as [ | b | z | s | d | d | t | items IH | entries | c' attrs]
    using value_list_ind;
    intros Hj c st field Hc; try discriminate Hj;
    try (cbn [serialize_field_value bind]; rewrite Hc; reflexivity).
  cbn [serialize_field_value].
  match goal with
  | |- context [bind (?each items 0%nat st) _] =>
      assert (Hloop : forall i s, each items i s = Ok (s, items, items))
  end.
  { simpl in Hj. clear Hc st.
    induction IH as [|x items Hx _ IHitems]; intros i s; [reflexivity|].
    simpl in Hj. apply andb_true_iff in Hj as [Hjx Hjs].
    rewrite (Hx Hjx).
    - cbn [bind]. rewrite (IHitems Hjs). reflexivity.
    - rewrite item_field_not_lines. apply andb_false_r. }
  rewrite Hloop. cbn [bind]. rewrite Hc. reflexivity.
Qed.

Lemma serialize_simple (v : value) :
  simple v = true ->
  forall c st field,
    is_invoice_like c && String.eqb field "lines" = false ->
    serialize_field_value c st field v = Ok (st, v, serialized v).
Proof.
  intros Hs c st field Hc.
  destruct (is_json v) eqn:Hj.
  - rewrite (serialize_json v Hj c st field Hc).
    destruct v; try reflexivity; discriminate Hj.
  - unfold simple in Hs. rewrite Hj, orb_false_r in Hs.
    destruct v; try discriminate Hs;
      cbn [serialize_field_value bind]; rewrite Hc; reflexivity.
Qed.

(** *** Dictionaries without repeated keys *)

Lemma dict_get_None_keys (k : string) (d : pydict) :
  dict_get k d = None <-> ~ In k (dict_keys d).
Proof.
  induction d as [|[k0 v0] d IH]; simpl; [tauto|].
  destruct (String.eqb_spec k k0) as [->|Hne].
  - split; [discriminate | intros H; exfalso; apply H; left; reflexivity].
  - rewrite IH. split; [intros H [E|E]; [congruence | tauto] | tauto].
Qed.

Lemma dict_get_NoDup_In (k : string) (v : value) (d : pydict) :
  List.NoDup (dict_keys d) -> In (k, v) d -> dict_get k d = Some v.
Proof.
  induction d as [|[k0 v0] d IH]; simpl; intros Hnd Hin; [contradiction|].
  apply NoDup_cons_iff in Hnd as [Hk Hnd].
  destruct Hin as [[= -> ->]|Hin].
  - rewrite String.eqb_refl. reflexivity.
  - destruct (String.eqb_spec k k0) as [->|Hne]; [|apply IH; assumption].
    exfalso. apply Hk. apply (in_map fst) in Hin. exact Hin.
Qed.

Lemma dict_set_id (k : string) (v : value) (d : pydict) :
  dict_get k d = Some v -> dict_set k v d = d.
Proof.
  induction d as [|[k0 v0] d IH]; simpl; [discriminate|].
  destruct (String.eqb k k0); [intros [= ->]; reflexivity|].
  intros H. rewrite IH by exact H. reflexivity.
Qed.

Lemma dict_set_fresh (k : string) (v : value) (d : pydict) :
  dict_get k d = None -> dict_set k v d = d ++ [(k, v)].
Proof.
  induction d as [|[k0 v0] d IH]; simpl; [reflexivity|].
  destruct (String.eqb k k0); [discriminate|].
  intros H. rewrite IH by exact H. reflexivity.
Qed.

Lemma dict_get_app (k : string) (d e : pydict) :
  dict_get k (d ++ e)
  = match dict_get k d with Some v => Some v | None => dict_get k e end.
Proof.
  induction d as [|[k0 v0] d IH]; simpl; [reflexivity|].
  destruct (String.eqb k k0); [reflexivity | exact IH].
Qed.

Lemma dict_pop_absent (k : string) (d : pydict) :
  dict_get k d = None -> dict_pop k d = d.
Proof.
  induction d as [|[k0 v0] d IH]; simpl; [reflexivity|].
  destruct (String.eqb k k0); [discriminate|].
  intros H. rewrite IH by exact H. reflexivity.
Qed.

Lemma dict_update_fresh (e : pydict) :
  forall a,
    List.NoDup (dict_keys e) ->
    (forall k, In k (dict_keys e) -> dict_get k a = None) ->
    dict_update a e = a ++ e.
Proof.
  unfold dict_update.
  induction e as [|[k v] e IH]; simpl; intros a Hnd Hfresh; [symmetry; apply app_nil_r|].
  apply NoDup_cons_iff in Hnd as [Hk Hnd].
  rewrite dict_set_fresh by (apply Hfresh; left; reflexivity).
  rewrite IH; [rewrite <- app_assoc; reflexivity | exact Hnd |].
  intros k' Hk'. rewrite dict_get_app, Hfresh by (right; exact Hk'). simpl.
  destruct (String.eqb_spec k' k) as [->|_]; [contradiction | reflexivity].
Qed.

(** [update] on a dictionary that starts with the key [q]: the value of
    [q] is replaced in place, the other items are added at the end. *)
Lemma dict_update_head (q : string) (e : pydict) :
  forall x acc,
    List.NoDup (dict_keys e) ->
    dict_get q acc = None ->
    (forall k, In k (dict_keys e) -> dict_get k acc = None) ->
    dict_update ((q, x) :: acc) e
    = (q, getattr_default e q x) :: acc ++ dict_pop q e.
Proof.
  unfold dict_update, getattr_default.
  induction e as [|[k v] e IH]; simpl; intros x acc Hnd Hq Hfresh;
    [rewrite app_nil_r; reflexivity|].
  apply NoDup_cons_iff in Hnd as [Hk Hnd].
  rewrite (String.eqb_sym q k).
  destruct (String.eqb_spec k q) as [->|Hne].
  - rewrite IH; [| exact Hnd | exact Hq | intros k' Hk'; apply Hfresh; right; exact Hk'].
    apply dict_get_None_keys in Hk. rewrite Hk, (dict_pop_absent _ _ Hk). reflexivity.
  - rewrite dict_set_fresh by (apply Hfresh; left; reflexivity).
    rewrite IH; [rewrite <- app_assoc; reflexivity | exact Hnd | |].
    + rewrite dict_get_app, Hq. simpl.
      destruct (String.eqb_spec q k) as [->|_]; [congruence | reflexivity].
    + intros k' Hk'. rewrite dict_get_app, Hfresh by (right; exact Hk'). simpl.
      destruct (String.eqb_spec k' k) as [->|_]; [contradiction | reflexivity].
Qed.

(** *** [get_fields] on simple values *)

Lemma serialized_fields_cons (c : model_class) (k : string) (v : value) (attrs : pydict) :
  serialized_fields c ((k, v) :: attrs)
  = if class_writable c k then (k, serialized v) :: serialized_fields c attrs
    else serialized_fields c attrs.
Proof.
  unfold serialized_fields. simpl. destruct (class_writable c k); reflexivity.
Qed.

Lemma get_fields_loop_simple (c : model_class) (self_attrs items : pydict) :
  plain self_attrs = true ->
  forall cur st data,
    snd st = false ->
    Forall (fun kv => simple (snd kv) = true) items ->
    (is_invoice_like c = true -> ~ In "lines" (dict_keys items)) ->
    List.NoDup (dict_keys items) ->
    (forall k v, In (k, v) items -> dict_get k cur = Some v) ->
    (forall k, In k (dict_keys items) -> dict_get k data = None) ->
    get_fields_loop c self_attrs (serialize_field_value c) items cur st data
    = Ok (cur, data ++ serialized_fields c items).
Proof.
  intros Hplain.
  induction items as [|[field v] items IH]; intros cur [lo fl] data Hfl Hs Hl Hnd Hcur Hdata;
    simpl in Hfl; subst fl.
  - simpl. rewrite app_nil_r. reflexivity.
  - rewrite serialized_fields_cons. cbn [get_fields_loop].
    rewrite (plain_writable c self_attrs field Hplain). cbn [bind].
    apply Forall_cons_iff in Hs as [Hv Hs]. simpl in Hv.
    change (dict_keys ((field, v) :: items)) with (field :: dict_keys items) in *.
    apply NoDup_cons_iff in Hnd as [Hk Hnd].
    assert (Hl' : is_invoice_like c = true -> ~ In "lines" (dict_keys items)).
    { intros Hi Hin. apply (Hl Hi). right. exact Hin. }
    assert (Hcur' : forall k v0, In (k, v0) items -> dict_get k cur = Some v0).
    { intros k v0 Hin. apply Hcur. right. exact Hin. }
    destruct (class_writable c field) eqn:W.
    + assert (Hc : is_invoice_like c && String.eqb field "lines" = false).
      { destruct (is_invoice_like c) eqn:Hi; [|reflexivity]. simpl.
        apply String.eqb_neq. intros ->. apply (Hl eq_refl). left. reflexivity. }
      rewrite (plain_bound_method self_attrs "serialize_field_value" Hplain)
        by (simpl; tauto).
      cbn [bind].
      rewrite (serialize_simple v Hv c (lo, false) field Hc). cbn [bind snd].
      rewrite (dict_set_id field v cur) by (apply Hcur; left; reflexivity).
      rewrite (dict_set_fresh field (serialized v) data)
        by (apply Hdata; left; reflexivity).
      rewrite IH; try assumption.
      * rewrite <- app_assoc. reflexivity.
      * destruct (String.eqb field "_loaded_lines"); reflexivity.
      * intros k Hin. rewrite dict_get_app, Hdata by (right; exact Hin). simpl.
        destruct (String.eqb_spec k field) as [->|_]; [contradiction | reflexivity].
    + apply IH; try assumption; [reflexivity|].
      intros k Hin. apply Hdata. right. exact Hin.
Qed.

Lemma get_fields_simple (c : model_class) (attrs : pydict) :
  plain attrs = true ->
  Forall (fun kv => simple (snd kv) = true) attrs ->
  (is_invoice_like c = true -> ~ In "lines" (dict_keys attrs)) ->
  List.NoDup (dict_keys attrs) ->
  get_fields c attrs = Ok (attrs, serialized_fields c attrs).
Proof.
  intros Hplain Hs Hl Hnd. unfold get_fields.
  rewrite (plain_bound_method attrs "get_fields" Hplain) by (simpl; tauto).
  cbn [bind].
  rewrite get_fields_loop_simple; try assumption; try reflexivity.
  intros k v Hin. apply dict_get_NoDup_In; assumption.
Qed.

Lemma dict_get_serialized_fields (c : model_class) (f : string) (attrs : pydict) :
  class_writable c f = true ->
  dict_get f (serialized_fields c attrs)
  = match dict_get f attrs with Some v => Some (serialized v) | None => None end.
Proof.
  intros W.
  induction attrs as [|[k v] attrs IH]; [reflexivity|].
  rewrite serialized_fields_cons. simpl.
  destruct (String.eqb_spec f k) as [->|Hne].
  - rewrite W. simpl. rewrite String.eqb_refl. reflexivity.
  - destruct (class_writable c k); simpl; [|exact IH].
    apply String.eqb_neq in Hne. rewrite Hne. exact IH.
Qed.

(** *** Coercion of plain data, and of what it serializes to *)

Lemma coerce_items_keys (m : meta) :
  forall d d', coerce_items m d = Ok d' -> dict_keys d' = dict_keys d.
Proof.
  induction d as [|[k v] d IH]; simpl; intros d' H.
  - injection H as <-. reflexivity.
  - apply bind_Ok in H as [v' [_ H]]. apply bind_Ok in H as [rest [Hr H]].
    injection H as <-. simpl. f_equal. apply IH, Hr.
Qed.

Lemma json_simple (v : value) : is_json v = true -> simple v = true.
Proof. intros H. unfold simple. rewrite H. apply orb_true_r. Qed.

Lemma json_serialized (v : value) : is_json v = true -> serialized v = v.
Proof. destruct v; try reflexivity; discriminate. Qed.

Section WithLaws.
Context {Laws : PyLibLaws L}.

Lemma coerce_field_settled (c : model_class) (k : string) (v v' : value) :
  is_json v = true -> coerce_field c k v = Ok v' -> settled c k v'.
Proof.
  intros Hj H.
  assert (Hfix : forall w, is_json w = true -> coerce_field c k w = Ok w -> settled c k w).
  { intros w Hw Hc. split; [apply json_simple, Hw|].
    exists w. rewrite (json_serialized w Hw).
    repeat split; [exact Hc | apply json_simple, Hw]. }
  destruct v; try discriminate Hj;
    try (simpl in H; injection H as <-; apply Hfix; [exact Hj | reflexivity]).
  pose proof H as H0. unfold coerce_field in H. cbn [in_Meta_decimal bind] in H.
  destruct (String.eqb s "") eqn:Es; [injection H as <-; apply Hfix; [reflexivity | exact H0]|].
  destruct (endswith k "_at") eqn:Eat.
  { destruct (parse s) as [t|] eqn:Ep; [injection H as <- | discriminate].
    split; [reflexivity|]. cbn [serialized]. unfold coerce_field. rewrite Eat.
    destruct (String.eqb (datetime_isoformat t) "") eqn:Ei.
    - apply String.eqb_eq in Ei. rewrite Ei. eauto.
    - rewrite (parse_isoformat s t Ep). eauto. }
  destruct (endswith k "_on" || endswith k "_due" || endswith k "_date") eqn:Eon.
  { destruct (parse s) as [t|] eqn:Ep; [injection H as <- | discriminate].
    split; [reflexivity|]. cbn [serialized]. unfold coerce_field. rewrite Eat, Eon.
    destruct (String.eqb (date_isoformat (datetime_date t)) "") eqn:Ei.
    - apply String.eqb_eq in Ei. rewrite Ei. eauto.
    - destruct (parse_date_isoformat s t Ep) as [t' [Hp' Hd']].
      rewrite Hp', Hd'. eauto. }
  destruct (str_in k (Meta_decimal c)) eqn:Edec.
  { destruct (Decimal s) as [d|] eqn:Ed; [injection H as <- | discriminate].
    split; [reflexivity|]. cbn [serialized]. unfold coerce_field.
    cbn [in_Meta_decimal bind]. rewrite Eat, Eon, Edec.
    destruct (String.eqb (decimal_str d) "") eqn:Ei.
    - apply String.eqb_eq in Ei. rewrite Ei. eauto.
    - rewrite (Decimal_str s d Ed). eauto. }
  injection H as <-. apply Hfix; [reflexivity | exact H0].
Qed.

Lemma quantity_settled (c : model_class) :
  settled c "quantity" (VDecimal Decimal_one).
Proof.
  split; [reflexivity|]. cbn [serialized]. unfold coerce_field.
  change (endswith "quantity" "_at") with false.
  change (endswith "quantity" "_on" || endswith "quantity" "_due"
          || endswith "quantity" "_date") with false.
  cbv iota. cbn [in_Meta_decimal bind].
  destruct (String.eqb (decimal_str Decimal_one) "") eqn:Ei.
  - apply String.eqb_eq in Ei. rewrite Ei. eauto.
  - destruct (str_in "quantity" (Meta_decimal c)); [|eauto].
    rewrite Decimal_one_str. eauto.
Qed.

Lemma coerce_items_json (c : model_class) :
  forall d d',
    Forall (fun kv => is_json (snd kv) = true) d ->
    coerce_items c d = Ok d' ->
    Forall (fun kv => settled c (fst kv) (snd kv)) d'.
Proof.
  induction d as [|[k v] d IH]; simpl; intros d' Hj H.
  - injection H as <-. constructor.
  - apply Forall_cons_iff in Hj as [Hv Hj].
    apply bind_Ok in H as [v' [Hv' H]]. apply bind_Ok in H as [rest [Hr H]].
    injection H as <-. constructor; [|apply IH; assumption].
    simpl in *. eapply coerce_field_settled; eassumption.
Qed.

End WithLaws.

Lemma coerce_items_settled (c : model_class) :
  forall a,
    Forall (fun kv => settled c (fst kv) (snd kv)) a ->
    exists a2,
      coerce_items c (List.map (fun kv => (fst kv, serialized (snd kv))) a) = Ok a2
      /\ Forall (fun kv => simple (snd kv) = true) a2
      /\ List.map (fun kv => (fst kv, serialized (snd kv))) a2
         = List.map (fun kv => (fst kv, serialized (snd kv))) a.
Proof.
  induction a as [|[k v] a IH]; intros Hs.
  - exists []. repeat split; constructor.
  - apply Forall_cons_iff in Hs as [(_ & v' & Hc & Hsv & He) Hs]. simpl in *.
    destruct (IH Hs) as (a2 & Ha2 & Hs2 & Hm).
    exists ((k, v') :: a2). rewrite Hc, Ha2. simpl.
    repeat split; [constructor; assumption | rewrite He, Hm; reflexivity].
Qed.

(** *** The attributes of a new object *)

Lemma dict_pop_In (q : string) (kv : string * value) (d : pydict) :
  In kv (dict_pop q d) -> In kv d.
Proof.
  induction d as [|[k v] d IH]; simpl; [tauto|].
  destruct (String.eqb q k); simpl; [tauto|]. intros [H|H]; [left; exact H | right; apply IH, H].
Qed.

Lemma dict_pop_keys (q : string) (d : pydict) :
  List.NoDup (dict_keys d) ->
  List.NoDup (dict_keys (dict_pop q d)) /\ ~ In q (dict_keys (dict_pop q d)).
Proof.
  induction d as [|[k v] d IH]; simpl; intros Hnd; [split; [constructor | tauto]|].
  apply NoDup_cons_iff in Hnd as [Hk Hnd].
  destruct (String.eqb_spec q k) as [->|Hne]; [split; assumption|].
  destruct (IH Hnd) as [H1 H2]. simpl. split.
  - constructor; [|exact H1]. intros Hin. apply Hk.
    apply in_map_iff in Hin as [kv [<- Hin]]. apply in_map, (dict_pop_In q), Hin.
  - intros [E|Hin]; [congruence | tauto].
Qed.

Lemma built_Forall (P : string * value -> Prop) (c : model_class) (fields : pydict) :
  Forall P fields ->
  P ("quantity", VDecimal Decimal_one) ->
  (forall v, dict_get "quantity" fields = Some v -> P ("quantity", v)) ->
  Forall P (built c fields).
Proof.
  intros HF Hone Hq. unfold built. destruct (cls_kind c); try exact HF.
  constructor.
  - unfold getattr_default. destruct (dict_get "quantity" fields) eqn:E; [apply Hq; reflexivity | exact Hone].
  - apply List.Forall_forall. intros kv Hin. rewrite List.Forall_forall in HF.
    apply HF, (dict_pop_In "quantity"), Hin.
Qed.

Lemma Forall_dict_get (P : string * value -> Prop) (fields : pydict) (k : string) (v : value) :
  Forall P fields -> dict_get k fields = Some v -> P (k, v).
Proof.
  intros HF Hg. rewrite List.Forall_forall in HF. apply HF, dict_get_In, Hg.
Qed.

Lemma built_keys (c : model_class) (fields : pydict) :
  List.NoDup (dict_keys fields) ->
  (is_invoice_like c = true -> ~ In "lines" (dict_keys fields)) ->
  List.NoDup (dict_keys (built c fields))
  /\ (is_invoice_like c = true -> ~ In "lines" (dict_keys (built c fields))).
Proof.
  intros Hnd Hl. unfold built, is_invoice_like in *.
  destruct (cls_kind c); try (split; assumption).
  destruct (dict_pop_keys "quantity" fields Hnd) as [H1 H2].
  split; [|discriminate]. simpl. constructor; assumption.
Qed.

Lemma dict_get_built (c : model_class) (fields : pydict) (f : string) (v : value) :
  dict_get f fields = Some v -> dict_get f (built c fields) = Some v.
Proof.
  intros H. unfold built. destruct (cls_kind c); try exact H.
  simpl. destruct (String.eqb_spec f "quantity") as [->|Hne].
  - unfold getattr_default. rewrite H. reflexivity.
  - rewrite dict_get_pop_other; assumption.
Qed.

Lemma new_built (c : model_class) (fields : pydict) :
  List.NoDup (dict_keys fields) ->
  (is_invoice_like c = true -> dict_get "lines" fields = None) ->
  dict_mem "self" fields = false ->
  new c fields = let* fields' := coerce_items c fields in Ok (built c fields').
Proof.
  intros Hnd Hl Hself.
  assert (HM : forall attrs0,
    self_Meta c attrs0 = ClassMeta c ->
    (let* (attrs, _) := Model_update c attrs0 fields in Ok attrs)
    = let* fields' := coerce_items c fields in Ok (dict_update attrs0 fields')).
  { intros attrs0 E. unfold Model_update. rewrite E.
    destruct (coerce_items c fields); reflexivity. }
  assert (HU : forall attrs0 fields',
    coerce_items c fields = Ok fields' ->
    attrs0 = [] \/ attrs0 = [("quantity", VDecimal Decimal_one)] ->
    dict_update attrs0 fields'
    = match attrs0 with
      | [] => fields'
      | _ => ("quantity", getattr_default fields' "quantity" (VDecimal Decimal_one))
             :: dict_pop "quantity" fields'
      end).
  { intros attrs0 fields' E Ha.
    assert (Hnd' : List.NoDup (dict_keys fields'))
      by (rewrite (coerce_items_keys c _ _ E); exact Hnd).
    destruct Ha as [-> | ->].
    - rewrite dict_update_fresh; [reflexivity | exact Hnd' | reflexivity].
    - rewrite dict_update_head; [reflexivity | exact Hnd' | reflexivity | reflexivity]. }
  unfold new, keyword_arguments, update, built, is_invoice_like in *.
  rewrite Hself. cbn [bind].
  destruct (cls_kind c); cbn [bound_method dict_mem dict_get String.eqb Ascii.eqb Bool.eqb bind].
  - rewrite HM by reflexivity.
    destruct (coerce_items c fields) as [fields'|e] eqn:E; [|reflexivity].
    simpl. rewrite (HU [] fields' eq_refl) by (left; reflexivity). reflexivity.
  - rewrite HM by reflexivity.
    destruct (coerce_items c fields) as [fields'|e] eqn:E; [|reflexivity].
    simpl. rewrite (HU _ fields' eq_refl) by (right; reflexivity). reflexivity.
  - unfold AbstractInvoice_update. rewrite (Hl eq_refl), HM by reflexivity.
    destruct (coerce_items c fields) as [fields'|e] eqn:E; [|reflexivity].
    simpl. rewrite (HU [] fields' eq_refl) by (left; reflexivity). reflexivity.
Qed.

(** *** The serialized fields, and their second round trip *)

Lemma serialized_fields_In (c : model_class) (attrs : pydict) (k : string) :
  In k (dict_keys (serialized_fields c attrs)) ->
  In k (dict_keys attrs) /\ class_writable c k = true.
Proof.
  induction attrs as [|[k0 v0] attrs IH]; [simpl; tauto|].
  rewrite serialized_fields_cons. destruct (class_writable c k0) eqn:W; simpl.
  - intros [<-|H]; [split; [left; reflexivity | exact W]|].
    destruct (IH H). split; [right|]; assumption.
  - intros H. destruct (IH H). split; [right|]; assumption.
Qed.

Lemma serialized_fields_NoDup (c : model_class) (attrs : pydict) :
  List.NoDup (dict_keys attrs) -> List.NoDup (dict_keys (serialized_fields c attrs)).
Proof.
  induction attrs as [|[k0 v0] attrs IH]; [simpl; constructor|].
  simpl. intros Hnd. apply NoDup_cons_iff in Hnd as [Hk Hnd].
  rewrite serialized_fields_cons. destruct (class_writable c k0); [|apply IH, Hnd].
  simpl. constructor; [|apply IH, Hnd].
  intros Hin. apply Hk. apply (serialized_fields_In c), Hin.
Qed.

Lemma serialized_fields_writable (c : model_class) (attrs : pydict) :
  Forall (fun k => class_writable c k = true) (dict_keys attrs) ->
  serialized_fields c attrs
  = List.map (fun kv => (fst kv, serialized (snd kv))) attrs.
Proof.
  induction attrs as [|[k0 v0] attrs IH]; [reflexivity|].
  simpl. intros H. apply Forall_cons_iff in H as [W H].
  rewrite serialized_fields_cons, W, IH by exact H. reflexivity.
Qed.

Lemma serialized_fields_filter (c : model_class) (attrs : pydict) :
  serialized_fields c attrs
  = List.map (fun kv => (fst kv, serialized (snd kv)))
      (List.filter (fun kv => class_writable c (fst kv)) attrs).
Proof. reflexivity. Qed.

(** *** Names that stay out of a dictionary *)

Lemma dict_mem_false_keys (k : string) (d : pydict) :
  dict_mem k d = false <-> ~ In k (dict_keys d).
Proof.
  rewrite <- dict_get_None_keys. unfold dict_mem.
  destruct (dict_get k d); split; intros H; try reflexivity; discriminate H.
Qed.

Lemma dict_mem_incl (k : string) (d d' : pydict) :
  (In k (dict_keys d') -> In k (dict_keys d)) ->
  dict_mem k d = false -> dict_mem k d' = false.
Proof.
  rewrite !dict_mem_false_keys. intros Hin Hd H. apply Hd, Hin, H.
Qed.

Lemma plain_incl (d d' : pydict) :
  (forall k, In k reserved_names -> In k (dict_keys d') -> In k (dict_keys d)) ->
  plain d = true -> plain d' = true.
Proof.
  intros Hin Hd. unfold plain. apply forallb_forall. intros name Hname.
  apply negb_true_iff. apply (dict_mem_incl name d d' (Hin name Hname)).
  apply plain_not_mem; assumption.
Qed.

Lemma built_keys_In (c : model_class) (fields : pydict) (k : string) :
  In k (dict_keys (built c fields)) -> k = "quantity" \/ In k (dict_keys fields).
Proof.
  unfold built. destruct (cls_kind c); try (intros H; right; exact H).
  simpl. intros [<-|H]; [left; reflexivity|]. right.
  apply in_map_iff in H as [kv [<- H]]. apply in_map, (dict_pop_In "quantity"), H.
Qed.

Lemma plain_built (c : model_class) (fields : pydict) :
  plain fields = true -> plain (built c fields) = true.
Proof.
  apply plain_incl. intros k Hk Hin.
  destruct (built_keys_In c fields k Hin) as [->|H]; [|exact H].
  exfalso. simpl in Hk. intuition discriminate.
Qed.

Lemma plain_serialized_fields (c : model_class) (attrs : pydict) :
  plain attrs = true -> plain (serialized_fields c attrs) = true.
Proof.
  apply plain_incl. intros k _ Hin. apply (serialized_fields_In c), Hin.
Qed.

(** An object comes out of its constructor without an attribute named
    [self]: the keyword arguments cannot have that key. *)
Lemma new_no_self (c : model_class) (fields attrs : pydict) :
  new c fields = Ok attrs -> dict_mem "self" fields = false.
Proof.
  unfold new, keyword_arguments. destruct (dict_mem "self" fields); [discriminate|].
  reflexivity.
Qed.

(** The object built from what [get_fields] returned: it holds simple
    values again, and serializes to the same dictionary. *)
Lemma new_second (c : model_class) (attrs : pydict) :
  List.NoDup (dict_keys attrs) ->
  Forall (fun kv => settled c (fst kv) (snd kv)) attrs ->
  (is_invoice_like c = true -> ~ In "lines" (dict_keys attrs)) ->
  (cls_kind c = LineModel -> exists x rest, attrs = ("quantity", x) :: rest) ->
  plain attrs = true ->
  dict_mem "self" attrs = false ->
  exists attrs2,
    new c (serialized_fields c attrs) = Ok attrs2
    /\ Forall (fun kv => simple (snd kv) = true) attrs2
    /\ List.NoDup (dict_keys attrs2)
    /\ (is_invoice_like c = true -> ~ In "lines" (dict_keys attrs2))
    /\ plain attrs2 = true
    /\ serialized_fields c attrs2 = serialized_fields c attrs.
Proof.
  intros Hnd Hs Hl Hshape Hplain Hself.
  set (g := serialized_fields c attrs).
  assert (Hg_nd : List.NoDup (dict_keys g)) by apply serialized_fields_NoDup, Hnd.
  assert (Hg_in : forall k, In k (dict_keys g) ->
                    In k (dict_keys attrs) /\ class_writable c k = true)
    by apply serialized_fields_In.
  destruct (coerce_items_settled c
              (List.filter (fun kv => class_writable c (fst kv)) attrs))
    as (a2 & Ha2 & Hs2 & Hm).
  { apply List.Forall_forall. intros kv Hin. apply filter_In in Hin as [Hin _].
    rewrite List.Forall_forall in Hs. apply Hs, Hin. }
  rewrite <- serialized_fields_filter in Ha2, Hm. fold g in Ha2, Hm.
  pose proof (coerce_items_keys c _ _ Ha2) as Hk2.
  assert (Hw2 : Forall (fun k => class_writable c k = true) (dict_keys a2)).
  { rewrite Hk2. apply List.Forall_forall. intros k Hin. apply Hg_in, Hin. }
  assert (Hl2 : is_invoice_like c = true -> ~ In "lines" (dict_keys a2)).
  { intros Hi Hin. rewrite Hk2 in Hin. apply (Hl Hi), Hg_in, Hin. }
  assert (Hnd2 : List.NoDup (dict_keys a2)) by (rewrite Hk2; exact Hg_nd).
  assert (Hp2 : plain a2 = true).
  { rewrite (plain_keys g a2 Hk2). apply plain_serialized_fields, Hplain. }
  destruct (built_keys c a2 Hnd2 Hl2) as [Hbn Hbl].
  exists (built c a2). split; [|split; [|split; [|split; [|split]]]].
  - rewrite new_built.
    + rewrite Ha2. reflexivity.
    + exact Hg_nd.
    + intros Hi. apply dict_get_None_keys. intros Hin. apply (Hl Hi), Hg_in, Hin.
    + apply (dict_mem_incl "self" attrs g); [|exact Hself].
      intros Hin. apply Hg_in, Hin.
  - apply built_Forall; [exact Hs2 | reflexivity |].
    intros v Hv. apply (Forall_dict_get _ _ _ _ Hs2 Hv).
  - exact Hbn.
  - exact Hbl.
  - apply plain_built, Hp2.
  - assert (Hb : serialized_fields c (built c a2) = serialized_fields c a2).
    { unfold built. destruct (cls_kind c) eqn:Hkind; try reflexivity.
      destruct (Hshape eq_refl) as (x & rest & ->).
      unfold g in Hk2. rewrite serialized_fields_cons in Hk2.
      destruct (class_writable c "quantity") eqn:W.
      - destruct a2 as [|[k2 x2] r2]; [discriminate Hk2|].
        simpl in Hk2. injection Hk2 as -> _. reflexivity.
      - assert (Hq : dict_get "quantity" a2 = None).
        { apply dict_get_None_keys. rewrite Hk2. intros Hin.
          apply (serialized_fields_In c) in Hin as [_ Hin]. congruence. }
        unfold getattr_default. rewrite Hq, (dict_pop_absent _ _ Hq).
        rewrite serialized_fields_cons, W. reflexivity. }
    rewrite Hb, (serialized_fields_writable c a2 Hw2). exact Hm.
Qed.

Lemma round_trip_second (c : model_class) (attrs : pydict) :
  List.NoDup (dict_keys attrs) ->
  Forall (fun kv => settled c (fst kv) (snd kv)) attrs ->
  (is_invoice_like c = true -> ~ In "lines" (dict_keys attrs)) ->
  (cls_kind c = LineModel -> exists x rest, attrs = ("quantity", x) :: rest) ->
  plain attrs = true ->
  dict_mem "self" attrs = false ->
  round_trip c (serialized_fields c attrs) = Ok (serialized_fields c attrs).
Proof.
  intros Hnd Hs Hl Hshape Hplain Hself.
  destruct (new_second c attrs Hnd Hs Hl Hshape Hplain Hself)
    as (attrs2 & Hnew & Hs2 & Hnd2 & Hl2 & Hp2 & Hsf).
  unfold round_trip. rewrite Hnew. cbn [bind].
  rewrite get_fields_simple by assumption. cbn [bind]. rewrite Hsf. reflexivity.
Qed.
(** *** Every remote line is flagged *)

Lemma flag_removed_all (remotes : list pydict) :
  forall pending outs seen,
    Forall (fun l => exists d, l = VDict d /\ dict_get "id" d = None) pending ->
    Forall (fun r => exists z, dict_get "id" r = Some (VInt z)) remotes ->
    flag_removed (List.map VDict remotes) pending (VList outs) seen
    = Ok (seen ++ List.map flagged remotes, VList (outs ++ List.map flagged remotes)).
Proof.
  induction remotes as [|r remotes IH]; intros pending outs seen Hp Hr; simpl.
  - rewrite !app_nil_r. reflexivity.
  - apply Forall_cons_iff in Hr as [[z Hz] Hr]. rewrite Hz. cbn [bind].
    rewrite (ids_contains_no_id z pending Hp). cbn [bind].
    rewrite IH; [|constructor|exact Hr]. unfold flagged.
    rewrite <- !app_assoc. reflexivity.
Qed.

(** The defect behind C1, in general: whatever the live lines of an
    invoice-like model, as long as they are [InvoiceLine] objects with
    no attribute that hides a method, the serialization of ['lines'] appends every remote line that has a
    server id, flagged, whether a live line has that id or not. *)
Lemma serialize_lines_flags_every_remote
    (c : model_class) (lines remotes : list pydict) (touched : bool) :
  is_invoice_like c = true ->
  Forall (fun la => Forall (fun kv => simple (snd kv) = true) la
                    /\ List.NoDup (dict_keys la)
                    /\ plain la = true) lines ->
  Forall (fun r => exists z, dict_get "id" r = Some (VInt z)) remotes ->
  serialize_field_value c (VList (List.map VDict remotes), touched) "lines"
    (VList (List.map (VModel InvoiceLine) lines))
  = Ok ((VList (List.map flagged remotes), true),
        VList (List.map (VModel InvoiceLine) lines),
        VList (List.map (fun la => VDict (serialized_fields InvoiceLine la)) lines
               ++ List.map flagged remotes)).
Proof.
  intros Hc Hl Hr. cbn [serialize_field_value].
  match goal with
  | |- context [bind (?each (List.map (VModel InvoiceLine) lines) 0%nat ?st) _] =>
      assert (Hloop : forall i s,
                each (List.map (VModel InvoiceLine) lines) i s
                = Ok (s, List.map (VModel InvoiceLine) lines,
                      List.map (fun la => VDict (serialized_fields InvoiceLine la)) lines))
  end.
  { clear Hr. induction Hl as [|la lines (Hs & Hnd & Hp) _ IH]; intros i s; [reflexivity|].
    cbn [List.map]. cbn [serialize_field_value].
    assert (Hgf : get_fields InvoiceLine la = Ok (la, serialized_fields InvoiceLine la))
      by (apply get_fields_simple; (discriminate || assumption)).
    unfold get_fields in Hgf.
    rewrite (plain_bound_method la "get_fields" Hp) in * by (simpl; tauto).
    cbn [bind] in *.
    change (get_fields_loop InvoiceLine la
              (fun st' k x => serialize_field_value InvoiceLine st' k x) la la
              (getattr_default la "_loaded_lines" (VList []), false) [])
      with (get_fields_loop InvoiceLine la (serialize_field_value InvoiceLine) la la
              (getattr_default la "_loaded_lines" (VList []), false) []).
    rewrite Hgf.
    cbn [bind]. rewrite item_field_not_lines, andb_false_r.
    cbn [bind]. rewrite IH. reflexivity. }
  rewrite Hloop. cbn [bind]. rewrite Hc, String.eqb_refl. cbn [andb fst].
  unfold destroy_removed_lines. cbn [py_iter bind].
  rewrite flag_removed_all; [reflexivity | | exact Hr].
  apply List.Forall_forall. intros l Hin.
  apply in_map_iff in Hin as [la [<- Hin]]. eexists. split; [reflexivity|].
  apply dict_get_None_keys. intros Hk.
  apply (serialized_fields_In InvoiceLine) in Hk as [_ Hk]. discriminate Hk.
Qed.

End RoundTripFacts.

(** *** The sample library keeps the laws *)

Lemma textlib_matches_length (pat s : string) :
  TextLib.matches pat s = true -> String.length s = String.length pat.
Proof.
  revert s. induction pat as [|p pat IH]; intros [|a s]; simpl; try discriminate;
    [reflexivity|].
  intros H. apply andb_true_iff in H as [_ H]. f_equal. apply IH, H.
Qed.

Lemma textlib_matches_app (p1 p2 s1 s2 : string) :
  TextLib.matches p1 s1 = true ->
  TextLib.matches (String.append p1 p2) (String.append s1 s2) = TextLib.matches p2 s2.
Proof.
  revert s1. induction p1 as [|p p1 IH]; intros [|a s1]; simpl; try discriminate;
    [reflexivity|].
  intros H. apply andb_true_iff in H as [-> H]. simpl. apply IH, H.
Qed.

Lemma textlib_matches_prefix (p1 p2 s : string) :
  TextLib.matches (String.append p1 p2) s = true ->
  TextLib.matches p1 (String.substring 0 (String.length p1) s) = true.
Proof.
  revert s. induction p1 as [|p p1 IH]; intros s; simpl.
  - destruct s; reflexivity.
  - destruct s as [|a s]; [discriminate|]. simpl.
    intros H. apply andb_true_iff in H as [-> H]. simpl. apply IH, H.
Qed.

Lemma textlib_substring_app (s1 s2 : string) :
  String.substring 0 (String.length s1) (String.append s1 s2) = s1.
Proof.
  induction s1 as [|a s1 IH]; simpl.
  - destruct s2; reflexivity.
  - rewrite IH. reflexivity.
Qed.

Lemma textlib_date_not_datetime (s : string) :
  TextLib.matches TextLib.date_pattern s = true ->
  TextLib.matches TextLib.date_pattern (String.append s "T00:00:00") = false.
Proof.
  intros H. destruct (TextLib.matches _ (String.append s _)) eqn:E; [|reflexivity].
  apply textlib_matches_length in H, E.
  assert (Hl : forall a b, String.length (String.append a b)
                           = (String.length a + String.length b)%nat).
  { induction a as [|x a IH]; intros b; simpl; [reflexivity | rewrite IH; reflexivity]. }
  rewrite Hl, H in E. simpl in E. lia.
Qed.

Lemma textlib_parse_cases (s t : string) :
  TextLib.parse_text s = Some t ->
  (TextLib.matches TextLib.date_pattern s = true /\ t = String.append s "T00:00:00")
  \/ (TextLib.matches TextLib.date_pattern s = false
      /\ TextLib.matches (String.append TextLib.date_pattern TextLib.time_pattern) s = true
      /\ t = s).
Proof.
  unfold TextLib.parse_text.
  destruct (TextLib.matches TextLib.date_pattern s) eqn:E1.
  - intros [= <-]. left. split; reflexivity.
  - destruct (TextLib.matches (String.append TextLib.date_pattern TextLib.time_pattern) s)
      eqn:E2; [|discriminate].
    intros [= <-]. right. repeat split.
Qed.

#[export] Instance textlib_laws : PyLibLaws TextLib.lib.
Proof.
  split; simpl.
  - intros s t H. destruct (textlib_parse_cases s t H) as [[Hm ->]|(Hn & Hm & ->)].
    + unfold TextLib.parse_text.
      rewrite (textlib_date_not_datetime s Hm).
      rewrite (textlib_matches_app _ TextLib.time_pattern s "T00:00:00" Hm).
      reflexivity.
    + exact H.
  - intros s t H.
    assert (Hdate : forall d, TextLib.matches TextLib.date_pattern d = true ->
              String.substring 0 10 (String.append d "T00:00:00") = d).
    { intros d Hd. pose proof (textlib_matches_length _ _ Hd) as Hlen.
      change 10%nat with (String.length TextLib.date_pattern). rewrite <- Hlen.
      apply textlib_substring_app. }
    destruct (textlib_parse_cases s t H) as [[Hm ->]|(Hn & Hm & ->)].
    + exists (String.append s "T00:00:00"). rewrite (Hdate s Hm).
      split; [|reflexivity]. unfold TextLib.parse_text. rewrite Hm. reflexivity.
    + pose proof (textlib_matches_prefix _ _ _ Hm) as Hp.
      change (String.length TextLib.date_pattern) with 10%nat in Hp.
      exists (String.append (String.substring 0 10 s) "T00:00:00").
      split; [unfold TextLib.parse_text; rewrite Hp; reflexivity|].
      apply Hdate, Hp.
  - intros s d H. unfold TextLib.Decimal_text in *.
    destruct (TextLib.is_numeral s) eqn:E; [|discriminate].
    injection H as <-. rewrite E. reflexivity.
  - reflexivity.
Qed.

(** * Further properties of the paged list *)

Section PagedAccess.
Context {A : Type}.
Variable load_page : nat -> list A.

(** X1. [get_page] keeps the pages that hold items, by number: after a
    call that returned a page, the same call returns that page again
    and asks [load_page] for nothing. An empty page is never kept: the
    call fails, leaves the kept pages as they were, and the same call
    asks [load_page] again. *)
Theorem get_page_keeps_nonempty_pages (n : nat) (st : paged) :
  match get_page load_page n st with
  | (Some page, st') =>
      get_page load_page n st' = (Some page, st')
  | (None, st') =>
      load_page n = []
      /\ pages st' = pages st
      /\ fetched st' = fetched st ++ [n]
      /\ exists st'', get_page load_page n st' = (None, st'')
                      /\ fetched st'' = fetched st ++ [n; n]
  end.
Proof.
  unfold get_page. destruct (pages st !! n) as [page|] eqn:Hp.
  - rewrite Hp. reflexivity.
  - destruct (load_page n) as [|a page] eqn:Hl; cbn [pages fetched objects item_count].
    + rewrite Hp. repeat split. eexists. split; [reflexivity|].
      cbn [fetched]. rewrite <- app_assoc. reflexivity.
    + rewrite lookup_insert_eq. reflexivity.
Qed.

(** X2. On an empty collection nothing is ever remembered: each [len]
    returns 0, asks for the first page once more, and leaves a list on
    which the next [len] does the same. *)
Theorem paged_len_empty_collection (fuel : nat) (st : paged) :
  load_page 0%nat = [] ->
  (0 < fuel)%nat ->
  pages st !! 0%nat = None ->
  objects st = None \/ objects st = Some [] ->
  exists st',
    paged_len load_page fuel st = Some (0%nat, st')
    /\ fetched st' = fetched st ++ [0%nat]
    /\ pages st' !! 0%nat = None
    /\ objects st' = Some [].
Proof.
  intros Hl Hf Hp Ho. destruct fuel as [|fuel]; [lia|].
  assert (H : ensure_all_pages load_page (S fuel) st
              = Some {| objects := Some []; pages := pages st;
                        item_count := Some 0%nat;
                        fetched := fetched st ++ [0%nat] |}).
  { unfold ensure_all_pages.
    assert (H : load_all_pages load_page (S fuel) st
                = Some {| objects := Some []; pages := pages st;
                          item_count := Some 0%nat;
                          fetched := fetched st ++ [0%nat] |}).
    { unfold load_all_pages. cbn [load_pages_from]. unfold get_page.
      cbn [pages fetched objects item_count]. rewrite Hp, Hl. reflexivity. }
    destruct Ho as [-> | ->]; exact H. }
  eexists. unfold paged_len. rewrite H. cbn.
  split; [reflexivity|]. repeat split. exact Hp.
Qed.

(** The collection has [last] pages, none of them empty, and nothing
    after them. *)
Variable last : nat.
Hypothesis pages_full : forall n, (n < last)%nat -> load_page n <> [].
Hypothesis pages_end : load_page last = [].

(** X3. Indexing a fresh paged list is indexing the list of all its
    items: [pr[i]] is item [i] for [0 <= i < len], item [len + i] for
    [-len <= i < 0], and an [IndexError] for any other integer. *)
Theorem paged_getitem_index (fuel : nat) (i : Z) :
  (last < fuel)%nat ->
  let items := items_of_pages load_page 0 last in
  let len := Z.of_nat (length items) in
  exists r st',
    paged_getitem load_page fuel (KInt i) paged_init = Some (r, st')
    /\ materialized load_page last st'
    /\ (0 <= i < len ->
        exists a, items !! Z.to_nat i = Some a /\ r = inr (Item a))
    /\ (- len <= i < 0 ->
        exists a, items !! Z.to_nat (len + i) = Some a /\ r = inr (Item a))
    /\ (i < - len \/ len <= i -> r = inl PIndexError).
Proof using pages_full pages_end.
  intros Hf items len.
  destruct (materialized_fresh_loading load_page last pages_full pages_end fuel Hf)
    as (st1 & H1 & Hm1).
  unfold paged_getitem. rewrite H1. cbn [mbind option_bind].
  assert (Hget : forall j : Z, 0 <= j < len -> exists a, items !! Z.to_nat j = Some a).
  { intros j Hj. apply lookup_lt_is_Some_2. subst len. lia. }
  assert (Hnone : forall j : Z, len <= j -> items !! Z.to_nat j = None).
  { intros j Hj. apply lookup_ge_None_2. subst len. lia. }
  destruct (Z.ltb i 0) eqn:Hneg.
  - apply Z.ltb_lt in Hneg.
    destruct (paged_len_materialized load_page last pages_full pages_end fuel st1 Hf Hm1)
      as (st2 & H2 & Hm2 & _).
    rewrite H2. cbn [mbind option_bind].
    pose proof Hm2 as (Ho & _). rewrite Ho. cbn [default id].
    fold items. fold len.
    destruct (Z.ltb (len + i) 0) eqn:Hlow.
    + apply Z.ltb_lt in Hlow. exists (inl PIndexError), st2.
      split; [reflexivity|]. split; [exact Hm2|].
      split; [lia|]. split; [lia|]. reflexivity.
    + apply Z.ltb_ge in Hlow.
      destruct (Hget (len + i)) as [a Ha]; [lia|]. rewrite Ha.
      exists (inr (Item a)), st2.
      split; [reflexivity|]. split; [exact Hm2|].
      split; [lia|]. split; [eauto|]. lia.
  - apply Z.ltb_ge in Hneg.
    pose proof Hm1 as (Ho & _). rewrite Ho. cbn [default id]. fold items.
    destruct (Z.lt_ge_cases i len) as [Hlt|Hge].
    + destruct (Hget i) as [a Ha]; [lia|]. rewrite Ha.
      exists (inr (Item a)), st1.
      split; [reflexivity|]. split; [exact Hm1|].
      split; [eauto|]. split; lia.
    + rewrite (Hnone i Hge). exists (inl PIndexError), st1.
      split; [reflexivity|]. split; [exact Hm1|].
      split; [lia|]. split; [lia|]. reflexivity.
Qed.

End PagedAccess.

Lemma paged_len_empty_collection_witness :
  exists st',
    paged_len (fun _ : nat => @nil nat) 1 paged_init = Some (0%nat, st')
    /\ fetched st' = [0%nat].
Proof.
  destruct (paged_len_empty_collection (fun _ : nat => @nil nat) 1 paged_init)
    as (st' & H1 & H2 & _).
  - reflexivity.
  - lia.
  - apply lookup_empty.
  - left. reflexivity.
  - exists st'. split; [exact H1 | exact H2].
Defined.

Lemma paged_getitem_index_witness :
  exists st',
    paged_getitem Samples.two_pages 3 (KInt (-1)) paged_init
    = Some (inr (Item 4%nat), st').
Proof.
  assert (Hfull : forall n, (n < 2)%nat -> Samples.two_pages n <> []).
  { intros n Hn H. destruct n as [|[|n]]; [discriminate H | discriminate H | lia]. }
  destruct (paged_getitem_index Samples.two_pages 2 Hfull eq_refl 3 (-1))
    as (r & st' & H1 & _ & _ & H2 & _); [lia|].
  destruct H2 as (a & Ha & ->); [simpl; lia|].
  vm_compute in Ha. injection Ha as <-. exists st'. exact H1.
Defined.

(** * Further properties of [update] *)

Section UpdateMore.
Context {L : PyLib}.

Lemma dict_get_update (f : string) (e : pydict) :
  forall a,
    List.NoDup (dict_keys e) ->
    dict_get f (dict_update a e)
    = match dict_get f e with Some v => Some v | None => dict_get f a end.
Proof.
  unfold dict_update.
  induction e as [|[k v] e IH]; intros a Hnd; [reflexivity|].
  change (dict_keys ((k, v) :: e)) with (k :: dict_keys e) in Hnd.
  apply NoDup_cons_iff in Hnd as [Hk Hnd].
  cbn [fold_left fst snd dict_get]. rewrite (IH _ Hnd), dict_get_set.
  destruct (String.eqb_spec f k) as [->|_]; [|reflexivity].
  apply dict_get_None_keys in Hk. rewrite Hk. reflexivity.
Qed.

(** [Model.update]: what an attribute holds afterwards. *)
Lemma Model_update_get (c : model_class) (a d attrs' fields' : pydict) (f : string) :
  List.NoDup (dict_keys d) ->
  Model_update c a d = Ok (attrs', fields') ->
  match dict_get f d with
  | Some v => exists v', coerce_field (self_Meta c a) f v = Ok v'
                         /\ dict_get f attrs' = Some v'
  | None => dict_get f attrs' = dict_get f a
  end.
Proof.
  intros Hnd H. unfold Model_update in H.
  apply bind_Ok in H as [d' [Hd' H]]. injection H as <- <-.
  pose proof (coerce_items_keys _ d d' Hd') as Hk.
  rewrite dict_get_update by (rewrite Hk; exact Hnd).
  destruct (dict_get f d) as [v|] eqn:Hf.
  - destruct (coerce_items_get _ f v d d' Hd' Hf) as [v' [Hv Hg]].
    exists v'. rewrite Hg. split; [exact Hv | reflexivity].
  - apply dict_get_None_keys in Hf. rewrite <- Hk in Hf.
    apply dict_get_None_keys in Hf. rewrite Hf. reflexivity.
Qed.

(** The loop of [AbstractInvoice.update]: one line object per item, in
    order, and the dictionaries that have an ['id'] remembered as they
    came. *)
Lemma build_lines_spec (items : list value) :
  forall lines loaded lines' loaded',
    build_lines items lines loaded = Ok (lines', loaded') ->
    exists objs,
      lines' = lines ++ objs
      /\ Forall2 line_built items objs
      /\ loaded' = loaded ++ List.filter is_remote_line items.
Proof.
  induction items as [|item items IH]; intros lines loaded lines' loaded' H.
  - injection H as <- <-. exists []. rewrite !app_nil_r. repeat split. constructor.
  - cbn [build_lines] in H.
    destruct item as [| | | | | | |xs|entries|c' la];
      cbn [py_contains_str bind] in H; try discriminate H.
    + apply bind_Ok in H as [obj [Hobj H]].
      apply IH in H as (objs & -> & HF & ->).
      exists (obj :: objs). rewrite <- !app_assoc. cbn [app List.filter is_remote_line].
      split; [reflexivity|]. split.
      * constructor; [|exact HF]. right. exists entries. split; [reflexivity | exact Hobj].
      * destruct (dict_mem "id" entries); rewrite <- ?app_assoc; reflexivity.
    + destruct (is_line c') eqn:Hc; [|discriminate H].
      apply IH in H as (objs & -> & HF & ->).
      exists (VModel c' la :: objs). rewrite <- !app_assoc.
      split; [reflexivity|]. split; [|reflexivity].
      constructor; [|exact HF]. left. split; [exact Hc | reflexivity].
Qed.

(** X4. [update] merges: every key of the dictionary becomes an
    attribute holding the value as the loop coerced it, under the [Meta]
    the object had (on an invoice-like object, every key but ['lines']),
    and an attribute the dictionary does not name keeps its value (on an
    invoice-like object given ['lines'], every one but
    [_loaded_lines]). *)
Theorem update_merges_fields
    (c : model_class) (attrs fields attrs' fields' : pydict) :
  List.NoDup (dict_keys fields) ->
  update c attrs fields = Ok (attrs', fields') ->
  (forall f v, dict_get f fields = Some v ->
     (is_invoice_like c = true -> f <> "lines") ->
     exists v', coerce_field (self_Meta c attrs) f v = Ok v'
                /\ dict_get f attrs' = Some v')
  /\ (forall f, dict_get f fields = None ->
        (is_invoice_like c = true -> dict_mem "lines" fields = true ->
         f <> "_loaded_lines") ->
        dict_get f attrs' = dict_get f attrs).
Proof.
  intros Hnd H.
  assert (HM : Model_update c attrs fields = Ok (attrs', fields') ->
               (forall f v, dict_get f fields = Some v ->
                  exists v', coerce_field (self_Meta c attrs) f v = Ok v'
                             /\ dict_get f attrs' = Some v')
               /\ (forall f, dict_get f fields = None ->
                     dict_get f attrs' = dict_get f attrs)).
  { intros HU. split.
    - intros f v Hf. pose proof (Model_update_get c _ _ _ _ f Hnd HU) as G.
      rewrite Hf in G. exact G.
    - intros f Hf. pose proof (Model_update_get c _ _ _ _ f Hnd HU) as G.
      rewrite Hf in G. exact G. }
  unfold update in H. apply bind_Ok in H as [_ [_ H]]. unfold is_invoice_like.
  destruct (cls_kind c);
    try (destruct (HM H) as [G1 G2]; split; [intros f v Hf _; eauto | intros f Hf _; eauto]).
  unfold AbstractInvoice_update in H. unfold dict_mem.
  destruct (dict_get "lines" fields) as [popped|] eqn:Hl;
    [|destruct (HM H) as [G1 G2]; split; [intros f v Hf _; eauto | intros f Hf _; eauto]].
  apply bind_Ok in H as [items [_ H]].
  apply bind_Ok in H as [[lines loaded] [_ H]].
  destruct (dict_pop_keys "lines" fields Hnd) as [Hnd1 _].
  split.
  - intros f v Hf Hne. specialize (Hne eq_refl).
    pose proof (Model_update_get c _ _ _ _ f Hnd1 H) as G.
    rewrite dict_get_pop_other, Hf in G by exact Hne.
    rewrite !self_Meta_set in G by discriminate. exact G.
  - intros f Hf Hne. specialize (Hne eq_refl eq_refl).
    assert (Hfl : f <> "lines") by (intros ->; congruence).
    pose proof (Model_update_get c _ _ _ _ f Hnd1 H) as G.
    rewrite dict_get_pop_other, Hf in G by exact Hfl. rewrite G.
    apply String.eqb_neq in Hne, Hfl.
    rewrite !dict_get_set, Hne, Hfl. reflexivity.
Qed.

(** X5. Given ['lines'], [update] on an invoice-like object replaces the
    lines it held: [lines] becomes one line object per item, in order (a
    line object is kept, a dictionary gives a new one), and
    [_loaded_lines] the dictionaries that have an ['id'], as they came
    and in order; unless the dictionary has a [_loaded_lines] of its
    own, which the merge that follows puts in their place. ['lines'] is
    taken out of the caller's dictionary. *)
Theorem update_replaces_lines
    (c : model_class) (attrs fields attrs' fields' : pydict) (items : list value) :
  is_invoice_like c = true ->
  List.NoDup (dict_keys fields) ->
  dict_get "lines" fields = Some (VList items) ->
  update c attrs fields = Ok (attrs', fields') ->
  exists objs,
    Forall2 line_built items objs
    /\ dict_get "lines" attrs' = Some (VList objs)
    /\ match dict_get "_loaded_lines" fields with
       | None =>
           dict_get "_loaded_lines" attrs'
           = Some (VList (List.filter is_remote_line items))
       | Some given =>
           exists v', coerce_field (self_Meta c attrs) "_loaded_lines" given = Ok v'
                      /\ dict_get "_loaded_lines" attrs' = Some v'
       end
    /\ dict_get "lines" fields' = None.
Proof.
  intros Hc Hnd Hl H. unfold update in H. apply bind_Ok in H as [_ [_ H]].
  unfold is_invoice_like in Hc.
  destruct (cls_kind c); try discriminate Hc.
  unfold AbstractInvoice_update in H. rewrite Hl in H. cbn [py_iter bind] in H.
  apply bind_Ok in H as [[lines loaded] [Hb H]].
  apply build_lines_spec in Hb as (objs & -> & HF & ->).
  destruct (dict_pop_keys "lines" fields Hnd) as [Hnd1 Hno].
  exists objs. split; [exact HF|].
  pose proof (Model_update_get c _ _ _ _ "lines" Hnd1 H) as G1.
  pose proof (Model_update_get c _ _ _ _ "_loaded_lines" Hnd1 H) as G2.
  apply dict_get_None_keys in Hno. rewrite Hno in G1.
  rewrite dict_get_pop_other in G2 by discriminate.
  rewrite !self_Meta_set in G2 by discriminate.
  rewrite G1, !dict_get_set. cbn.
  split; [reflexivity|]. split.
  - destruct (dict_get "_loaded_lines" fields) as [given|]; [exact G2|].
    rewrite G2, !dict_get_set. reflexivity.
  - unfold Model_update in H. apply bind_Ok in H as [d' [Hd' H]]. injection H as _ <-.
    apply dict_get_None_keys. rewrite (coerce_items_keys _ _ _ Hd').
    apply dict_get_None_keys. exact Hno.
Qed.

End UpdateMore.

(** X4 on the sample library: a subject is renamed and given a creation
    time; its [street] stays. *)
Lemma update_merges_fields_witness :
  exists attrs' fields',
    update (L := TextLib.lib) Subject
      [("name", VStr "A"); ("street", VStr "Main")]
      [("name", VStr "B"); ("created_at", VStr "2024-01-02T10:00:00")]
    = Ok (attrs', fields')
    /\ dict_get "street" attrs' = Some (VStr "Main")
    /\ dict_get "name" attrs' = Some (VStr "B").
Proof.
  eexists. eexists. split; [reflexivity|].
  destruct (update_merges_fields (L := TextLib.lib) Subject
              [("name", VStr "A"); ("street", VStr "Main")]
              [("name", VStr "B"); ("created_at", VStr "2024-01-02T10:00:00")]
              _ _ ltac:(repeat constructor; simpl; intuition discriminate) eq_refl)
    as [G1 G2].
  split.
  - rewrite (G2 "street" eq_refl); [reflexivity | discriminate].
  - destruct (G1 "name" (VStr "B") eq_refl) as [v' [Hv Hg]]; [discriminate|].
    injection Hv as <-. exact Hg.
Defined.

(** X5 on the sample library: an invoice is given one line the service
    knows and one it does not. *)
Lemma update_replaces_lines_witness :
  exists attrs' fields' objs,
    update (L := TextLib.lib) Invoice []
      [("lines", VList [VDict [("id", VInt 1); ("name", VStr "a")];
                        VDict [("name", VStr "b")]])]
    = Ok (attrs', fields')
    /\ dict_get "lines" attrs' = Some (VList objs)
    /\ length objs = 2%nat
    /\ dict_get "_loaded_lines" attrs'
       = Some (VList [VDict [("id", VInt 1); ("name", VStr "a")]]).
Proof.
  eexists. eexists.
  destruct (update_replaces_lines (L := TextLib.lib) Invoice []
              [("lines", VList [VDict [("id", VInt 1); ("name", VStr "a")];
                                VDict [("name", VStr "b")]])]
              _ _ _ eq_refl
              ltac:(repeat constructor; simpl; intuition discriminate)
              eq_refl eq_refl)
    as (objs & HF & H1 & H2 & _).
  exists objs. split; [reflexivity|]. split; [exact H1|].
  split; [|exact H2].
  apply Forall2_length in HF. symmetry. exact HF.
Defined.

(** * Further properties of [get_fields] *)

Section InvoiceSerialization.
Context {L : PyLib}.

Lemma dict_set_twice (k : string) (v : value) (d : pydict) :
  dict_set k v (dict_set k v d) = dict_set k v d.
Proof. apply dict_set_id, dict_get_set_same. Qed.

Lemma dict_set_keys (k : string) (v x : value) (d : pydict) :
  dict_get k d = Some x -> dict_keys (dict_set k v d) = dict_keys d.
Proof.
  induction d as [|[k0 v0] d IH]; simpl; [discriminate|].
  destruct (String.eqb k k0); [reflexivity|].
  intros H. simpl. rewrite IH by exact H. reflexivity.
Qed.

Lemma is_json_dict (d : pydict) :
  is_json (VDict d) = forallb (fun kv => is_json (snd kv)) d.
Proof.
  induction d as [|[k v] d IH]; [reflexivity|].
  simpl in *. rewrite IH. reflexivity.
Qed.

Lemma is_json_dict_set (k : string) (v : value) (d : pydict) :
  is_json (VDict d) = true -> is_json v = true ->
  is_json (VDict (dict_set k v d)) = true.
Proof.
  rewrite !is_json_dict. intros Hd Hv.
  induction d as [|[k0 v0] d IH]; simpl in *.
  - rewrite Hv. reflexivity.
  - apply andb_true_iff in Hd as [H0 Hd].
    destruct (String.eqb k k0); simpl.
    + rewrite Hv. exact Hd.
    + rewrite H0. apply IH, Hd.
Qed.

Lemma simple_serialized_json (v : value) :
  simple v = true -> is_json (serialized v) = true.
Proof.
  unfold simple. destruct v; simpl; intros H;
    try reflexivity; try exact H; discriminate H.
Qed.

Lemma serialized_fields_json (c : model_class) (attrs : pydict) :
  Forall (fun kv => simple (snd kv) = true) attrs ->
  is_json (VDict (serialized_fields c attrs)) = true.
Proof.
  intros Hs. rewrite is_json_dict.
  induction Hs as [|[k v] attrs Hv _ IH]; [reflexivity|].
  rewrite serialized_fields_cons. destruct (class_writable c k); [|exact IH].
  simpl in *. rewrite (simple_serialized_json v Hv). exact IH.
Qed.

Lemma fields_with_lines_cons (c : model_class) (out : value) (k : string) (v : value)
    (items : pydict) :
  fields_with_lines c out ((k, v) :: items)
  = if class_writable c k
    then (k, if String.eqb k "lines" then out else serialized v)
         :: fields_with_lines c out items
    else fields_with_lines c out items.
Proof.
  unfold fields_with_lines. simpl. destruct (class_writable c k); reflexivity.
Qed.

Lemma fields_with_lines_plain (c : model_class) (out : value) (items : pydict) :
  ~ In "lines" (dict_keys items) ->
  fields_with_lines c out items = serialized_fields c items.
Proof.
  induction items as [|[k v] items IH]; intros Hl; [reflexivity|].
  rewrite fields_with_lines_cons, serialized_fields_cons.
  rewrite IH by (intros Hin; apply Hl; right; exact Hin).
  destruct (String.eqb_spec k "lines") as [->|_]; [|reflexivity].
  exfalso. apply Hl. left. reflexivity.
Qed.

(** The loop of [get_fields] once the remote lines have been flagged:
    nothing but simple values is left to go through. *)
Lemma get_fields_loop_flagged (c : model_class) (self_attrs items : pydict) :
  plain self_attrs = true ->
  forall cur st data,
    snd st = true ->
    Forall (fun kv => simple (snd kv) = true) items ->
    ~ In "lines" (dict_keys items) ->
    List.NoDup (dict_keys items) ->
    (forall k v, In (k, v) items -> dict_get k cur = Some v) ->
    (forall k, In k (dict_keys items) -> dict_get k data = None) ->
    get_fields_loop c self_attrs (serialize_field_value c) items cur st data
    = Ok (share_loaded st cur, share_loaded st (data ++ serialized_fields c items)).
Proof.
  intros Hplain.
  induction items as [|[field v] items IH]; intros cur [lo fl] data Hfl Hs Hl Hnd Hcur Hdata;
    simpl in Hfl; subst fl.
  - cbn [get_fields_loop]. rewrite app_nil_r. reflexivity.
  - rewrite serialized_fields_cons. cbn [get_fields_loop].
    rewrite (plain_writable c self_attrs field Hplain). cbn [bind].
    apply Forall_cons_iff in Hs as [Hv Hs]. simpl in Hv.
    change (dict_keys ((field, v) :: items)) with (field :: dict_keys items) in *.
    apply NoDup_cons_iff in Hnd as [Hk Hnd].
    assert (Hl' : ~ In "lines" (dict_keys items)) by (intros Hin; apply Hl; right; exact Hin).
    assert (Hcur' : forall k v0, In (k, v0) items -> dict_get k cur = Some v0).
    { intros k v0 Hin. apply Hcur. right. exact Hin. }
    destruct (class_writable c field) eqn:W.
    + assert (Hc : is_invoice_like c && String.eqb field "lines" = false).
      { destruct (String.eqb_spec field "lines") as [->|_]; [|apply andb_false_r].
        exfalso. apply Hl. left. reflexivity. }
      rewrite (plain_bound_method self_attrs "serialize_field_value" Hplain)
        by (simpl; tauto).
      cbn [bind].
      rewrite (serialize_simple v Hv c (lo, true) field Hc). cbn [bind snd negb].
      rewrite andb_false_r.
      rewrite (dict_set_id field v cur) by (apply Hcur; left; reflexivity).
      rewrite (dict_set_fresh field (serialized v) data)
        by (apply Hdata; left; reflexivity).
      rewrite IH; try assumption; try reflexivity.
      * rewrite <- app_assoc. reflexivity.
      * intros k Hin. rewrite dict_get_app, Hdata by (right; exact Hin). simpl.
        destruct (String.eqb_spec k field) as [->|_]; [contradiction | reflexivity].
    + apply IH; try assumption; [reflexivity|].
      intros k Hin. apply Hdata. right. exact Hin.
Qed.

Section WithLines.
Variable c : model_class.
Variable self_attrs : pydict.
Variables lines remotes : list pydict.
Hypothesis invoice_like : is_invoice_like c = true.
Hypothesis self_plain : plain self_attrs = true.
Hypothesis lines_writable : class_writable c "lines" = true.
Hypothesis lines_simple :
  Forall (fun la => Forall (fun kv => simple (snd kv) = true) la
                    /\ List.NoDup (dict_keys la)
                    /\ plain la = true) lines.
Hypothesis remotes_json :
  Forall (fun r => is_json (VDict r) = true
                   /\ exists z, dict_get "id" r = Some (VInt z)) remotes.

Lemma remotes_simple : simple (VList (List.map VDict remotes)) = true.
Proof using remotes_json.
  apply json_simple. cbn [is_json]. apply forallb_forall. intros x Hin.
  apply in_map_iff in Hin as [r [<- Hin]].
  rewrite List.Forall_forall in remotes_json. apply remotes_json, Hin.
Qed.

(** The loop of [get_fields] up to and past ['lines']. *)
Lemma get_fields_loop_lines (items : pydict) :
  forall cur data,
    In "lines" (dict_keys items) ->
    List.NoDup (dict_keys items) ->
    (forall k v, In (k, v) items -> dict_get k cur = Some v) ->
    (forall k, In k (dict_keys items) -> dict_get k data = None) ->
    (forall v, In ("lines", v) items -> v = VList (List.map (VModel InvoiceLine) lines)) ->
    (forall v, In ("_loaded_lines", v) items -> v = VList (List.map VDict remotes)) ->
    (forall k v, In (k, v) items -> k <> "lines" -> k <> "_loaded_lines" ->
       simple v = true) ->
    get_fields_loop c self_attrs (serialize_field_value c) items cur
      (VList (List.map VDict remotes), false) data
    = Ok (share_loaded (VList (List.map flagged remotes), true) cur,
          share_loaded (VList (List.map flagged remotes), true)
            (data ++ fields_with_lines c (VList (List.map serialized_line lines ++ List.map flagged remotes)) items)).
Proof using invoice_like self_plain lines_writable lines_simple remotes_json.
  induction items as [|[field v] items IH];
    intros cur data Hin Hnd Hcur Hdata Hlines Hloaded Hrest; [destruct Hin|].
  change (dict_keys ((field, v) :: items)) with (field :: dict_keys items) in *.
  apply NoDup_cons_iff in Hnd as [Hk Hnd].
  rewrite fields_with_lines_cons. cbn [get_fields_loop].
  rewrite (plain_writable c self_attrs field self_plain). cbn [bind].
  assert (Hcur' : forall k v0, In (k, v0) items -> dict_get k cur = Some v0).
  { intros k v0 H. apply Hcur. right. exact H. }
  assert (Hsimple : forall k v0, In (k, v0) items -> k <> "lines" -> simple v0 = true).
  { intros k v0 H Hne. destruct (String.eqb_spec k "_loaded_lines") as [->|Hne'].
    - rewrite (Hloaded v0) by (right; exact H). apply remotes_simple.
    - apply (Hrest k v0); [right; exact H | exact Hne | exact Hne']. }
  destruct (String.eqb_spec field "lines") as [->|Hne].
  - rewrite lines_writable.
    rewrite (plain_bound_method self_attrs "serialize_field_value" self_plain)
      by (simpl; tauto).
    cbn [bind].
    rewrite (Hlines v) by (left; reflexivity).
    rewrite (serialize_lines_flags_every_remote c lines remotes false invoice_like
               lines_simple).
    2: { eapply List.Forall_impl; [|exact remotes_json]. intros r [_ H]. exact H. }
    cbn [bind snd negb String.eqb Ascii.eqb Bool.eqb andb].
    rewrite (dict_set_id "lines" _ cur)
      by (rewrite <- (Hlines v) by (left; reflexivity); apply Hcur; left; reflexivity).
    rewrite (dict_set_fresh "lines" _ data) by (apply Hdata; left; reflexivity).
    rewrite get_fields_loop_flagged; try assumption; try reflexivity.
    + rewrite <- app_assoc, (fields_with_lines_plain c (VList (List.map serialized_line lines ++ List.map flagged remotes)) items Hk). reflexivity.
    + apply List.Forall_forall. intros [k v0] H. simpl. apply (Hsimple k v0 H).
      intros ->. apply Hk. apply (in_map fst) in H. exact H.
    + intros k H. rewrite dict_get_app, Hdata by (right; exact H). simpl.
      destruct (String.eqb_spec k "lines") as [->|_]; [contradiction | reflexivity].
  - destruct Hin as [E|Hin]; [congruence|].
    assert (IH' : forall data',
              (forall k, In k (dict_keys items) -> dict_get k data' = None) ->
              get_fields_loop c self_attrs (serialize_field_value c) items cur
                (VList (List.map VDict remotes), false) data'
              = Ok (share_loaded (VList (List.map flagged remotes), true) cur,
                    share_loaded (VList (List.map flagged remotes), true)
                      (data' ++ fields_with_lines c (VList (List.map serialized_line lines ++ List.map flagged remotes)) items))).
    { intros data' Hd. apply IH; try assumption.
      - intros v0 H. apply Hlines. right. exact H.
      - intros v0 H. apply Hloaded. right. exact H.
      - intros k v0 H. apply Hrest. right. exact H. }
    destruct (class_writable c field) eqn:W.
    + assert (Hv : simple v = true).
      { destruct (String.eqb_spec field "_loaded_lines") as [->|Hne'].
        - rewrite (Hloaded v) by (left; reflexivity). apply remotes_simple.
        - apply (Hrest field v); [left; reflexivity | exact Hne | exact Hne']. }
      assert (Hc : is_invoice_like c && String.eqb field "lines" = false).
      { apply String.eqb_neq in Hne. rewrite Hne. apply andb_false_r. }
      rewrite (plain_bound_method self_attrs "serialize_field_value" self_plain)
        by (simpl; tauto).
      cbn [bind].
      rewrite (serialize_simple v Hv c _ field Hc). cbn [bind snd negb].
      rewrite andb_true_r.
      rewrite (dict_set_id field v cur) by (apply Hcur; left; reflexivity).
      rewrite (dict_set_fresh field (serialized v) data)
        by (apply Hdata; left; reflexivity).
      assert (Hst : (if String.eqb field "_loaded_lines"
                     then (v, false)
                     else (VList (List.map VDict remotes), false))
                    = (VList (List.map VDict remotes), false)).
      { destruct (String.eqb_spec field "_loaded_lines") as [->|_]; [|reflexivity].
        rewrite (Hloaded v) by (left; reflexivity). reflexivity. }
      rewrite Hst, IH'.
      * rewrite <- app_assoc. reflexivity.
      * intros k H. rewrite dict_get_app, Hdata by (right; exact H). simpl.
        destruct (String.eqb_spec k field) as [->|_]; [contradiction | reflexivity].
    + apply IH'. intros k H. apply Hdata. right. exact H.
Qed.

(** Sharing the flagged lines with the result: where the result has
    [_loaded_lines], it shows them flagged. *)
Lemma share_loaded_fields (items : pydict) :
  List.NoDup (dict_keys items) ->
  share_loaded (VList (List.map flagged remotes), true)
    (fields_with_lines c (VList (List.map serialized_line lines ++ List.map flagged remotes)) items)
  = serialized_invoice c items lines remotes.
Proof.
  intros Hnd. unfold share_loaded. cbn [fst snd andb].
  assert (Hplain : forall l : pydict,
            ~ In "_loaded_lines" (dict_keys l) ->
            dict_mem "_loaded_lines" (fields_with_lines c (VList (List.map serialized_line lines ++ List.map flagged remotes)) l) = false
            /\ fields_with_lines c (VList (List.map serialized_line lines ++ List.map flagged remotes)) l = serialized_invoice c l lines remotes).
  { induction l as [|[k v] l IHl]; intros Hno; [split; reflexivity|].
    destruct IHl as [H1 H2]; [intros H; apply Hno; right; exact H|].
    rewrite fields_with_lines_cons. unfold serialized_invoice. cbn [List.filter fst snd].
    destruct (class_writable c k); [|split; [exact H1 | exact H2]].
    cbn [List.map fst snd]. unfold dict_mem in *. cbn [dict_get].
    destruct (String.eqb_spec "_loaded_lines" k) as [<-|Hne];
      [exfalso; apply Hno; left; reflexivity|].
    split; [exact H1|]. rewrite H2.
    destruct (String.eqb_spec k "_loaded_lines") as [->|_]; [congruence | reflexivity]. }
  induction items as [|[k v] items IH]; [reflexivity|].
  change (dict_keys ((k, v) :: items)) with (k :: dict_keys items) in Hnd.
  apply NoDup_cons_iff in Hnd as [Hk Hnd]. specialize (IH Hnd).
  rewrite fields_with_lines_cons. unfold serialized_invoice. cbn [List.filter fst snd].
  destruct (class_writable c k); [|exact IH].
  cbn [List.map fst snd]. unfold dict_mem in *. cbn [dict_get dict_set].
  destruct (String.eqb_spec "_loaded_lines" k) as [<-|Hne].
  - cbn. destruct (Hplain items Hk) as [_ ->]. reflexivity.
  - destruct (String.eqb_spec k "_loaded_lines") as [->|_]; [congruence|].
    destruct (dict_get "_loaded_lines" (fields_with_lines c (VList (List.map serialized_line lines ++ List.map flagged remotes)) items));
      fold (serialized_invoice c items lines remotes); rewrite IH; reflexivity.
Qed.

End WithLines.

End InvoiceSerialization.

Section InvoiceFields.
Context {L : PyLib}.

Lemma flagged_twice (r : pydict) :
  flagged (dict_set "_destroy" (VBool true) r) = flagged r.
Proof. unfold flagged. rewrite dict_set_twice. reflexivity. Qed.

Lemma serialized_invoice_loaded (c : model_class) (x : value) (lines remotes : list pydict) :
  forall attrs,
    serialized_invoice c (dict_set "_loaded_lines" x attrs) lines remotes
    = if dict_mem "_loaded_lines" attrs
      then serialized_invoice c attrs lines remotes
      else serialized_invoice c (attrs ++ [("_loaded_lines", x)]) lines remotes.
Proof.
  unfold dict_mem.
  induction attrs as [|[k v] attrs IH]; [reflexivity|].
  cbn [dict_set dict_get].
  destruct (String.eqb_spec "_loaded_lines" k) as [<-|Hne].
  - unfold serialized_invoice. cbn [List.filter fst snd].
    destruct (class_writable c "_loaded_lines"); reflexivity.
  - unfold serialized_invoice in *. cbn [List.filter fst snd app].
    destruct (class_writable c k); cbn [List.map]; rewrite IH;
      destruct (dict_get "_loaded_lines" attrs); reflexivity.
Qed.

(** [get_fields] on an object that holds lines, in closed form. *)
Lemma get_fields_with_lines
    (c : model_class) (attrs : pydict) (lines remotes : list pydict) :
  is_invoice_like c = true ->
  class_writable c "lines" = true ->
  holds_lines attrs lines remotes ->
  get_fields c attrs
  = Ok (dict_set "_loaded_lines" (VList (List.map flagged remotes)) attrs,
        serialized_invoice c attrs lines remotes).
Proof.
  intros Hc Hw (Hnd & Hp & Hl & Hlo & Hrest & Hls & Hrs).
  unfold get_fields, getattr_default. rewrite Hlo.
  rewrite (plain_bound_method attrs "get_fields" Hp) by (simpl; tauto).
  cbn [bind].
  rewrite (get_fields_loop_lines c attrs lines remotes Hc Hp Hw Hls Hrs).
  - cbn [app]. rewrite (share_loaded_fields c lines remotes attrs Hnd).
    unfold share_loaded, dict_mem. cbn [fst snd andb]. rewrite Hlo. reflexivity.
  - apply dict_get_In, (in_map fst) in Hl. exact Hl.
  - exact Hnd.
  - intros k v H. apply dict_get_NoDup_In; assumption.
  - intros k _. reflexivity.
  - intros v H. apply (dict_get_NoDup_In _ _ _ Hnd) in H. congruence.
  - intros v H. apply (dict_get_NoDup_In _ _ _ Hnd) in H. congruence.
  - intros k v H. apply Hrest. apply dict_get_NoDup_In; assumption.
Qed.

(** X6. [get_fields] on an invoice-like object that holds line objects
    returns its writable attributes, serialized and in order, with
    ['lines'] holding the serialized line objects followed by every
    remote line the object remembers, flagged with [_destroy]. The
    object keeps its attributes, its remembered lines now flagged.
    Neither the object nor a line has an attribute named [Meta] or like
    a method that [get_fields] calls. *)
Theorem get_fields_flags_remembered_lines
    (c : model_class) (attrs : pydict) (lines remotes : list pydict) :
  is_invoice_like c = true ->
  class_writable c "lines" = true ->
  holds_lines attrs lines remotes ->
  exists attrs' data,
    get_fields c attrs = Ok (attrs', data)
    /\ attrs' = dict_set "_loaded_lines" (VList (List.map flagged remotes)) attrs
    /\ data = serialized_invoice c attrs lines remotes
    /\ dict_get "lines" data
       = Some (VList (List.map serialized_line lines ++ List.map flagged remotes)).
Proof.
  intros Hc Hw H. rewrite (get_fields_with_lines c attrs lines remotes Hc Hw H).
  eexists. eexists. repeat split.
  destruct H as (_ & _ & Hl & _). clear -Hl Hw.
  induction attrs as [|[k v] attrs IH]; [discriminate Hl|].
  unfold serialized_invoice in *. cbn [List.filter fst snd]. cbn [dict_get] in Hl.
  destruct (String.eqb_spec "lines" k) as [<-|Hne].
  - rewrite Hw. cbn. reflexivity.
  - destruct (class_writable c k); [|apply IH, Hl].
    cbn [List.map fst snd dict_get].
    destruct (String.eqb_spec "lines" k) as [E|_]; [congruence|]. apply IH, Hl.
Qed.

(** The object [get_fields] leaves holds the same lines and remembers
    the flagged ones. *)
Lemma holds_lines_flagged (attrs : pydict) (lines remotes : list pydict) :
  holds_lines attrs lines remotes ->
  holds_lines (dict_set "_loaded_lines" (VList (List.map flagged remotes)) attrs)
    lines (List.map (dict_set "_destroy" (VBool true)) remotes).
Proof.
  intros (Hnd & Hp & Hl & Hlo & Hrest & Hls & Hrs). unfold holds_lines.
  rewrite (plain_keys attrs _ (dict_set_keys _ _ _ _ Hlo)).
  rewrite (dict_set_keys _ _ _ _ Hlo), !dict_get_set. cbn.
  repeat split; try assumption.
  - rewrite List.map_map. reflexivity.
  - intros k v H Hk1 Hk2. rewrite dict_get_set in H.
    apply String.eqb_neq in Hk2. rewrite Hk2 in H.
    apply (Hrest k v H Hk1). apply String.eqb_neq, Hk2.
  - apply List.Forall_forall. intros r' Hin.
    apply in_map_iff in Hin as [r [<- Hin]].
    rewrite List.Forall_forall in Hrs. destruct (Hrs r Hin) as [Hj [z Hz]].
    split; [apply is_json_dict_set; [exact Hj | reflexivity]|].
    exists z. rewrite dict_get_set. exact Hz.
Qed.

(** X7. Serializing such an object again changes nothing more: the
    second [get_fields] returns the same dictionary as the first and
    leaves the object as the first left it. *)
Theorem get_fields_twice_same
    (c : model_class) (attrs : pydict) (lines remotes : list pydict) :
  is_invoice_like c = true ->
  class_writable c "lines" = true ->
  holds_lines attrs lines remotes ->
  exists attrs' data,
    get_fields c attrs = Ok (attrs', data)
    /\ get_fields c attrs' = Ok (attrs', data).
Proof.
  intros Hc Hw H.
  rewrite (get_fields_with_lines c attrs lines remotes Hc Hw H).
  eexists. eexists. split; [reflexivity|].
  rewrite (get_fields_with_lines c _ _ _ Hc Hw
             (holds_lines_flagged _ _ _ H)).
  assert (Hf : List.map flagged (List.map (dict_set "_destroy" (VBool true)) remotes)
               = List.map flagged remotes).
  { rewrite List.map_map. apply List.map_ext. intros r. apply flagged_twice. }
  destruct H as (_ & _ & _ & Hlo & _).
  unfold serialized_invoice at 1. rewrite Hf.
  fold (serialized_invoice c
          (dict_set "_loaded_lines" (VList (List.map flagged remotes)) attrs)
          lines remotes).
  rewrite dict_set_twice, serialized_invoice_loaded. unfold dict_mem. rewrite Hlo.
  reflexivity.
Qed.

Lemma coerce_field_simple (c : model_class) (k : string) (v v' : value) :
  is_json v = true -> coerce_field c k v = Ok v' -> simple v' = true.
Proof.
  intros Hj H.
  destruct v; try discriminate Hj;
    try (simpl in H; injection H as <-; apply json_simple, Hj).
  unfold coerce_field in H. cbn [in_Meta_decimal bind] in H.
  repeat match type of H with
         | (if ?b then _ else _) = _ => destruct b
         | match ?o with Some _ => _ | None => _ end = _ => destruct o
         end;
    try discriminate H; injection H as <-; reflexivity.
Qed.

Lemma coerce_items_simple (c : model_class) :
  forall d d',
    Forall (fun kv => is_json (snd kv) = true) d ->
    coerce_items c d = Ok d' ->
    Forall (fun kv => simple (snd kv) = true) d'.
Proof.
  induction d as [|[k v] d IH]; simpl; intros d' Hj H.
  - injection H as <-. constructor.
  - apply Forall_cons_iff in Hj as [Hv Hj].
    apply bind_Ok in H as [v' [Hv' H]]. apply bind_Ok in H as [rest [Hr H]].
    injection H as <-. constructor; [|apply IH; assumption].
    simpl in *. eapply coerce_field_simple; eassumption.
Qed.

(** X8. An object built from a dictionary of plain data serializes to
    plain data: [get_fields] returns, leaves the object as it was, and
    [json.dumps] accepts the result. The dictionary has no ['lines'] on
    an invoice-like model, and no key named [Meta] or like a method that
    [get_fields] calls. *)
Theorem new_object_serializes_to_json
    (c : model_class) (fields attrs : pydict) :
  List.NoDup (dict_keys fields) ->
  Forall (fun kv => is_json (snd kv) = true) fields ->
  (is_invoice_like c = true -> dict_get "lines" fields = None) ->
  plain fields = true ->
  new c fields = Ok attrs ->
  exists data,
    get_fields c attrs = Ok (attrs, data)
    /\ json_dumps (VDict data) = Ok (VDict data).
Proof.
  intros Hnd Hj Hl Hp Hnew.
  rewrite new_built in Hnew by (assumption || exact (new_no_self _ _ _ Hnew)).
  destruct (coerce_items c fields) as [fields'|e] eqn:E; [|discriminate Hnew].
  injection Hnew as <-.
  pose proof (coerce_items_keys c _ _ E) as Hk.
  pose proof (coerce_items_simple c _ _ Hj E) as Hs.
  assert (Hnd' : List.NoDup (dict_keys fields')) by (rewrite Hk; exact Hnd).
  assert (Hl' : is_invoice_like c = true -> ~ In "lines" (dict_keys fields')).
  { intros Hi. rewrite Hk. apply dict_get_None_keys, Hl, Hi. }
  destruct (built_keys c fields' Hnd' Hl') as [Hbn Hbl].
  assert (Hbs : Forall (fun kv => simple (snd kv) = true) (built c fields')).
  { apply built_Forall; [exact Hs | reflexivity |].
    intros v Hv. apply (Forall_dict_get _ _ _ _ Hs Hv). }
  assert (Hbp : plain (built c fields') = true).
  { apply plain_built. rewrite (plain_keys fields fields' Hk). exact Hp. }
  exists (serialized_fields c (built c fields')).
  rewrite get_fields_simple by assumption. split; [reflexivity|].
  unfold json_dumps. rewrite serialized_fields_json by exact Hbs. reflexivity.
Qed.

End InvoiceFields.

Lemma sample_invoice_holds_lines :
  holds_lines InvoiceSamples.invoice [InvoiceSamples.line] [InvoiceSamples.remote].
Proof.
  unfold holds_lines. split; [repeat constructor; simpl; intuition discriminate|].
  split; [reflexivity|]. split; [reflexivity|]. split; [reflexivity|]. split; [|split].
  - intros k v H H1 H2. unfold InvoiceSamples.invoice in H. cbn [dict_get] in H.
    destruct (String.eqb_spec k "lines"); [contradiction|].
    destruct (String.eqb_spec k "_loaded_lines"); [contradiction|].
    destruct (String.eqb_spec k "number"); [injection H as <-; reflexivity|].
    discriminate H.
  - repeat constructor; simpl; intuition discriminate.
  - repeat constructor. exists 1. reflexivity.
Qed.

(** X6 on the sample invoice: its only line, unchanged since it was
    loaded, is sent once as it is and once flagged. *)
Lemma get_fields_flags_remembered_lines_witness :
  exists attrs' data,
    get_fields Invoice InvoiceSamples.invoice = Ok (attrs', data)
    /\ dict_get "lines" data
       = Some (VList [VDict [("quantity", VStr "1"); ("name", VStr "a")];
                      VDict [("id", VInt 1); ("name", VStr "a");
                             ("_destroy", VBool true)]]).
Proof.
  destruct (get_fields_flags_remembered_lines (L := TextLib.lib) Invoice
              InvoiceSamples.invoice [InvoiceSamples.line] [InvoiceSamples.remote]
              eq_refl eq_refl sample_invoice_holds_lines)
    as (attrs' & data & H1 & _ & _ & H4).
  exists attrs', data. split; [exact H1 | exact H4].
Defined.

Lemma get_fields_twice_same_witness :
  exists attrs' data,
    get_fields Invoice InvoiceSamples.invoice = Ok (attrs', data)
    /\ get_fields Invoice attrs' = Ok (attrs', data).
Proof.
  exact (get_fields_twice_same (L := TextLib.lib) Invoice
           InvoiceSamples.invoice [InvoiceSamples.line] [InvoiceSamples.remote]
           eq_refl eq_refl sample_invoice_holds_lines).
Defined.

Lemma new_object_serializes_to_json_witness :
  exists data,
    get_fields Invoice
      [("number", VStr "2024-0001");
       ("issued_on", @VDate TextLib.lib "2024-01-02")]
    = Ok ([("number", VStr "2024-0001");
           ("issued_on", @VDate TextLib.lib "2024-01-02")], data)
    /\ json_dumps (VDict data) = Ok (VDict data).
Proof.
  apply (new_object_serializes_to_json (L := TextLib.lib) Invoice
           [("number", VStr "2024-0001"); ("issued_on", VStr "2024-01-02")]).
  - repeat constructor; simpl; intuition discriminate.
  - repeat constructor.
  - reflexivity.
  - reflexivity.
  - reflexivity.
Defined.
(** * The round trip of an invoice with its lines *)

Section RoundTripLines.
Context {L : PyLib}.

(** [update] on a dictionary that starts with the key [q]: the value of
    [q] is replaced in place, and the rest is updated with the other
    items. *)
Lemma dict_update_cons (q : string) (e : pydict) :
  forall x acc,
    List.NoDup (dict_keys e) ->
    dict_get q acc = None ->
    dict_update ((q, x) :: acc) e
    = (q, getattr_default e q x) :: dict_update acc (dict_pop q e).
Proof.
  unfold dict_update, getattr_default.
  induction e as [|[k v] e IH]; intros x acc Hnd Hq; [reflexivity|].
  change (dict_keys ((k, v) :: e)) with (k :: dict_keys e) in Hnd.
  apply NoDup_cons_iff in Hnd as [Hk Hnd].
  cbn [fold_left fst snd dict_set dict_get dict_pop].
  rewrite (String.eqb_sym q k).
  destruct (String.eqb_spec k q) as [->|Hne].
  - rewrite IH by assumption.
    apply dict_get_None_keys in Hk. rewrite Hk, (dict_pop_absent _ _ Hk). reflexivity.
  - rewrite IH; [reflexivity | exact Hnd |].
    rewrite dict_get_set. apply not_eq_sym, String.eqb_neq in Hne. rewrite Hne. exact Hq.
Qed.

(** The constructor of [InvoiceLine], as [new] has it. *)
Lemma InvoiceLine_new_new (d : pydict) :
  InvoiceLine_new d = let* la := new InvoiceLine d in Ok (VModel InvoiceLine la).
Proof.
  unfold InvoiceLine_new, new, update.
  destruct (keyword_arguments d); [|reflexivity]. cbn [bind cls_kind InvoiceLine].
  cbn [bound_method dict_mem dict_get String.eqb Ascii.eqb Bool.eqb bind].
  destruct (Model_update _ _ d) as [[a0 f0]|e0]; reflexivity.
Qed.

(** The loop of [AbstractInvoice.update] on dictionaries: one new line
    object each, and those that have an ['id'] remembered. *)
Lemma build_lines_dicts (ds : list pydict) :
  forall las acc lo,
    Forall2 (fun d la => new InvoiceLine d = Ok la) ds las ->
    build_lines (List.map VDict ds) acc lo
    = Ok (acc ++ List.map (VModel InvoiceLine) las,
          lo ++ List.filter is_remote_line (List.map VDict ds)).
Proof.
  induction ds as [|d ds IH]; intros las acc lo HF.
  - inversion HF; subst. simpl. rewrite !app_nil_r. reflexivity.
  - inversion HF as [|d0 la ds0 las0 Hnew HF']; subst.
    cbn [List.map build_lines py_contains_str bind List.filter is_remote_line].
    rewrite InvoiceLine_new_new, Hnew. cbn [bind].
    rewrite (IH las0 _ _ HF'), <- app_assoc.
    destruct (dict_mem "id" d); rewrite <- ?app_assoc; reflexivity.
Qed.

Lemma no_remote_lines (ds : list pydict) :
  Forall (fun d => dict_get "id" d = None) ds ->
  List.filter is_remote_line (List.map VDict ds) = [].
Proof.
  induction 1 as [|d ds Hd _ IH]; [reflexivity|].
  cbn [List.map List.filter is_remote_line]. unfold dict_mem. rewrite Hd. exact IH.
Qed.

Lemma all_remote_lines (ds : list pydict) :
  Forall (fun d => exists z, dict_get "id" d = Some (VInt z)) ds ->
  List.filter is_remote_line (List.map VDict ds) = List.map VDict ds.
Proof.
  induction 1 as [|d ds [z Hz] _ IH]; [reflexivity|].
  cbn [List.map List.filter is_remote_line]. unfold dict_mem. rewrite Hz, IH.
  reflexivity.
Qed.

Lemma build_lines_dicts_built (ds : list pydict) :
  forall acc lo lines loaded,
    build_lines (List.map VDict ds) acc lo = Ok (lines, loaded) ->
    exists las, Forall2 (fun d la => new InvoiceLine d = Ok la) ds las.
Proof.
  induction ds as [|d ds IH]; intros acc lo lines loaded H.
  - exists []. constructor.
  - cbn [List.map build_lines py_contains_str bind] in H.
    apply bind_Ok in H as [obj [Hobj H]].
    rewrite InvoiceLine_new_new in Hobj. apply bind_Ok in Hobj as [la [Hla _]].
    apply IH in H as [las HF]. exists (la :: las). constructor; assumption.
Qed.

(** What the coerced dictionary has under a key, from what the
    dictionary had. *)
Lemma coerce_items_get_None (m : meta) (f : string) (d d' : pydict) :
  coerce_items m d = Ok d' -> dict_get f d = None -> dict_get f d' = None.
Proof.
  intros H Hf. apply dict_get_None_keys. rewrite (coerce_items_keys m d d' H).
  apply dict_get_None_keys, Hf.
Qed.

(** The constructor of an invoice-like model on a dictionary whose
    ['lines'] are dictionaries, in closed form: the lines come first,
    then the remembered ones, which a [_loaded_lines] of the dictionary
    replaces, then the other fields. *)
Lemma new_with_dict_lines (c : model_class) (fields : pydict)
    (ds las : list pydict) :
  is_invoice_like c = true ->
  List.NoDup (dict_keys fields) ->
  dict_mem "self" fields = false ->
  dict_get "lines" fields = Some (VList (List.map VDict ds)) ->
  Forall2 (fun d la => new InvoiceLine d = Ok la) ds las ->
  new c fields
  = let* f1 := coerce_items c (dict_pop "lines" fields) in
    Ok (("lines", VList (List.map (VModel InvoiceLine) las))
        :: ("_loaded_lines",
            getattr_default f1 "_loaded_lines"
              (VList (List.filter is_remote_line (List.map VDict ds))))
        :: dict_pop "_loaded_lines" f1).
Proof.
  intros Hc Hnd Hself Hl HF.
  unfold new, keyword_arguments, update. rewrite Hself. cbn [bind].
  unfold is_invoice_like in Hc. destruct (cls_kind c); try discriminate Hc.
  cbn [bound_method dict_mem dict_get bind].
  unfold AbstractInvoice_update. rewrite Hl. cbn [py_iter bind].
  rewrite (build_lines_dicts ds las [] [] HF). cbn [bind app].
  unfold Model_update.
  change (self_Meta c _) with (ClassMeta c).
  destruct (dict_pop_keys "lines" fields Hnd) as [Hnd1 Hno1].
  destruct (coerce_items c (dict_pop "lines" fields)) as [f1|e] eqn:E; [|reflexivity].
  cbn [bind]. f_equal.
  pose proof (coerce_items_keys c _ _ E) as Hk.
  assert (Hndf : List.NoDup (dict_keys f1)) by (rewrite Hk; exact Hnd1).
  assert (Hnof : dict_get "lines" f1 = None).
  { apply dict_get_None_keys. rewrite Hk. exact Hno1. }
  generalize (List.filter is_remote_line (List.map VDict ds)). intros loaded.
  change (dict_set "_loaded_lines" (VList loaded)
            (dict_set "lines" (VList (List.map (VModel InvoiceLine) las))
               (dict_set "_loaded_lines" (VList []) (dict_set "lines" (VList []) []))))
    with [("lines", VList (List.map (VModel InvoiceLine) las));
          ("_loaded_lines", VList loaded)].
  rewrite dict_update_cons by (exact Hndf || reflexivity).
  unfold getattr_default at 1. rewrite Hnof, (dict_pop_absent _ _ Hnof).
  rewrite dict_update_cons by (exact Hndf || reflexivity).
  rewrite (dict_update_fresh _ []); [| apply dict_pop_keys, Hndf | reflexivity].
  reflexivity.
Qed.

(** The lines an invoice-like model is built with. *)
Lemma new_lines_built (c : model_class) (fields attrs : pydict) (ds : list pydict) :
  is_invoice_like c = true ->
  dict_get "lines" fields = Some (VList (List.map VDict ds)) ->
  new c fields = Ok attrs ->
  exists las, Forall2 (fun d la => new InvoiceLine d = Ok la) ds las.
Proof.
  intros Hc Hl H.
  pose proof (new_no_self _ _ _ H) as Hself.
  unfold new, keyword_arguments, update in H.
  rewrite Hself in H. cbn [bind] in H.
  unfold is_invoice_like in Hc. destruct (cls_kind c); try discriminate Hc.
  cbn [bound_method dict_mem dict_get bind] in H.
  unfold AbstractInvoice_update in H. rewrite Hl in H. cbn [py_iter bind] in H.
  apply bind_Ok in H as [[a0 f0] [H _]].
  apply bind_Ok in H as [[lines loaded] [Hb _]].
  apply build_lines_dicts_built in Hb. exact Hb.
Qed.

(** The same, on dictionaries without ['id'] and with nothing
    remembered. *)
Lemma new_with_lines (c : model_class) (fields : pydict)
    (ds las : list pydict) :
  is_invoice_like c = true ->
  List.NoDup (dict_keys fields) ->
  dict_mem "self" fields = false ->
  dict_get "lines" fields = Some (VList (List.map VDict ds)) ->
  getattr_default fields "_loaded_lines" (VList []) = VList [] ->
  Forall2 (fun d la => new InvoiceLine d = Ok la) ds las ->
  Forall (fun d => dict_get "id" d = None) ds ->
  new c fields
  = let* f1 := coerce_items c (dict_pop "lines" fields) in
    Ok (("lines", VList (List.map (VModel InvoiceLine) las))
        :: ("_loaded_lines", VList []) :: dict_pop "_loaded_lines" f1).
Proof.
  intros Hc Hnd Hself Hl Hlo HF Hid.
  rewrite (new_with_dict_lines c fields ds las Hc Hnd Hself Hl HF).
  rewrite (no_remote_lines ds Hid).
  destruct (coerce_items c (dict_pop "lines" fields)) as [f1|e] eqn:E; [|reflexivity].
  cbn [bind]. do 3 f_equal.
  unfold getattr_default in *.
  assert (Hget : dict_get "_loaded_lines" (dict_pop "lines" fields)
                 = dict_get "_loaded_lines" fields)
    by (apply dict_get_pop_other; discriminate).
  destruct (dict_get "_loaded_lines" fields) as [v|] eqn:Hv.
  - subst v. destruct (coerce_items_get c _ _ _ _ E Hget) as [v' [Hv' ->]].
    injection Hv' as <-. reflexivity.
  - rewrite (coerce_items_get_None c _ _ _ E Hget). reflexivity.
Qed.

Lemma plain_cons (q : string) (v : value) (d : pydict) :
  ~ In q reserved_names -> plain d = true -> plain ((q, v) :: d) = true.
Proof.
  intros Hq. apply plain_incl. intros k Hk [<-|Hin]; [contradiction | exact Hin].
Qed.

Lemma serialized_invoice_rest (c : model_class) (lines remotes : list pydict)
    (rest : pydict) :
  ~ In "lines" (dict_keys rest) -> ~ In "_loaded_lines" (dict_keys rest) ->
  serialized_invoice c rest lines remotes = serialized_fields c rest.
Proof.
  induction rest as [|[k v] rest IH]; intros H1 H2; [reflexivity|].
  rewrite serialized_fields_cons. unfold serialized_invoice in *.
  cbn [List.filter fst snd].
  assert (E : List.map
                (fun kv : string * value =>
                   (fst kv,
                    if String.eqb (fst kv) "lines"
                    then VList (List.map serialized_line lines ++ List.map flagged remotes)
                    else if String.eqb (fst kv) "_loaded_lines"
                         then VList (List.map flagged remotes)
                         else serialized (snd kv)))
                (List.filter (fun kv => class_writable c (fst kv)) rest)
              = serialized_fields c rest).
  { apply IH; intros Hin; [apply H1 | apply H2]; right; exact Hin. }
  destruct (class_writable c k); [|exact E].
  cbn [List.map fst snd]. rewrite E.
  destruct (String.eqb_spec k "lines") as [->|_]; [exfalso; apply H1; left; reflexivity|].
  destruct (String.eqb_spec k "_loaded_lines") as [->|_];
    [exfalso; apply H2; left; reflexivity | reflexivity].
Qed.

(** An invoice-like object as its constructor leaves it holds its
    lines. *)
Lemma holds_lines_built (lines remotes : list pydict) (rest : pydict) :
  List.NoDup (dict_keys rest) ->
  ~ In "lines" (dict_keys rest) -> ~ In "_loaded_lines" (dict_keys rest) ->
  plain rest = true ->
  Forall (fun kv => simple (snd kv) = true) rest ->
  Forall (fun la => Forall (fun kv => simple (snd kv) = true) la
                    /\ List.NoDup (dict_keys la)
                    /\ plain la = true) lines ->
  Forall (fun r => is_json (VDict r) = true
                   /\ exists z, dict_get "id" r = Some (VInt z)) remotes ->
  holds_lines (("lines", VList (List.map (VModel InvoiceLine) lines))
               :: ("_loaded_lines", VList (List.map VDict remotes)) :: rest)
    lines remotes.
Proof.
  intros Hnd H1 H2 Hp Hs Hls Hrs.
  unfold holds_lines. split; [|split; [|split; [|split; [|split; [|split]]]]].
  - simpl. constructor; [|constructor; assumption].
    intros [E|Hin]; [discriminate E | contradiction].
  - apply plain_cons; [simpl; intuition discriminate|].
    apply plain_cons; [simpl; intuition discriminate | exact Hp].
  - reflexivity.
  - reflexivity.
  - intros k v Hget Hk1 Hk2. cbn [dict_get] in Hget.
    apply String.eqb_neq in Hk1, Hk2. rewrite Hk1, Hk2 in Hget.
    apply (Forall_dict_get _ _ _ _ Hs Hget).
  - exact Hls.
  - exact Hrs.
Qed.

(** [get_fields] on an invoice-like object that holds new lines and
    remembers none. *)
Lemma get_fields_new_lines (c : model_class) (lines : list pydict) (rest : pydict) :
  is_invoice_like c = true ->
  class_writable c "lines" = true ->
  List.NoDup (dict_keys rest) ->
  ~ In "lines" (dict_keys rest) -> ~ In "_loaded_lines" (dict_keys rest) ->
  plain rest = true ->
  Forall (fun kv => simple (snd kv) = true) rest ->
  Forall (fun la => Forall (fun kv => simple (snd kv) = true) la
                    /\ List.NoDup (dict_keys la)
                    /\ plain la = true) lines ->
  get_fields c (("lines", VList (List.map (VModel InvoiceLine) lines))
                :: ("_loaded_lines", VList []) :: rest)
  = Ok (("lines", VList (List.map (VModel InvoiceLine) lines))
        :: ("_loaded_lines", VList []) :: rest,
        ("lines", VList (List.map serialized_line lines))
        :: serialized_fields c (("_loaded_lines", VList []) :: rest)).
Proof.
  intros Hc Hw Hnd H1 H2 Hp Hs Hls.
  rewrite (get_fields_with_lines c _ lines [] Hc Hw).
  - cbn [List.map dict_set String.eqb Ascii.eqb Bool.eqb]. f_equal. f_equal.
    unfold serialized_invoice. cbn [List.filter fst snd]. rewrite Hw.
    rewrite serialized_fields_cons.
    pose proof (serialized_invoice_rest c lines [] rest H1 H2) as E.
    unfold serialized_invoice in E. cbn [List.map] in E.
    destruct (class_writable c "_loaded_lines");
      cbn [List.map fst snd String.eqb Ascii.eqb Bool.eqb serialized];
      rewrite E, app_nil_r; reflexivity.
  - apply (holds_lines_built lines [] rest); try assumption. constructor.
Qed.

(** The round trip of such a dictionary, in closed form. *)
Lemma round_trip_with_lines (c : model_class) (fields f1 : pydict)
    (ds las : list pydict) :
  is_invoice_like c = true ->
  class_writable c "lines" = true ->
  List.NoDup (dict_keys fields) ->
  dict_mem "self" fields = false ->
  plain fields = true ->
  dict_get "lines" fields = Some (VList (List.map VDict ds)) ->
  getattr_default fields "_loaded_lines" (VList []) = VList [] ->
  Forall2 (fun d la => new InvoiceLine d = Ok la) ds las ->
  Forall (fun d => dict_get "id" d = None) ds ->
  Forall (fun la => Forall (fun kv => simple (snd kv) = true) la
                    /\ List.NoDup (dict_keys la)
                    /\ plain la = true) las ->
  coerce_items c (dict_pop "lines" fields) = Ok f1 ->
  Forall (fun kv => simple (snd kv) = true) f1 ->
  round_trip c fields
  = Ok (("lines", VList (List.map serialized_line las))
        :: serialized_fields c
             (("_loaded_lines", VList []) :: dict_pop "_loaded_lines" f1)).
Proof.
  intros Hc Hw Hnd Hself Hp Hl Hlo HF Hid Hls E Hs.
  unfold round_trip.
  rewrite (new_with_lines c fields ds las Hc Hnd Hself Hl Hlo HF Hid), E.
  cbn [bind].
  pose proof (coerce_items_keys c _ _ E) as Hk.
  destruct (dict_pop_keys "lines" fields Hnd) as [Hnd1 Hno1].
  assert (Hndf : List.NoDup (dict_keys f1)) by (rewrite Hk; exact Hnd1).
  destruct (dict_pop_keys "_loaded_lines" f1 Hndf) as [HndR HnoR].
  assert (Hin : forall k, In k (dict_keys (dict_pop "_loaded_lines" f1)) ->
                  In k (dict_keys (dict_pop "lines" fields))).
  { intros k H. rewrite <- Hk. apply in_map_iff in H as [kv [<- H]].
    apply in_map, (dict_pop_In "_loaded_lines"), H. }
  rewrite get_fields_new_lines; try assumption; [reflexivity | | |].
  - intros H. apply Hno1, Hin, H.
  - apply (plain_incl fields); [|exact Hp]. intros k _ H.
    apply Hin in H. apply in_map_iff in H as [kv [<- H]].
    apply in_map, (dict_pop_In "lines"), H.
  - apply List.Forall_forall. intros kv H. rewrite List.Forall_forall in Hs.
    apply Hs, (dict_pop_In "_loaded_lines"), H.
Qed.

Lemma json_lines (ds : list pydict) :
  is_json (VList (List.map VDict ds)) = true ->
  Forall (fun d => Forall (fun kv => is_json (snd kv) = true) d) ds.
Proof.
  cbn [is_json]. intros H. rewrite forallb_forall in H.
  apply List.Forall_forall. intros d Hd.
  specialize (H (VDict d) (in_map VDict ds d Hd)). rewrite is_json_dict in H.
  rewrite forallb_forall in H. apply List.Forall_forall. exact H.
Qed.

Lemma map_VDict_inj (ds ds' : list pydict) :
  List.map VDict ds = List.map VDict ds' -> ds = ds'.
Proof.
  revert ds'. induction ds as [|d ds IH]; intros [|d' ds'] H; try discriminate H;
    [reflexivity|].
  injection H as -> H. f_equal. apply IH, H.
Qed.

Lemma settled_simple (c : model_class) (a : pydict) :
  Forall (fun kv => settled c (fst kv) (snd kv)) a ->
  Forall (fun kv => simple (snd kv) = true) a.
Proof. apply List.Forall_impl. intros kv H. apply H. Qed.

(** A line built from a dictionary of plain data holds simple values,
    no key twice, and no attribute that the dictionary did not name,
    [quantity] apart. *)
Lemma line_new_simple (d la : pydict) :
  List.NoDup (dict_keys d) ->
  Forall (fun kv => is_json (snd kv) = true) d ->
  plain d = true ->
  new InvoiceLine d = Ok la ->
  Forall (fun kv => simple (snd kv) = true) la
  /\ List.NoDup (dict_keys la)
  /\ plain la = true.
Proof.
  intros Hnd Hj Hp Hnew.
  pose proof (new_no_self _ _ _ Hnew) as Hself.
  rewrite new_built in Hnew by (assumption || discriminate).
  destruct (coerce_items InvoiceLine d) as [d'|e] eqn:E; [|discriminate Hnew].
  injection Hnew as <-.
  pose proof (coerce_items_keys InvoiceLine _ _ E) as Hk.
  assert (Hnd' : List.NoDup (dict_keys d')) by (rewrite Hk; exact Hnd).
  split; [|split].
  - pose proof (coerce_items_simple InvoiceLine _ _ Hj E) as Hs.
    apply built_Forall; [exact Hs | reflexivity |].
    intros v Hv. apply (Forall_dict_get _ _ _ _ Hs Hv).
  - apply built_keys; [exact Hnd' | discriminate].
  - apply plain_built. rewrite (plain_keys d d' Hk). exact Hp.
Qed.

Lemma lines_new_simple (ds las : list pydict) :
  Forall2 (fun d la => new InvoiceLine d = Ok la) ds las ->
  Forall (fun d => List.NoDup (dict_keys d) /\ plain d = true) ds ->
  Forall (fun d => Forall (fun kv => is_json (snd kv) = true) d) ds ->
  Forall (fun la => Forall (fun kv => simple (snd kv) = true) la
                    /\ List.NoDup (dict_keys la)
                    /\ plain la = true) las.
Proof.
  induction 1 as [|d la ds las Hnew _ IH]; intros Hds Hj; constructor.
  - apply Forall_cons_iff in Hds as [[H1 H2] _].
    apply Forall_cons_iff in Hj as [Hjd _].
    apply (line_new_simple d la); assumption.
  - apply Forall_cons_iff in Hds as [_ Hds]. apply Forall_cons_iff in Hj as [_ Hj].
    apply IH; assumption.
Qed.

(** Each line object serializes to the round trip of the dictionary it
    was built from. *)
Lemma lines_round_trip (ds las : list pydict) :
  Forall2 (fun d la => new InvoiceLine d = Ok la) ds las ->
  Forall (fun la => Forall (fun kv => simple (snd kv) = true) la
                    /\ List.NoDup (dict_keys la)
                    /\ plain la = true) las ->
  Forall2 (fun d out => round_trip InvoiceLine d = Ok out) ds
    (List.map (serialized_fields InvoiceLine) las).
Proof.
  induction 1 as [|d la ds las Hnew _ IH]; intros Hls; cbn [List.map]; constructor.
  - apply Forall_cons_iff in Hls as [(H1 & H2 & H3) _].
    unfold round_trip. rewrite Hnew. cbn [bind].
    rewrite get_fields_simple by (assumption || discriminate). reflexivity.
  - apply Forall_cons_iff in Hls as [_ Hls]. apply IH, Hls.
Qed.

(** The line built from what [get_fields] returned for a line: it holds
    simple values, and serializes to the same dictionary. *)
Lemma lines_second (las : list pydict) :
  Forall (fun la => List.NoDup (dict_keys la)
                    /\ Forall (fun kv => settled InvoiceLine (fst kv) (snd kv)) la
                    /\ plain la = true
                    /\ dict_mem "self" la = false
                    /\ exists x rest, la = ("quantity", x) :: rest) las ->
  exists las2,
    Forall2 (fun d la2 => new InvoiceLine d = Ok la2)
      (List.map (serialized_fields InvoiceLine) las) las2
    /\ Forall (fun la => Forall (fun kv => simple (snd kv) = true) la
                         /\ List.NoDup (dict_keys la)
                         /\ plain la = true) las2
    /\ List.map serialized_line las2 = List.map serialized_line las.
Proof.
  induction 1 as [|la las (Hnd & Hs & Hp & Hself & Hshape) _ (las2 & HF & Hls & Hm)].
  - exists []. repeat split; constructor.
  - destruct (new_second InvoiceLine la Hnd Hs) as (la2 & Hnew & Hs2 & Hnd2 & _ & Hp2 & Hsf);
      [discriminate | intros _; exact Hshape | exact Hp | exact Hself |].
    exists (la2 :: las2). split; [|split].
    + constructor; assumption.
    + constructor; [repeat split; assumption | exact Hls].
    + cbn [List.map]. unfold serialized_line at 1 3. rewrite Hsf, Hm. reflexivity.
Qed.

Section WithLaws.
Context {Laws : PyLibLaws L}.

(** A line built from a dictionary of plain data: its attributes start
    with [quantity] and hold values a round trip gives back. *)
Lemma line_new_settled (d la : pydict) :
  List.NoDup (dict_keys d) ->
  Forall (fun kv => is_json (snd kv) = true) d ->
  plain d = true ->
  new InvoiceLine d = Ok la ->
  List.NoDup (dict_keys la)
  /\ Forall (fun kv => settled InvoiceLine (fst kv) (snd kv)) la
  /\ plain la = true
  /\ dict_mem "self" la = false
  /\ exists x rest, la = ("quantity", x) :: rest.
Proof.
  intros Hnd Hj Hp Hnew.
  pose proof (new_no_self _ _ _ Hnew) as Hself.
  rewrite new_built in Hnew by (assumption || discriminate).
  destruct (coerce_items InvoiceLine d) as [d'|e] eqn:E; [|discriminate Hnew].
  injection Hnew as <-.
  pose proof (coerce_items_keys InvoiceLine _ _ E) as Hk.
  assert (Hnd' : List.NoDup (dict_keys d')) by (rewrite Hk; exact Hnd).
  split; [|split; [|split; [|split]]].
  - apply built_keys; [exact Hnd' | discriminate].
  - pose proof (coerce_items_json InvoiceLine _ _ Hj E) as Hs.
    apply built_Forall; [exact Hs | apply quantity_settled |].
    intros v Hv. apply (Forall_dict_get _ _ _ _ Hs Hv).
  - apply plain_built. rewrite (plain_keys d d' Hk). exact Hp.
  - apply dict_mem_false_keys. intros H.
    destruct (built_keys_In InvoiceLine d' "self" H) as [H'|H']; [discriminate H'|].
    rewrite Hk in H'. apply dict_mem_false_keys in Hself. contradiction.
  - unfold built. cbn [cls_kind InvoiceLine]. eauto.
Qed.

Lemma lines_new_settled (ds las : list pydict) :
  Forall2 (fun d la => new InvoiceLine d = Ok la) ds las ->
  Forall (fun d => List.NoDup (dict_keys d) /\ plain d = true
                   /\ dict_get "id" d = None) ds ->
  Forall (fun d => Forall (fun kv => is_json (snd kv) = true) d) ds ->
  Forall (fun la => List.NoDup (dict_keys la)
                    /\ Forall (fun kv => settled InvoiceLine (fst kv) (snd kv)) la
                    /\ plain la = true
                    /\ dict_mem "self" la = false
                    /\ exists x rest, la = ("quantity", x) :: rest) las.
Proof.
  induction 1 as [|d la ds las Hnew _ IH]; intros Hds Hj; constructor.
  - apply Forall_cons_iff in Hds as [(H1 & H2 & _) _].
    apply Forall_cons_iff in Hj as [Hjd _].
    apply (line_new_settled d la); assumption.
  - apply Forall_cons_iff in Hds as [_ Hds]. apply Forall_cons_iff in Hj as [_ Hj].
    apply IH; assumption.
Qed.

(** The round trip of a dictionary without ['lines']. *)
Lemma round_trip_without_lines (c : model_class) (fields attrs : pydict) :
  List.NoDup (dict_keys fields) ->
  Forall (fun kv => is_json (snd kv) = true) fields ->
  plain fields = true ->
  (is_invoice_like c = true -> dict_get "lines" fields = None) ->
  new c fields = Ok attrs ->
  exists data,
    round_trip c fields = Ok data
    /\ (forall f v, dict_get f fields = Some v -> class_writable c f = true ->
          exists v', coerce_field c f v = Ok v'
                     /\ dict_get f data = Some (serialized v'))
    /\ round_trip c data = Ok data.
Proof.
  intros Hnd Hj Hp Hl Hnew.
  pose proof (new_no_self _ _ _ Hnew) as Hself.
  pose proof Hnew as Hnew'. rewrite new_built in Hnew' by assumption.
  destruct (coerce_items c fields) as [fields'|e] eqn:E; [|discriminate Hnew'].
  injection Hnew' as <-.
  pose proof (coerce_items_keys c _ _ E) as Hk.
  pose proof (coerce_items_json c _ _ Hj E) as Hs.
  assert (Hnd' : List.NoDup (dict_keys fields')) by (rewrite Hk; exact Hnd).
  assert (Hl' : is_invoice_like c = true -> ~ In "lines" (dict_keys fields')).
  { intros Hi. rewrite Hk. apply dict_get_None_keys, Hl, Hi. }
  destruct (built_keys c fields' Hnd' Hl') as [Hbn Hbl].
  assert (Hbs : Forall (fun kv => settled c (fst kv) (snd kv)) (built c fields')).
  { apply built_Forall; [exact Hs | apply quantity_settled |].
    intros v Hv. apply (Forall_dict_get _ _ _ _ Hs Hv). }
  assert (Hbp : plain (built c fields') = true).
  { apply plain_built. rewrite (plain_keys fields fields' Hk). exact Hp. }
  exists (serialized_fields c (built c fields')). split; [|split].
  - unfold round_trip. rewrite Hnew. cbn [bind].
    rewrite get_fields_simple; [reflexivity | exact Hbp | | exact Hbl | exact Hbn].
    apply (settled_simple c), Hbs.
  - intros f v Hget W.
    destruct (coerce_items_get c f v _ _ E Hget) as [v' [Hc Hg]].
    exists v'. split; [exact Hc|].
    rewrite (dict_get_serialized_fields c f _ W), (dict_get_built c _ _ _ Hg).
    reflexivity.
  - apply round_trip_second; try assumption.
    + intros Hkind. unfold built. rewrite Hkind. eauto.
    + apply dict_mem_false_keys. intros H.
      destruct (built_keys_In c fields' "self" H) as [H'|H']; [discriminate H'|].
      rewrite Hk in H'. apply dict_mem_false_keys in Hself. contradiction.
Qed.

(** The round trip of a dictionary whose ['lines'] are dictionaries
    without ['id']. *)
Lemma round_trip_lines_without_id (c : model_class) (fields attrs : pydict)
    (ds : list pydict) :
  is_invoice_like c = true ->
  List.NoDup (dict_keys fields) ->
  Forall (fun kv => is_json (snd kv) = true) fields ->
  plain fields = true ->
  class_writable c "lines" = true ->
  getattr_default fields "_loaded_lines" (VList []) = VList [] ->
  dict_get "lines" fields = Some (VList (List.map VDict ds)) ->
  Forall (fun d => List.NoDup (dict_keys d) /\ plain d = true
                   /\ dict_get "id" d = None) ds ->
  new c fields = Ok attrs ->
  exists data,
    round_trip c fields = Ok data
    /\ (forall f v, dict_get f fields = Some v -> class_writable c f = true ->
          f <> "lines" ->
          exists v', coerce_field c f v = Ok v'
                     /\ dict_get f data = Some (serialized v'))
    /\ (exists outs,
          dict_get "lines" data = Some (VList (List.map VDict outs))
          /\ Forall2 (fun d out => round_trip InvoiceLine d = Ok out) ds outs)
    /\ round_trip c data = Ok data.
Proof.
  intros Hc Hnd Hj Hp Hw Hlo Hl Hds Hnew.
  pose proof (new_no_self _ _ _ Hnew) as Hself.
  destruct (new_lines_built c fields attrs ds Hc Hl Hnew) as [las HF].
  assert (Hid : Forall (fun d => dict_get "id" d = None) ds).
  { eapply List.Forall_impl; [|exact Hds]. intros d H. apply H. }
  assert (Hjl : Forall (fun d => Forall (fun kv => is_json (snd kv) = true) d) ds).
  { apply json_lines. apply (Forall_dict_get _ _ _ _ Hj Hl). }
  pose proof (lines_new_settled ds las HF Hds Hjl) as Hfacts.
  assert (Hls : Forall (fun la => Forall (fun kv => simple (snd kv) = true) la
                                  /\ List.NoDup (dict_keys la)
                                  /\ plain la = true) las).
  { eapply List.Forall_impl; [|exact Hfacts].
    intros la (H1 & H2 & H3 & _). repeat split; try assumption.
    apply (settled_simple InvoiceLine), H2. }
  rewrite (new_with_lines c fields ds las Hc Hnd Hself Hl Hlo HF Hid) in Hnew.
  destruct (coerce_items c (dict_pop "lines" fields)) as [f1|e] eqn:E;
    [|discriminate Hnew].
  clear Hnew.
  assert (Hj1 : Forall (fun kv => is_json (snd kv) = true) (dict_pop "lines" fields)).
  { apply List.Forall_forall. intros kv H. rewrite List.Forall_forall in Hj.
    apply Hj, (dict_pop_In "lines"), H. }
  pose proof (coerce_items_json c _ _ Hj1 E) as Hst.
  pose proof (settled_simple c f1 Hst) as Hs.
  pose proof (coerce_items_keys c _ _ E) as Hk.
  destruct (dict_pop_keys "lines" fields Hnd) as [Hnd1 Hno1].
  assert (Hndf : List.NoDup (dict_keys f1)) by (rewrite Hk; exact Hnd1).
  destruct (dict_pop_keys "_loaded_lines" f1 Hndf) as [HndR HnoR].
  assert (HinR : forall k, In k (dict_keys (dict_pop "_loaded_lines" f1)) ->
                   In k (dict_keys (dict_pop "lines" fields))).
  { intros k H. rewrite <- Hk. apply in_map_iff in H as [kv [<- H]].
    apply in_map, (dict_pop_In "_loaded_lines"), H. }
  assert (Hinf : forall k, In k (dict_keys (dict_pop "lines" fields)) ->
                   In k (dict_keys fields)).
  { intros k H. apply in_map_iff in H as [kv [<- H]].
    apply in_map, (dict_pop_In "lines"), H. }
  assert (HstR : Forall (fun kv => settled c (fst kv) (snd kv))
                   (dict_pop "_loaded_lines" f1)).
  { apply List.Forall_forall. intros kv H. rewrite List.Forall_forall in Hst.
    apply Hst, (dict_pop_In "_loaded_lines"), H. }
  set (R := dict_pop "_loaded_lines" f1) in *.
  exists (("lines", VList (List.map serialized_line las))
          :: serialized_fields c (("_loaded_lines", VList []) :: R)).
  split; [|split; [|split]].
  - apply (round_trip_with_lines c fields f1 ds las); assumption.
  - intros f v Hget W Hne.
    cbn [dict_get]. apply String.eqb_neq in Hne. rewrite Hne.
    rewrite (dict_get_serialized_fields c f _ W). cbn [dict_get].
    destruct (String.eqb_spec f "_loaded_lines") as [->|Hne'].
    + unfold getattr_default in Hlo. rewrite Hget in Hlo. subst v.
      exists (VList []). split; reflexivity.
    + assert (Hget1 : dict_get f (dict_pop "lines" fields) = Some v).
      { rewrite dict_get_pop_other; [exact Hget | apply String.eqb_neq, Hne]. }
      destruct (coerce_items_get c f v _ _ E Hget1) as [v' [Hv' Hg]].
      exists v'. split; [exact Hv'|]. unfold R.
      rewrite dict_get_pop_other, Hg by exact Hne'. reflexivity.
  - exists (List.map (serialized_fields InvoiceLine) las). split.
    + cbn [dict_get String.eqb Ascii.eqb Bool.eqb]. rewrite List.map_map. reflexivity.
    + apply lines_round_trip; assumption.
  - destruct (coerce_items_settled c
                (List.filter (fun kv => class_writable c (fst kv)) R))
      as (a2 & Ha2 & Hs2 & Hm).
    { apply List.Forall_forall. intros kv H. apply filter_In in H as [H _].
      rewrite List.Forall_forall in HstR. apply HstR, H. }
    rewrite <- serialized_fields_filter in Ha2, Hm.
    pose proof (coerce_items_keys c _ _ Ha2) as Hk2.
    assert (Hin2 : forall k, In k (dict_keys a2) ->
                     In k (dict_keys R) /\ class_writable c k = true).
    { intros k H. rewrite Hk2 in H. apply (serialized_fields_In c), H. }
    assert (Hw2 : Forall (fun k => class_writable c k = true) (dict_keys a2)).
    { apply List.Forall_forall. intros k H. apply Hin2, H. }
    assert (Hlo2 : ~ In "_loaded_lines" (dict_keys a2)).
    { intros H. apply HnoR, Hin2, H. }
    assert (HSF2 : serialized_fields c a2 = serialized_fields c R).
    { rewrite (serialized_fields_writable c a2 Hw2). exact Hm. }
    destruct (lines_second las Hfacts) as (las2 & HF2 & Hls2 & Hsl2).
    set (a2p := if class_writable c "_loaded_lines"
                then ("_loaded_lines", VList []) :: a2 else a2).
    assert (Hco : coerce_items c
                    (serialized_fields c (("_loaded_lines", VList []) :: R))
                  = Ok a2p).
    { unfold a2p. rewrite serialized_fields_cons.
      destruct (class_writable c "_loaded_lines"); [|exact Ha2].
      cbn [serialized coerce_items coerce_field bind]. rewrite Ha2. reflexivity. }
    assert (Hpop : dict_pop "_loaded_lines" a2p = a2).
    { unfold a2p. destruct (class_writable c "_loaded_lines"); [reflexivity|].
      apply dict_pop_absent, dict_get_None_keys, Hlo2. }
    assert (Hkd : forall k,
              In k (dict_keys (serialized_fields c (("_loaded_lines", VList []) :: R))) ->
              k = "_loaded_lines" \/ In k (dict_keys R)).
    { intros k H. apply (serialized_fields_In c) in H as [[<-|H] _];
        [left; reflexivity | right; exact H]. }
    assert (HndRp : List.NoDup (dict_keys (("_loaded_lines", VList []) :: R))).
    { simpl. constructor; assumption. }
    rewrite (round_trip_with_lines c _ a2p
               (List.map (serialized_fields InvoiceLine) las) las2).
    + rewrite Hpop, Hsl2, !serialized_fields_cons, HSF2. reflexivity.
    + exact Hc.
    + exact Hw.
    + simpl. constructor; [|apply serialized_fields_NoDup, HndRp].
      intros H. destruct (Hkd _ H) as [H'|H']; [discriminate H'|].
      apply Hno1, HinR, H'.
    + apply dict_mem_false_keys. intros [H|H]; [discriminate H|].
      apply dict_mem_false_keys in Hself. apply Hself.
      destruct (Hkd _ H) as [H'|H']; [discriminate H'|]. apply Hinf, HinR, H'.
    + apply plain_cons; [simpl; intuition discriminate|].
      apply (plain_incl fields); [|exact Hp]. intros k Hres H.
      destruct (Hkd _ H) as [->|H']; [|apply Hinf, HinR, H'].
      exfalso. simpl in Hres. intuition discriminate.
    + cbn [dict_get String.eqb Ascii.eqb Bool.eqb]. rewrite List.map_map. reflexivity.
    + unfold getattr_default. cbn [dict_get String.eqb Ascii.eqb Bool.eqb].
      rewrite serialized_fields_cons.
      destruct (class_writable c "_loaded_lines"); [reflexivity|].
      assert (Hn : dict_get "_loaded_lines" (serialized_fields c R) = None).
      { apply dict_get_None_keys. intros H.
        apply (serialized_fields_In c) in H as [H _]. contradiction. }
      rewrite Hn. reflexivity.
    + exact HF2.
    + apply List.Forall_forall. intros d H.
      apply in_map_iff in H as [la [<- _]].
      apply dict_get_None_keys. intros H.
      apply (serialized_fields_In InvoiceLine) in H as [_ H]. discriminate H.
    + exact Hls2.
    + cbn [dict_pop String.eqb Ascii.eqb Bool.eqb]. exact Hco.
    + unfold a2p. destruct (class_writable c "_loaded_lines"); [|exact Hs2].
      constructor; [reflexivity | exact Hs2].
Qed.

(** C7, amended. An object is built from a dictionary of plain data
    none of whose keys hides [Meta] or a method of [get_fields]; on an
    invoice-like model its ['lines'], if it has any, are dictionaries of
    that kind without ['id'], and come with no remembered line. Then
    [get_fields] returns; every writable field of the dictionary other
    than ['lines'] comes back as its value, coerced by [update] and
    serialized; ['lines'] comes back as the list of the round trips of
    its items as invoice lines; and building an object from the result
    and serializing it gives the same result again. *)
Theorem round_trip_idempotent (c : model_class) (fields attrs : pydict) :
  List.NoDup (dict_keys fields) ->
  Forall (fun kv => is_json (snd kv) = true) fields ->
  plain fields = true ->
  (is_invoice_like c = true -> lines_without_id c fields) ->
  new c fields = Ok attrs ->
  exists data,
    round_trip c fields = Ok data
    /\ (forall f v, dict_get f fields = Some v -> class_writable c f = true ->
          (is_invoice_like c = true -> f <> "lines") ->
          exists v', coerce_field c f v = Ok v'
                     /\ dict_get f data = Some (serialized v'))
    /\ (is_invoice_like c = true ->
        forall ds, dict_get "lines" fields = Some (VList (List.map VDict ds)) ->
          exists outs,
            dict_get "lines" data = Some (VList (List.map VDict outs))
            /\ Forall2 (fun d out => round_trip InvoiceLine d = Ok out) ds outs)
    /\ round_trip c data = Ok data.
Proof.
  intros Hnd Hj Hp Hlines Hnew.
  destruct (is_invoice_like c) eqn:Hc.
  - destruct (dict_get "lines" fields) as [v|] eqn:Hl.
    + destruct (Hlines eq_refl v Hl) as (Hw & Hlo & ds & -> & Hds).
      destruct (round_trip_lines_without_id c fields attrs ds
                  Hc Hnd Hj Hp Hw Hlo Hl Hds Hnew)
        as (data & H1 & H2 & (outs & H3 & H4) & H5).
      exists data. split; [exact H1|]. split; [|split; [|exact H5]].
      * intros f v W Wf Hne. apply H2; [assumption | assumption | apply Hne; reflexivity].
      * intros _ ds' Hds'. injection Hds' as Hds'.
        apply map_VDict_inj in Hds'. subst ds'. exists outs. split; assumption.
    + destruct (round_trip_without_lines c fields attrs Hnd Hj Hp) as (data & H1 & H2 & H3);
        [intros _; exact Hl | exact Hnew |].
      exists data. split; [exact H1|]. split; [|split; [|exact H3]].
      * intros f v W Wf _. apply H2; assumption.
      * intros _ ds Hds. discriminate Hds.
  - destruct (round_trip_without_lines c fields attrs Hnd Hj Hp) as (data & H1 & H2 & H3);
      [rewrite Hc; discriminate | exact Hnew |].
    exists data. split; [exact H1|]. split; [|split; [|exact H3]].
    + intros f v W Wf _. apply H2; assumption.
    + discriminate.
Qed.

End WithLaws.

End RoundTripLines.

(** C7 on the sample library: an invoice with a number, a date of issue
    and one line that names its quantity. *)
Lemma round_trip_idempotent_witness :
  exists data,
    round_trip Invoice
      [("number", @VStr TextLib.lib "2024-0001");
       ("issued_on", VStr "2024-01-02");
       ("lines", VList [VDict [("quantity", VStr "2"); ("name", VStr "a")]])]
    = Ok data
    /\ (forall f v,
          dict_get f
            [("number", @VStr TextLib.lib "2024-0001");
             ("issued_on", VStr "2024-01-02");
             ("lines", VList [VDict [("quantity", VStr "2"); ("name", VStr "a")]])]
          = Some v ->
          class_writable Invoice f = true ->
          (is_invoice_like Invoice = true -> f <> "lines") ->
          exists v', coerce_field Invoice f v = Ok v'
                     /\ dict_get f data = Some (serialized v'))
    /\ (is_invoice_like Invoice = true ->
        forall ds,
          dict_get "lines"
            [("number", @VStr TextLib.lib "2024-0001");
             ("issued_on", VStr "2024-01-02");
             ("lines", VList [VDict [("quantity", VStr "2"); ("name", VStr "a")]])]
          = Some (VList (List.map VDict ds)) ->
          exists outs,
            dict_get "lines" data = Some (VList (List.map VDict outs))
            /\ Forall2 (fun d out => round_trip InvoiceLine d = Ok out) ds outs)
    /\ round_trip Invoice data = Ok data.
Proof.
  apply (round_trip_idempotent (L := TextLib.lib) (Laws := textlib_laws) Invoice
           [("number", VStr "2024-0001");
            ("issued_on", VStr "2024-01-02");
            ("lines", VList [VDict [("quantity", VStr "2"); ("name", VStr "a")]])]
           [("lines", VList [VModel InvoiceLine
                               [("quantity", @VDecimal TextLib.lib "2");
                                ("name", VStr "a")]]);
            ("_loaded_lines", VList []);
            ("number", VStr "2024-0001");
            ("issued_on", @VDate TextLib.lib "2024-01-02")]).
  - repeat constructor; simpl; intuition discriminate.
  - repeat constructor.
  - reflexivity.
  - intros _ v Hv. injection Hv as <-.
    split; [reflexivity|]. split; [reflexivity|].
    exists [[("quantity", VStr "2"); ("name", VStr "a")]].
    split; [reflexivity|].
    repeat constructor; simpl; intuition discriminate.
  - reflexivity.
Defined.

(** C7 as stated fails: an invoice built with one line, which has no id
    and names no quantity, serializes the line with the quantity its
    constructor gave it, so that ['lines'], a writable field, does not
    come back as it was. *)
Lemma round_trip_preserves_counterexample :
  ~ round_trip_preserves Invoice
      [("lines", VList [VDict [("name", @VStr TextLib.lib "a")]])].
Proof.
  intros H.
  destruct (H [("lines", VList [VDict [("quantity", VStr "1"); ("name", VStr "a")]]);
               ("_loaded_lines", VList [])] eq_refl) as [H1 _].
  destruct (H1 "lines" _ eq_refl eq_refl) as [v' [Hc Hg]].
  simpl in Hc. injection Hc as <-. discriminate Hg.
Qed.
(** * Further properties of the adapters *)

Section ResourceFacts.
Context {L : PyLib}.
Variable server : list request -> request -> response.

(** A status that is neither the expected one nor an HTTP error, with a
    body that reports no error: [_make_request] raises nothing and
    returns [None]. *)
Lemma make_request_falls_through (method : http_method) (success_status : Z)
    (endpoint : endpoint_path) (data : option value) (params : option pydict)
    (log : list request) :
  let req := {| req_method := method; req_endpoint := endpoint;
                req_data := data; req_params := params |} in
  let r := server log req in
  status_code r <> success_status ->
  lacks_errors (resp_json r) = true ->
  (status_code r < 400 \/ 600 <= status_code r)%Z ->
  _make_request server method success_status endpoint data params log
  = (Ok None, log ++ [req]).
Proof.
  intros req r Hs Hl Hr. unfold _make_request. fold req r.
  apply Z.eqb_neq in Hs. rewrite Hs.
  assert (Hok : raise_for_status r = Ok tt).
  { unfold raise_for_status.
    destruct (Z.leb_spec 400 (status_code r)); [|reflexivity].
    destruct (Z.ltb_spec (status_code r) 600); [lia | reflexivity]. }
  rewrite Hok.
  destruct (resp_json r) as [[]|]; try discriminate Hl; try reflexivity.
  destruct entries as [|kv entries]; [reflexivity|].
  simpl in Hl. apply negb_true_iff in Hl.
  cbn [py_truthy py_contains_str]. rewrite Hl. reflexivity.
Qed.

Lemma delete_log (endpoint : endpoint_path) (log : list request) :
  exists out,
    _delete server endpoint log
    = (out, log ++ [{| req_method := DELETE; req_endpoint := endpoint;
                       req_data := None; req_params := None |}]).
Proof.
  destruct (make_request_run server DELETE 204 endpoint None None log) as [out [H _]].
  exists out. exact H.
Qed.

(** X9. [delete] takes an id or a model. Given an int it sends one
    DELETE to the item endpoint of that int; given a model of the
    adapter's class whose id is true in a condition, one DELETE to the
    item endpoint of that id. A model of the class without such an id
    gives a value error, anything else a type error, and in both cases
    nothing is sent. *)
Theorem delete_by_id_or_model
    (ep : string) (c : model_class) (model : value) (kwargs : pydict)
    (log : list request) :
  let out := CrudModelApi_delete server ep c model kwargs log in
  let sent id := log ++ [{| req_method := DELETE; req_endpoint := [Lit ep; Arg id];
                            req_data := None; req_params := None |}] in
  (is_int model = true -> snd out = sent model)
  /\ (forall c' attrs id,
        model = VModel c' attrs -> cls_name c' = cls_name c ->
        dict_get "id" attrs = Some id -> py_truthy id = true ->
        snd out = sent id)
  /\ (forall c' attrs,
        model = VModel c' attrs -> cls_name c' = cls_name c ->
        py_truthy (getattr_default attrs "id" VNone) = false ->
        out = (Raise (ValueError (VStr "object wit unassigned id")), log))
  /\ (is_int model = false -> isinstance_model model c = false ->
      exists msg, out = (Raise (TypeError msg), log)).
Proof.
  intros out sent.
  assert (Hsend : forall id, extract_id c model = Ok id -> snd out = sent id).
  { intros id Hid. unfold out, CrudModelApi_delete, abind, lift. rewrite Hid.
    destruct (delete_log [Lit ep; Arg id] log) as [o ->].
    destruct o; reflexivity. }
  split; [|split; [|split]].
  - intros Hi. apply Hsend. unfold extract_id. rewrite Hi. reflexivity.
  - intros c' attrs id -> Hn Hid Ht. apply Hsend. unfold extract_id.
    cbn [is_int isinstance_model]. apply String.eqb_eq in Hn. rewrite Hn.
    unfold getattr_default. rewrite Hid, Ht. reflexivity.
  - intros c' attrs -> Hn Ht. unfold out, CrudModelApi_delete, abind, lift, extract_id.
    cbn [is_int isinstance_model]. apply String.eqb_eq in Hn. rewrite Hn.
    cbn [negb]. rewrite Ht. reflexivity.
  - intros Hi Hm. unfold out, CrudModelApi_delete, abind, lift, extract_id.
    rewrite Hi, Hm. eexists. reflexivity.
Qed.

(** X10. [delete] checks no status of its own: whenever the service
    answers the DELETE with a status below 400 (or from 600 on) and a
    body that reports no error, the call returns normally, whether the
    status is the expected 204 or not. *)
Theorem delete_accepts_any_non_error_status
    (ep : string) (c : model_class) (id : value) (kwargs : pydict)
    (log : list request) :
  let req := {| req_method := DELETE; req_endpoint := [Lit ep; Arg id];
                req_data := None; req_params := None |} in
  let r := server log req in
  is_int id = true ->
  lacks_errors (resp_json r) = true ->
  (status_code r < 400 \/ 600 <= status_code r)%Z ->
  CrudModelApi_delete server ep c id kwargs log = (Ok tt, log ++ [req]).
Proof.
  intros req r Hi Hl Hr. unfold CrudModelApi_delete, abind, lift, extract_id, ret.
  rewrite Hi. unfold _delete.
  destruct (Z.eq_dec (status_code r) 204) as [Hs|Hs].
  - destruct (make_request_run server DELETE 204 [Lit ep; Arg id] None None log)
      as [out [-> Hout]].
    destruct (Hout Hs) as [resp [-> _]]. reflexivity.
  - rewrite make_request_falls_through by assumption. reflexivity.
Qed.

(** X11. [save] reads the response of [_make_request] without looking
    at what it got: when the service answers the request of a CRUD
    [save] with a status that is neither the expected one (200 for the
    PUT, 201 for the POST) nor an HTTP error, and reports no error, the
    call ends in a type error. The request has been sent by then. *)
Theorem save_unexpected_status_type_error
    (ep : string) (c : model_class) (attrs attrs1 data : pydict)
    (log : list request) :
  let id := getattr_default attrs "id" VNone in
  let req := {| req_method := if py_truthy id then PUT else POST;
                req_endpoint := if py_truthy id then [Lit ep; Arg id] else [Lit ep];
                req_data := Some (VDict data); req_params := None |} in
  let r := server log req in
  get_fields c attrs = Ok (attrs1, data) ->
  is_json (VDict data) = true ->
  status_code r <> (if py_truthy id then 200 else 201) ->
  lacks_errors (resp_json r) = true ->
  (status_code r < 400 \/ 600 <= status_code r)%Z ->
  CrudModelApi_save server ep c attrs log
  = (Raise (TypeError "'NoneType' object is not subscriptable"), log ++ [req]).
Proof.
  intros id req r Hg Hj Hs Hl Hr. unfold CrudModelApi_save. fold id.
  subst r req. destruct (py_truthy id).
  - rewrite Hg. unfold abind, lift, ret. cbv beta iota zeta.
    rewrite put_json by exact Hj.
    rewrite make_request_falls_through by assumption. reflexivity.
  - rewrite Hg. unfold abind, lift, ret. cbv beta iota zeta.
    rewrite post_json by exact Hj.
    rewrite make_request_falls_through by assumption. reflexivity.
Qed.

(** X12. [load] asks for one object by id: an id that is no int gives a
    type error and no request; an int gives one GET to the item
    endpoint, without parameters. When the service answers 200 with a
    JSON object, the result is what the constructor of the adapter's
    class makes of its fields: an object of that class, or the error of
    the constructor; when it answers 200 without a JSON body, a type
    error. *)
Theorem load_gets_one_object
    (ep : string) (c : model_class) (id : value) (log : list request) :
  let req := {| req_method := GET; req_endpoint := [Lit ep; Arg id];
                req_data := None; req_params := None |} in
  let r := server log req in
  let out := CrudModelApi_load server ep c id log in
  (is_int id = false -> out = (Raise (TypeError "id must be int"), log))
  /\ (is_int id = true ->
      snd out = log ++ [req]
      /\ (status_code r = 200 ->
          (forall fields, resp_json r = Some (VDict fields) ->
             fst out = let* attrs := new c fields in Ok (VModel c attrs))
          /\ (resp_json r = None -> exists msg, fst out = Raise (TypeError msg)))).
Proof.
  intros req r out. unfold out, CrudModelApi_load. split.
  - intros ->. reflexivity.
  - intros ->. cbn [negb]. unfold abind, lift, _get.
    destruct (make_request_run server GET 200 [Lit ep; Arg id] None None log)
      as [o [-> Ho]]. fold req r in Ho.
    split; [destruct o; reflexivity|].
    intros Hs. destruct (Ho Hs) as [resp [-> Hj]]. cbn [fst].
    unfold unpack. cbn [response_json bind]. rewrite Hj. split.
    + intros fields ->. reflexivity.
    + intros ->. cbn. eexists. reflexivity.
Qed.

End ResourceFacts.

(** X9 on a sample: a subject loaded under id 7 is deleted. *)
Lemma delete_by_id_or_model_witness :
  snd (CrudModelApi_delete Samples.server_200 "subjects" Subject
         (VModel Subject [("id", @VInt TextLib.lib 7)]) [] [])
  = [{| req_method := DELETE; req_endpoint := [Lit "subjects"; Arg (VInt 7)];
        req_data := None; req_params := None |}].
Proof.
  destruct (delete_by_id_or_model (L := TextLib.lib) Samples.server_200 "subjects"
              Subject (VModel Subject [("id", VInt 7)]) [] [])
    as (_ & H & _).
  exact (H Subject [("id", VInt 7)] (VInt 7) eq_refl eq_refl eq_refl eq_refl).
Defined.

(** X10 on a sample: the service answers the DELETE with 200. *)
Lemma delete_accepts_any_non_error_status_witness :
  CrudModelApi_delete Samples.server_200 "subjects" Subject (@VInt TextLib.lib 7) [] []
  = (Ok tt, [{| req_method := DELETE; req_endpoint := [Lit "subjects"; Arg (VInt 7)];
                req_data := None; req_params := None |}]).
Proof.
  apply (delete_accepts_any_non_error_status (L := TextLib.lib) Samples.server_200
           "subjects" Subject (VInt 7) [] []).
  - reflexivity.
  - reflexivity.
  - left. simpl. lia.
Defined.

(** X11 on a sample: a new subject is saved and the service answers the
    POST with 200. *)
Lemma save_unexpected_status_type_error_witness :
  CrudModelApi_save Samples.server_200 "subjects" Subject
    [("name", @VStr TextLib.lib "ACME")] []
  = (Raise (TypeError "'NoneType' object is not subscriptable"),
     [{| req_method := POST; req_endpoint := [Lit "subjects"];
         req_data := Some (VDict [("name", VStr "ACME")]); req_params := None |}]).
Proof.
  apply (save_unexpected_status_type_error (L := TextLib.lib) Samples.server_200
           "subjects" Subject [("name", VStr "ACME")] [("name", VStr "ACME")]
           [("name", VStr "ACME")] []).
  - reflexivity.
  - reflexivity.
  - simpl. discriminate.
  - reflexivity.
  - left. simpl. lia.
Defined.

(** X12 on a sample: subject 7 is loaded and the service answers with an
    empty object. *)
Lemma load_gets_one_object_witness :
  fst (CrudModelApi_load Samples.server_200 "subjects" Subject (@VInt TextLib.lib 7) [])
  = Ok (VModel Subject []).
Proof.
  destruct (load_gets_one_object (L := TextLib.lib) Samples.server_200 "subjects"
              Subject (VInt 7) []) as [_ H].
  destruct (H eq_refl) as [_ H'].
  destruct (H' eq_refl) as [H'' _].
  exact (H'' [] eq_refl).
Defined.

Section EventAndFilterFacts.
Context {L : PyLib}.
Variable server : list request -> request -> response.

Lemma keys_subset_not_in (k : string) (allowed : list string) (kwargs : pydict) :
  keys_subset kwargs allowed = true ->
  str_in k allowed = false ->
  dict_get k kwargs = None.
Proof.
  unfold keys_subset. intros Hs Hk. apply dict_get_None_keys. intros Hin.
  rewrite forallb_forall in Hs. rewrite (Hs k Hin) in Hk. discriminate Hk.
Qed.

(** X13. [fire] with an int id, a listed event and allowed keyword
    arguments sends one POST to the [fire] endpoint of the document, with
    an empty object as body and, as query parameters, the event followed
    by the keyword arguments. The date argument ([paid_at] for invoices,
    [paid_on] for expenses) is sent in ISO form when it is a date or a
    datetime; any other value for it stops the call with a type error
    before the request. A 201 makes the call return. *)
Theorem fire_sends_event
    (a : event_adapter) (id event : value) (kwargs : pydict) (log : list request) :
  is_int id = true ->
  value_in event (EVENTS a) = true ->
  keys_subset kwargs (EVENT_ARGS a event) = true ->
  List.NoDup (dict_keys kwargs) ->
  let out := fire server a id event kwargs log in
  let sends (req : request) :=
    snd out = log ++ [req]
    /\ (status_code (server log req) = 201 -> fst out = Ok tt) in
  match dict_get (event_date_arg a) kwargs with
  | None => sends (fire_request a id event kwargs)
  | Some d =>
      if is_date d
      then forall iso, isoformat d = Ok iso ->
             sends (fire_request a id event (dict_set (event_date_arg a) iso kwargs))
      else exists msg, out = (Raise (TypeError msg), log)
  end.
Proof.
  intros Hi He Hk Hnd out sends.
  assert (Hev : dict_get "event" kwargs = None).
  { apply (keys_subset_not_in _ _ _ Hk).
    destruct a; cbn [EVENT_ARGS]; unfold InvoicesApi_EVENT_ARGS, ExpensesApi_EVENT_ARGS;
      destruct (py_eq (VStr "pay") event); reflexivity. }
  assert (Hparams : dict_update [("event", event)] kwargs = ("event", event) :: kwargs).
  { rewrite dict_update_fresh; [reflexivity | exact Hnd |].
    intros k Hin. cbn [dict_get].
    destruct (String.eqb_spec k "event") as [->|_]; [|reflexivity].
    apply dict_get_None_keys in Hev. contradiction. }
  assert (Hpost : forall kw,
            let req := fire_request a id event kw in
            let o := abind (_post server [Lit (event_resource a); Arg id; Lit "fire"]
                              (VDict []) (Some (("event", event) :: kw)))
                       (fun _ => ret tt) log in
            snd o = log ++ [req]
            /\ (status_code (server log req) = 201 -> fst o = Ok tt)).
  { intros kw req o. unfold o, abind. rewrite post_json by reflexivity.
    destruct (make_request_run server POST 201 [Lit (event_resource a); Arg id; Lit "fire"]
                (Some (VDict [])) (Some (("event", event) :: kw)) log) as [r [-> Hr]].
    split; [destruct r; reflexivity|].
    intros Hs. destruct (Hr Hs) as [resp [-> _]]. reflexivity. }
  assert (Hdate : dict_get (event_date_arg a) (("event", event) :: kwargs)
                  = dict_get (event_date_arg a) kwargs)
    by (destruct a; reflexivity).
  assert (Hfire : out = fire_with server
                          (match a with InvoiceEvents => "invoice_id"
                                      | ExpenseEvents => "expense_id" end)
                          (EVENTS a) (EVENT_ARGS a) (event_date_arg a) (event_resource a)
                          id event kwargs log)
    by (destruct a; reflexivity).
  unfold fire_with in Hfire. rewrite Hi, He, Hk, Hparams, Hdate in Hfire.
  cbn [negb] in Hfire.
  destruct (dict_get (event_date_arg a) kwargs) as [d|].
  - destruct (is_date d) eqn:Hd; cbn [negb] in Hfire.
    + intros iso Hiso. rewrite Hiso in Hfire.
      assert (Hset : dict_set (event_date_arg a) iso (("event", event) :: kwargs)
                     = ("event", event) :: dict_set (event_date_arg a) iso kwargs)
        by (destruct a; reflexivity).
      assert (Hout : out = abind (_post server
                                    [Lit (event_resource a); Arg id; Lit "fire"] (VDict [])
                                    (Some (dict_set (event_date_arg a) iso
                                             (("event", event) :: kwargs))))
                             (fun _ => ret tt) log) by exact Hfire.
      rewrite Hset in Hout. unfold sends. rewrite Hout.
      exact (Hpost (dict_set (event_date_arg a) iso kwargs)).
    + eexists. rewrite Hfire. reflexivity.
  - unfold sends. rewrite Hfire. exact (Hpost kwargs).
Qed.

Lemma int_filter_passes (name : string) (v : value) (p : pydict) :
  passes_int_filter v = true ->
  int_filter name v p = Ok (if py_truthy v then dict_set name v p else p).
Proof.
  unfold passes_int_filter, int_filter. destruct (py_truthy v); simpl; [|reflexivity].
  intros ->. reflexivity.
Qed.

Lemma date_filter_passes (name : string) (v : value) (p : pydict) :
  passes_date_filter v = true ->
  exists p', date_filter name v p = Ok p'
             /\ (p' = p \/ exists iso, p' = dict_set name iso p).
Proof.
  unfold passes_date_filter, date_filter. destruct (py_truthy v); simpl; [|eauto].
  intros Hd. rewrite Hd. destruct v; try discriminate Hd; simpl; eauto.
Qed.

Lemma params_ok_set (k : string) (v : value) (p : pydict) :
  k <> "page" -> params_ok p -> params_ok (dict_set k v p).
Proof.
  intros Hk [Hnd Hp]. split.
  - destruct (dict_get k p) as [x|] eqn:E.
    + rewrite (dict_set_keys k v x p E). exact Hnd.
    + rewrite (dict_set_fresh k v p E). unfold dict_keys. rewrite List.map_app.
      apply List.NoDup_app; [exact Hnd | repeat constructor; simpl; tauto |].
      intros x Hin [<-|[]]. apply dict_get_None_keys in E. exact (E Hin).
  - rewrite dict_get_set. apply not_eq_sym, String.eqb_neq in Hk. rewrite Hk. exact Hp.
Qed.

Lemma int_filter_keeps (name : string) (v : value) (p p' : pydict) :
  int_filter name v p = Ok p' -> name <> "page" -> params_ok p -> params_ok p'.
Proof.
  unfold int_filter. intros H Hn Hp.
  destruct (py_truthy v); [|injection H as <-; exact Hp].
  destruct (is_int v); [|discriminate H]. injection H as <-.
  apply params_ok_set; assumption.
Qed.

Lemma date_filter_keeps (name : string) (v : value) (p p' : pydict) :
  date_filter name v p = Ok p' -> name <> "page" -> params_ok p -> params_ok p'.
Proof.
  unfold date_filter. intros H Hn Hp.
  destruct (py_truthy v); [|injection H as <-; exact Hp].
  destruct (is_date v); [|discriminate H]. cbn [negb] in H.
  apply bind_Ok in H as [iso [_ H]]. injection H as <-.
  apply params_ok_set; assumption.
Qed.

Lemma plain_filter_keeps (name : string) (v : value) (p : pydict) :
  name <> "page" -> params_ok p -> params_ok (plain_filter name v p).
Proof.
  unfold plain_filter. intros Hn Hp.
  destruct (py_truthy v); [apply params_ok_set; assumption | exact Hp].
Qed.

Lemma status_filter_keeps (statuses : list string) (v : value) (p p' : pydict) :
  status_filter statuses v p = Ok p' -> params_ok p -> params_ok p'.
Proof.
  unfold status_filter. intros H Hp.
  destruct (py_truthy v); [|injection H as <-; exact Hp].
  destruct (value_in v statuses); [|discriminate H]. injection H as <-.
  apply params_ok_set; [discriminate | exact Hp].
Qed.

Lemma params_ok_nil : params_ok [].
Proof. split; [constructor | reflexivity]. Qed.

(** A listing [find] sends nothing, and the parameters of the list it
    builds are well formed. *)
Lemma listing_find_params (q : listing) (log log' : list request) (ml : ModelList) :
  listing_find q log = (Ok ml, log') ->
  log' = log /\ params_ok (ml_params ml).
Proof.
  intros H.
  destruct q as [a|a|a]; cbn [listing_find] in H;
    unfold SubjectsApi_find, InvoicesApi_find, ExpensesApi_find, lift in H;
    injection H as H <-; (split; [reflexivity|]);
    repeat (apply bind_Ok in H as [? [? H]]); injection H as <-; cbn [ml_params];
    try (destruct (if_proforma a); try apply params_ok_set; try discriminate);
    repeat first
      [ exact params_ok_nil
      | apply plain_filter_keeps; [discriminate|]
      | eapply status_filter_keeps; [eassumption|]
      | eapply date_filter_keeps; [eassumption | discriminate |]
      | eapply int_filter_keeps; [eassumption | discriminate |] ].
Qed.

End EventAndFilterFacts.

Section ListingFacts.
Context {L : PyLib}.
Variable server : list request -> request -> response.

(** X14. The [find] of invoices and of expenses checks the status after
    the int and date filters: with those passing, a status that is true
    in a condition and is not one the adapter knows ends the call in a
    value error (the message speaks of an invoice status for expenses
    too), and a known one is put among the parameters of the list. In
    both cases nothing is sent. *)
Theorem find_checks_status
    (q : listing) (s : value) (statuses : list string) (log : list request) :
  listing_status q = Some (s, statuses) ->
  Forall (fun v => passes_int_filter v = true) (listing_int_filters q) ->
  Forall (fun v => passes_date_filter v = true) (listing_date_filters q) ->
  py_truthy s = true ->
  if value_in s statuses
  then exists ml, listing_find q log = (Ok ml, log)
                  /\ dict_get "status" (ml_params ml) = Some s
  else listing_find q log
       = (Raise (ValueError (VStr (String.append
                                     "invalid invoice status, expected one of "
                                     (join_comma statuses)))), log).
Proof.
  intros Hst Hint Hdate Ht.
  destruct q as [a|a|a]; cbn [listing_status] in Hst; [discriminate Hst| |];
    injection Hst as <- <-;
    cbn [listing_int_filters listing_date_filters] in Hint, Hdate;
    repeat match goal with
           | H : Forall _ (_ :: _) |- _ => apply Forall_cons_iff in H as [? H]
           end;
    cbn [listing_find]; unfold InvoicesApi_find, ExpensesApi_find, lift;
    rewrite int_filter_passes by assumption; cbn [bind];
    repeat match goal with
           | H : passes_date_filter ?v = true
             |- context [date_filter ?name ?v ?p] =>
               let p' := fresh "p" in
               destruct (date_filter_passes name v p H) as (p' & -> & _); cbn [bind]
           end;
    unfold status_filter; rewrite Ht;
    match goal with |- context [value_in ?s ?l] => destruct (value_in s l) end;
    cbn [negb bind]; try reflexivity;
    eexists; (split; [reflexivity|]); cbn [ml_params].
  - destruct (if_proforma a); rewrite ?dict_get_set; reflexivity.
  - unfold plain_filter. destruct (py_truthy (ef_variable_symbol a));
      rewrite ?dict_get_set; reflexivity.
Qed.

(** X15. The pages of a list that [find] built: [find] itself sends
    nothing, and [load_page(n)] sends one GET to the endpoint of the
    list with the page number [n + 1] (pages are numbered from 1 on the
    wire) followed by the filters of the list. A 200 with a JSON array
    gives what [unpack] builds from its items. *)
Theorem load_page_requests_page
    (q : listing) (ml : ModelList) (n : nat) (log0 log1 log : list request) :
  listing_find q log0 = (Ok ml, log1) ->
  let req := page_request ml n in
  let r := server log req in
  let out := ModelList_load_page server ml n log in
  log1 = log0
  /\ snd out = log ++ [req]
  /\ (status_code r = 200 ->
      forall items, resp_json r = Some (VList items) ->
        fst out = unpack_list (ml_model ml) items).
Proof.
  intros H req r out.
  destruct (listing_find_params q log0 log1 ml H) as [-> [Hnd Hpage]].
  split; [reflexivity|].
  assert (Hparams : dict_update [("page", VInt (Z.of_nat n + 1))] (ml_params ml)
                    = ("page", VInt (Z.of_nat n + 1)) :: ml_params ml).
  { rewrite dict_update_fresh; [reflexivity | exact Hnd |].
    intros k Hin. cbn [dict_get].
    destruct (String.eqb_spec k "page") as [->|_]; [|reflexivity].
    apply dict_get_None_keys in Hpage. contradiction. }
  unfold out, ModelList_load_page. cbv zeta. rewrite Hparams.
  unfold abind, lift, _get.
  match goal with
  | |- context [_make_request ?s ?m ?st ?ep ?d ?ps ?lg] =>
      destruct (make_request_run s m st ep d ps lg) as [o [-> Ho]]
  end.
  split.
  - destruct o as [resp|e]; [|reflexivity].
    destruct (unpack (ml_model ml) resp); reflexivity.
  - intros Hs. destruct (Ho Hs) as [resp [-> Hj]].
    assert (Hj' : json resp = match resp_json r with Some j => j | None => VNone end)
      by exact Hj.
    unfold unpack. cbn [response_json bind fst]. rewrite Hj'.
    intros items ->.
    destruct (unpack_list (ml_model ml) items); reflexivity.
Qed.

(** X16. [unpack] on a JSON array: it returns exactly when every item
    is an object from which a model can be built, and then the result
    has one model per item, in the order of the array. *)
Theorem unpack_array_in_order
    (c : model_class) (r : option api_response) (items : list value) (v : value) :
  response_json r = Ok (VList items) ->
  unpack c r = Ok v <-> exists objs, v = VList objs /\ Forall2 (unpacked c) items objs.
Proof.
  intros Hr. unfold unpack. rewrite Hr. cbn [bind].
  assert (Hlist : forall objs,
            unpack_list c items = Ok objs <-> Forall2 (unpacked c) items objs).
  { clear Hr. induction items as [|item items IH]; intros objs; cbn [unpack_list].
    - split.
      + intros [= <-]. constructor.
      + intros HF. apply Forall2_nil_inv_l in HF. subst. reflexivity.
    - split.
      + intros H. apply bind_Ok in H as [obj [Hobj H]].
        apply bind_Ok in H as [rest [Hrest H]]. injection H as <-.
        constructor; [|apply IH, Hrest].
        destruct item; try discriminate Hobj. cbn [unpack_one] in Hobj.
        apply bind_Ok in Hobj as [attrs [Hattrs Hobj]]. injection Hobj as <-.
        eexists. eexists. eauto.
      + intros HF. apply Forall2_cons_inv_l in HF as (obj & rest & Hu & HF & ->).
        destruct Hu as (fields & attrs & -> & Hnew & ->).
        cbn [unpack_one]. rewrite Hnew. cbn [bind].
        apply IH in HF. rewrite HF. reflexivity. }
  split.
  - intros H. apply bind_Ok in H as [objs [Hobjs H]]. injection H as <-.
    exists objs. split; [reflexivity | apply Hlist, Hobjs].
  - intros (objs & -> & HF). apply Hlist in HF. rewrite HF. reflexivity.
Qed.

(** X17. [search] sends its query as it is: a query that is no string
    gives a type error and no request; a string, the empty one too,
    gives one GET to [subjects/search] with the query as only
    parameter, and a 200 with a JSON array gives the subjects built from
    its items. *)
Theorem search_sends_query (query : value) (log : list request) :
  let req := {| req_method := GET; req_endpoint := [Lit "subjects/search"];
                req_data := None; req_params := Some [("query", query)] |} in
  let r := server log req in
  let out := SubjectsApi_search server query log in
  (is_str query = false
   -> out = (Raise (TypeError "'query' parameter must be str"), log))
  /\ (is_str query = true ->
      snd out = log ++ [req]
      /\ (status_code r = 200 ->
          forall items, resp_json r = Some (VList items) ->
            fst out = let* objs := unpack_list Subject items in Ok (VList objs))).
Proof.
  intros req r out. unfold out, SubjectsApi_search. split.
  - intros ->. reflexivity.
  - intros ->. cbn [negb]. unfold abind, lift, _get.
    destruct (make_request_run server GET 200 [Lit "subjects/search"] None
                (Some [("query", query)]) log) as [o [-> Ho]].
    fold req r in Ho.
    split; [destruct o; reflexivity|].
    intros Hs items Hitems. destruct (Ho Hs) as [resp [-> Hj]]. cbn [fst].
    unfold unpack. cbn [response_json bind]. rewrite Hj, Hitems. reflexivity.
Qed.

End ListingFacts.

(** X13 on a sample: invoice 7 is paid on a given day. *)
Lemma fire_sends_event_witness :
  snd (fire Samples.server_201 InvoiceEvents (VInt 7) (VStr "pay")
         [("paid_at", @VDate TextLib.lib "2024-01-02")] [])
  = [{| req_method := POST;
        req_endpoint := [Lit "invoices"; Arg (VInt 7); Lit "fire"];
        req_data := Some (VDict []);
        req_params := Some [("event", VStr "pay"); ("paid_at", VStr "2024-01-02")] |}]
  /\ fst (fire Samples.server_201 InvoiceEvents (VInt 7) (VStr "pay")
            [("paid_at", @VDate TextLib.lib "2024-01-02")] [])
     = Ok tt.
Proof.
  destruct (fire_sends_event (L := TextLib.lib) Samples.server_201 InvoiceEvents
              (VInt 7) (VStr "pay") [("paid_at", @VDate TextLib.lib "2024-01-02")] []
              eq_refl eq_refl eq_refl
              ltac:(repeat constructor; simpl; intuition discriminate)
              (VStr "2024-01-02") eq_refl) as [H1 H2].
  split; [exact H1 | exact (H2 eq_refl)].
Defined.

(** X14 on a sample: invoices are searched by a status the adapter does
    not know. *)
Lemma find_checks_status_witness :
  listing_find
    (ListInvoices {| if_proforma := VNone; if_subject_id := VNone; if_since := VNone;
                     if_until := VNone; if_updated_since := VNone;
                     if_updated_until := VNone; if_number := VNone;
                     if_status := @VStr TextLib.lib "draft"; if_custom_id := VNone |}) []
  = (Raise (ValueError (VStr "invalid invoice status, expected one of open, sent, overdue, paid, cancelled")), []).
Proof.
  exact (find_checks_status (L := TextLib.lib)
           (ListInvoices {| if_proforma := VNone; if_subject_id := VNone;
                            if_since := VNone; if_until := VNone;
                            if_updated_since := VNone; if_updated_until := VNone;
                            if_number := VNone; if_status := VStr "draft";
                            if_custom_id := VNone |})
           (VStr "draft") InvoicesApi_STATUSES [] eq_refl
           ltac:(repeat constructor) ltac:(repeat constructor) eq_refl).
Defined.

(** X15 on a sample: the first page of the subjects with a custom id. *)
Lemma load_page_requests_page_witness :
  snd (ModelList_load_page Samples.server_200
         {| ml_model := Subject; ml_endpoint := "subjects";
            ml_params := [("custom_id", @VStr TextLib.lib "c1")] |} 0 [])
  = [{| req_method := GET; req_endpoint := [Lit "subjects"]; req_data := None;
        req_params := Some [("page", VInt 1); ("custom_id", VStr "c1")] |}].
Proof.
  destruct (load_page_requests_page (L := TextLib.lib) Samples.server_200
              (ListSubjects {| sf_since := VNone; sf_updated_since := VNone;
                               sf_custom_id := VStr "c1" |})
              {| ml_model := Subject; ml_endpoint := "subjects";
                 ml_params := [("custom_id", VStr "c1")] |} 0 [] [] [] eq_refl)
    as (_ & H & _).
  exact H.
Defined.

(** X16 on a sample: an array of two subjects. *)
Lemma unpack_array_in_order_witness :
  unpack Subject
    (Some {| json := VList [VDict [("name", @VStr TextLib.lib "A")];
                            VDict [("name", VStr "B")]];
             page_count := None |})
  = Ok (VList [VModel Subject [("name", VStr "A")];
               VModel Subject [("name", VStr "B")]]).
Proof.
  apply (proj2 (unpack_array_in_order (L := TextLib.lib) Subject
                  (Some {| json := VList [VDict [("name", VStr "A")];
                                          VDict [("name", VStr "B")]];
                           page_count := None |})
                  [VDict [("name", VStr "A")]; VDict [("name", VStr "B")]]
                  _ eq_refl)).
  eexists. split; [reflexivity|].
  repeat constructor; eexists; eexists; repeat split.
Defined.

(** X17 on a sample: a search for the empty string. *)
Lemma search_sends_query_witness :
  snd (SubjectsApi_search Samples.server_200 (@VStr TextLib.lib "") [])
  = [{| req_method := GET; req_endpoint := [Lit "subjects/search"];
        req_data := None; req_params := Some [("query", VStr "")] |}].
Proof.
  destruct (search_sends_query (L := TextLib.lib) Samples.server_200 (VStr "") [])
    as [_ H].
  destruct (H eq_refl) as [H' _]. exact H'.
Defined.

(** * From the service and back *)

Section LoadedInvoice.
Context {L : PyLib}.

(** X18. An invoice built from what the service sends, each of its
    lines an object with an int id, and serialized as it is: [get_fields]
    returns, and ['lines'] holds the round trip of each line sent, in
    order, and then every line sent once more, flagged with [_destroy].
    No key of the invoice or of a line hides [Meta] or a method of
    [get_fields]. *)
Theorem loaded_invoice_resends_lines
    (c : model_class) (fields attrs : pydict) (ds : list pydict) :
  is_invoice_like c = true ->
  class_writable c "lines" = true ->
  List.NoDup (dict_keys fields) ->
  Forall (fun kv => is_json (snd kv) = true) fields ->
  plain fields = true ->
  dict_get "lines" fields = Some (VList (List.map VDict ds)) ->
  dict_get "_loaded_lines" fields = None ->
  Forall (fun d => List.NoDup (dict_keys d)
                   /\ plain d = true
                   /\ exists z, dict_get "id" d = Some (VInt z)) ds ->
  new c fields = Ok attrs ->
  exists attrs' data outs,
    get_fields c attrs = Ok (attrs', data)
    /\ Forall2 (fun d out => round_trip InvoiceLine d = Ok out) ds outs
    /\ dict_get "lines" data
       = Some (VList (List.map VDict outs ++ List.map flagged ds)).
Proof.
  intros Hc Hw Hnd Hj Hp Hl Hlo Hds Hnew.
  pose proof (new_no_self _ _ _ Hnew) as Hself.
  destruct (new_lines_built c fields attrs ds Hc Hl Hnew) as [las HF].
  assert (Hjl : Forall (fun d => Forall (fun kv => is_json (snd kv) = true) d) ds).
  { apply json_lines. apply (Forall_dict_get _ _ _ _ Hj Hl). }
  assert (Hls : Forall (fun la => Forall (fun kv => simple (snd kv) = true) la
                                  /\ List.NoDup (dict_keys la)
                                  /\ plain la = true) las).
  { apply (lines_new_simple ds las HF); [|exact Hjl].
    eapply List.Forall_impl; [|exact Hds]. intros d (H1 & H2 & _). split; assumption. }
  rewrite (new_with_dict_lines c fields ds las Hc Hnd Hself Hl HF) in Hnew.
  destruct (coerce_items c (dict_pop "lines" fields)) as [f1|e] eqn:E;
    [|discriminate Hnew].
  cbn [bind] in Hnew. injection Hnew as <-.
  rewrite all_remote_lines
    by (eapply List.Forall_impl; [|exact Hds]; intros d (_ & _ & H); exact H).
  assert (Hlo1 : dict_get "_loaded_lines" f1 = None).
  { apply (coerce_items_get_None c _ _ _ E).
    rewrite dict_get_pop_other by discriminate. exact Hlo. }
  unfold getattr_default. rewrite Hlo1, (dict_pop_absent _ _ Hlo1).
  assert (Hj1 : Forall (fun kv => is_json (snd kv) = true) (dict_pop "lines" fields)).
  { apply List.Forall_forall. intros kv H. rewrite List.Forall_forall in Hj.
    apply Hj, (dict_pop_In "lines"), H. }
  pose proof (coerce_items_simple c _ _ Hj1 E) as Hs.
  pose proof (coerce_items_keys c _ _ E) as Hk.
  destruct (dict_pop_keys "lines" fields Hnd) as [Hnd1 Hno1].
  rewrite (get_fields_with_lines c _ las ds Hc Hw).
  - eexists. eexists. exists (List.map (serialized_fields InvoiceLine) las).
    split; [reflexivity|]. split; [apply lines_round_trip; assumption|].
    unfold serialized_invoice. cbn [List.filter fst snd]. rewrite Hw.
    cbn [List.map fst snd dict_get String.eqb Ascii.eqb Bool.eqb].
    rewrite List.map_map. reflexivity.
  - apply holds_lines_built; try assumption.
    + rewrite Hk. exact Hnd1.
    + rewrite Hk. exact Hno1.
    + apply dict_get_None_keys, Hlo1.
    + apply (plain_incl fields); [|exact Hp]. intros k _ H. rewrite Hk in H.
      apply in_map_iff in H as [kv [<- H]]. apply in_map, (dict_pop_In "lines"), H.
    + apply List.Forall_forall. intros d Hin.
      rewrite List.Forall_forall in Hds, Hjl. destruct (Hds d Hin) as (_ & _ & Hz).
      split; [|exact Hz]. rewrite is_json_dict. apply forallb_forall.
      specialize (Hjl d Hin). rewrite List.Forall_forall in Hjl. exact Hjl.
Qed.

(** X19. A line built from a dictionary that names no quantity, and has
    no key that hides [Meta] or a method of [get_fields], has the
    quantity [Decimal(1)], as its first attribute, and is serialized
    with it: the client sends a quantity the caller never gave. *)
Theorem new_line_gets_quantity
    (c : model_class) (fields attrs : pydict) :
  cls_kind c = LineModel ->
  List.NoDup (dict_keys fields) ->
  Forall (fun kv => is_json (snd kv) = true) fields ->
  plain fields = true ->
  dict_get "quantity" fields = None ->
  new c fields = Ok attrs ->
  exists rest data,
    attrs = ("quantity", VDecimal Decimal_one) :: rest
    /\ get_fields c attrs = Ok (attrs, data)
    /\ (class_writable c "quantity" = true ->
        dict_get "quantity" data = Some (VStr (decimal_str Decimal_one))).
Proof.
  intros Hkind Hnd Hj Hp Hq Hnew.
  pose proof (new_no_self _ _ _ Hnew) as Hself.
  assert (Hi : is_invoice_like c = false) by (unfold is_invoice_like; rewrite Hkind; reflexivity).
  rewrite new_built in Hnew by (try assumption; rewrite Hi; discriminate).
  destruct (coerce_items c fields) as [fields'|e] eqn:E; [|discriminate Hnew].
  injection Hnew as <-.
  pose proof (coerce_items_keys c _ _ E) as Hk.
  pose proof (coerce_items_simple c _ _ Hj E) as Hs.
  assert (Hq' : dict_get "quantity" fields' = None).
  { apply dict_get_None_keys. rewrite Hk. apply dict_get_None_keys, Hq. }
  assert (Hb : built c fields' = ("quantity", VDecimal Decimal_one) :: fields').
  { unfold built, getattr_default. rewrite Hkind, Hq', (dict_pop_absent _ _ Hq').
    reflexivity. }
  rewrite Hb. exists fields', (serialized_fields c (("quantity", VDecimal Decimal_one) :: fields')).
  split; [reflexivity|]. split.
  - apply get_fields_simple.
    + apply plain_cons; [simpl; intuition discriminate|].
      rewrite (plain_keys fields fields' Hk). exact Hp.
    + constructor; [reflexivity | exact Hs].
    + rewrite Hi. discriminate.
    + change (List.NoDup ("quantity" :: dict_keys fields')).
      constructor; [apply dict_get_None_keys, Hq' | rewrite Hk; exact Hnd].
  - intros W. rewrite (dict_get_serialized_fields c _ _ W). reflexivity.
Qed.

End LoadedInvoice.

(** X18 on the sample library: an invoice with one line, known to the
    service under id 1. *)
Lemma loaded_invoice_resends_lines_witness :
  exists attrs' data outs,
    get_fields Invoice InvoiceSamples.invoice = Ok (attrs', data)
    /\ Forall2 (fun d out => round_trip InvoiceLine d = Ok out)
         [InvoiceSamples.remote] outs
    /\ dict_get "lines" data
       = Some (VList (List.map VDict outs
                      ++ [VDict [("id", VInt 1); ("name", VStr "a");
                                 ("_destroy", VBool true)]])).
Proof.
  apply (loaded_invoice_resends_lines (L := TextLib.lib) Invoice
           [("lines", VList [VDict InvoiceSamples.remote]);
            ("number", VStr "2024-0001")]
           InvoiceSamples.invoice [InvoiceSamples.remote]).
  - reflexivity.
  - reflexivity.
  - repeat constructor; simpl; intuition discriminate.
  - repeat constructor.
  - reflexivity.
  - reflexivity.
  - reflexivity.
  - constructor; [|constructor].
    split; [repeat constructor; simpl; intuition discriminate|].
    split; [reflexivity | exists 1; reflexivity].
  - reflexivity.
Defined.

(** X19 on the sample library: a line that has a name only. *)
Lemma new_line_gets_quantity_witness :
  exists rest data,
    [("quantity", @VDecimal TextLib.lib "1"); ("name", VStr "a")]
    = ("quantity", @VDecimal TextLib.lib "1") :: rest
    /\ get_fields InvoiceLine [("quantity", @VDecimal TextLib.lib "1"); ("name", VStr "a")]
       = Ok ([("quantity", @VDecimal TextLib.lib "1"); ("name", VStr "a")], data)
    /\ (class_writable InvoiceLine "quantity" = true ->
        dict_get "quantity" data = Some (VStr "1")).
Proof.
  exact (new_line_gets_quantity (L := TextLib.lib) InvoiceLine [("name", VStr "a")]
           [("quantity", @VDecimal TextLib.lib "1"); ("name", VStr "a")]
           eq_refl ltac:(repeat constructor; simpl; intuition discriminate)
           ltac:(repeat constructor) eq_refl eq_refl eq_refl).
Defined.
